(** * Quantys front end: a shallow embedding of the client code

    The browser application of the repository (the HTTP client hook
    [useApi], the root component [SageInventoryApp], the progress
    indicator, the quick session panel and the session dashboard) is
    translated function by function.  JavaScript strings are sequences of
    UTF-16 code units, values coming from the backend are JSON values,
    [useState] cells are fields of a state record, and every effect a
    handler performs (a state write, a [fetch], a toast, a console line)
    is appended to a trace. *)

From Stdlib Require Import Ascii String.
From Stdlib Require Import List NArith ZArith Bool Lia.
From Stdlib Require Import Numbers.DecimalString Floats.
Import ListNotations.

Set Implicit Arguments.
Set Warnings "-register-all,-inexact-float".

(* ================================================================== *)
(** ** JavaScript strings and values *)
(* ================================================================== *)

Module JS.

(** A string is the list of its UTF-16 code units. *)
Definition code_unit := N.
Definition jsstring := list code_unit.

Fixpoint jsstring_eqb (a b : jsstring) : bool :=
  match a, b with
  | [], [] => true
  | x :: a', y :: b' => N.eqb x y && jsstring_eqb a' b'
  | _, _ => false
  end.

(** *** UTF-8, used for the literals of this file and by
    [decodeURIComponent] *)

Definition is_cont (b : N) : bool := (128 <=? b)%N && (b <=? 191)%N.

(** Strict UTF-8 decoding to code points: [None] on a stray or missing
    continuation byte, an overlong form, a surrogate or a value above
    U+10FFFF. *)
Fixpoint utf8_decode (bs : list N) : option (list N) :=
  match bs with
  | [] => Some []
  | b0 :: r0 =>
      if (b0 <? 128)%N then option_map (cons b0) (utf8_decode r0)
      else if (b0 <? 194)%N then None
      else if (b0 <? 224)%N then
        match r0 with
        | b1 :: r1 =>
            if is_cont b1
            then option_map (cons ((b0 - 192) * 64 + (b1 - 128))%N) (utf8_decode r1)
            else None
        | _ => None
        end
      else if (b0 <? 240)%N then
        match r0 with
        | b1 :: b2 :: r2 =>
            let cp := ((b0 - 224) * 4096 + (b1 - 128) * 64 + (b2 - 128))%N in
            if is_cont b1 && is_cont b2 && (2048 <=? cp)%N
               && negb ((55296 <=? cp)%N && (cp <=? 57343)%N)
            then option_map (cons cp) (utf8_decode r2)
            else None
        | _ => None
        end
      else if (b0 <? 245)%N then
        match r0 with
        | b1 :: b2 :: b3 :: r3 =>
            let cp := ((b0 - 240) * 262144 + (b1 - 128) * 4096
                       + (b2 - 128) * 64 + (b3 - 128))%N in
            if is_cont b1 && is_cont b2 && is_cont b3
               && (65536 <=? cp)%N && (cp <=? 1114111)%N
            then option_map (cons cp) (utf8_decode r3)
            else None
        | _ => None
        end
      else None
  end.

(** The UTF-16 encoding of one code point. *)
Definition utf16_encode (cp : N) : jsstring :=
  if (cp <? 65536)%N then [cp]
  else [(55296 + (cp - 65536) / 1024)%N; (56320 + (cp - 65536) mod 1024)%N].

Definition utf16_of_code_points (cps : list N) : jsstring :=
  flat_map utf16_encode cps.

(** [js "..."] is the JavaScript string a source literal denotes: the
    literal is read as UTF-8 text, as the source files are. *)
Definition js (s : string) : jsstring :=
  let bytes := map N_of_ascii (list_ascii_of_string s) in
  match utf8_decode bytes with
  | Some cps => utf16_of_code_points cps
  | None => bytes
  end.

(** *** Numbers

    A Number is an IEEE 754 double.  [Number::toString] prints the
    shortest decimal that reads back as the same double, the closest one
    when there are several, and switches to the exponent form from
    1e21 on and below 1e-6.  The double [m * 2^e] is the only one in
    the interval between the midpoints to its two neighbours, ends
    included when [m] is even; the bounds are kept as integers, in units
    of [2^(e-2)]. *)

(** The double nearest to an integer, ties to even. *)
Definition Number_of_Z (z : Z) : float :=
  SF2Prim (binary_normalize 53 1024 z 0 false).

(** The decimal digits of a natural number. *)
Definition decimal (z : Z) : jsstring :=
  js (NilZero.string_of_int (Z.to_int z)).

Definition ceil_div (u v : Z) : Z := (- ((- u) / v))%Z.

Section Shortest.
(** The interval [lo, hi] around [x], closed or open, in units of
    [2^E]. *)
Variables (lo x hi : Z) (closed : bool) (E : Z).

(** [t * 10^q] lies in the interval when
    [lo * scale_value q <= t * scale_digits q <= hi * scale_value q]. *)
Definition scale_value (q : Z) : Z := (2 ^ Z.max E 0 * 10 ^ Z.max (- q) 0)%Z.
Definition scale_digits (q : Z) : Z := (2 ^ Z.max (- E) 0 * 10 ^ Z.max q 0)%Z.

(** The least and the greatest [t] such that [t * 10^q] is in the
    interval. *)
Definition least (q : Z) : Z :=
  if closed then ceil_div (lo * scale_value q) (scale_digits q)
  else (lo * scale_value q / scale_digits q + 1)%Z.

Definition greatest (q : Z) : Z :=
  if closed then (hi * scale_value q / scale_digits q)%Z
  else (ceil_div (hi * scale_value q) (scale_digits q) - 1)%Z.

(** The greatest [q], from [q] downwards, such that a multiple of
    [10^q] is in the interval: it gives the fewest digits. *)
Fixpoint greatest_exponent (fuel : nat) (q : Z) : Z :=
  match fuel with
  | O => q
  | S fuel' =>
      if (least q <=? greatest q)%Z then q else greatest_exponent fuel' (q - 1)%Z
  end.

Fixpoint range (from : Z) (count : nat) : list Z :=
  match count with
  | O => []
  | S c => from :: range (from + 1)%Z c
  end.

Definition between (a b : Z) : list Z := range a (Z.to_nat (b - a + 1)).

Definition distance (q t : Z) : Z :=
  Z.abs (t * scale_digits q - x * scale_value q).

(** The candidate closest to [x], the even one of two at the same
    distance. *)
Fixpoint closest (q : Z) (best : Z) (l : list Z) : Z :=
  match l with
  | [] => best
  | t :: r =>
      closest q
        (match Z.compare (distance q t) (distance q best) with
         | Lt => t
         | Eq => if Z.even t then t else best
         | Gt => best
         end) r
  end.

(** The digits [s] and the exponent [q] of the decimal [s * 10^q]
    printed for [x].  With one digit, the one-digit decimals of the
    next smaller exponent compete (the interval of the smallest
    doubles is wide enough for that). *)
Definition shortest (start : Z) : Z * Z :=
  let q := greatest_exponent 40 start in
  if (greatest q <=? 9)%Z then
    let l := between (least (q - 1)) (Z.min (greatest (q - 1)) 9)
             ++ map (Z.mul 10) (between (least q) (greatest q)) in
    let t := closest (q - 1) (10 * least q)%Z l in
    if (t mod 10 =? 0)%Z then ((t / 10)%Z, q) else (t, (q - 1)%Z)
  else (closest q (least q) (between (least q) (greatest q)), q).

End Shortest.

(** The shortest decimal of the positive double [m * 2^e]; the search
    for the exponent starts just above the decimal logarithm of the
    double. *)
Definition shortest_digits (m : positive) (e : Z) : Z * Z :=
  let boundary := Pos.eqb m (2 ^ 52) && (-1074 <? e)%Z in
  let lo := if boundary then (4 * Z.pos m - 1)%Z else (4 * Z.pos m - 2)%Z in
  let start := ((Z.log2 (Z.pos m) + 1 + e) * 30103 / 100000 + 2)%Z in
  shortest lo (4 * Z.pos m) (4 * Z.pos m + 2) (Z.even (Z.pos m)) (e - 2) start.

(** The digits [s] with [n = k + q] of them before the point: plain
    digits up to 21 integer digits and down to 1e-6, the exponent form
    otherwise. *)
Definition format_digits (s q : Z) : jsstring :=
  let ds := decimal s in
  let k := Z.of_nat (List.length ds) in
  let n := (k + q)%Z in
  if (k <=? n)%Z && (n <=? 21)%Z then ds ++ repeat 48%N (Z.to_nat (n - k))
  else if (0 <? n)%Z && (n <=? 21)%Z then
    firstn (Z.to_nat n) ds ++ js "." ++ skipn (Z.to_nat n) ds
  else if (-6 <? n)%Z && (n <=? 0)%Z then
    js "0." ++ repeat 48%N (Z.to_nat (- n)) ++ ds
  else
    (match ds with
     | d :: (_ :: _) as r => d :: js "." ++ r
     | _ => ds
     end)
    ++ js "e" ++ (if (1 <=? n)%Z then js "+" else js "-") ++ decimal (Z.abs (n - 1)).

(** [Number::toString(v)], radix 10. *)
Definition Number_toString (v : float) : jsstring :=
  match Prim2SF v with
  | S754_zero _ => js "0"
  | S754_infinity false => js "Infinity"
  | S754_infinity true => js "-Infinity"
  | S754_nan => js "NaN"
  | S754_finite sign m e =>
      (if sign then js "-" else [])
      ++ (let '(s, q) := shortest_digits m e in format_digits s q)
  end.

(** [String.prototype.startsWith] and [String.prototype.includes]. *)
Fixpoint startsWith (s p : jsstring) : bool :=
  match p, s with
  | [], _ => true
  | x :: p', y :: s' => N.eqb x y && startsWith s' p'
  | _ :: _, [] => false
  end.

Fixpoint includes (s p : jsstring) : bool :=
  startsWith s p ||
  match s with
  | [] => false
  | _ :: s' => includes s' p
  end.

Fixpoint endsWith_rev (rs rp : jsstring) : bool :=
  match rp, rs with
  | [], _ => true
  | x :: rp', y :: rs' => N.eqb x y && endsWith_rev rs' rp'
  | _ :: _, [] => false
  end.

Definition endsWith (s p : jsstring) : bool := endsWith_rev (rev s) (rev p).

(** WhiteSpace and LineTerminator code points, the ones
    [String.prototype.trim] strips. *)
Definition is_whitespace (c : code_unit) : bool :=
  existsb (N.eqb c)
    [9; 10; 11; 12; 13; 32; 160; 5760; 8232; 8233; 8239; 8287; 12288; 65279]%N
  || ((8192 <=? c)%N && (c <=? 8202)%N).

Fixpoint trimStart (s : jsstring) : jsstring :=
  match s with
  | c :: s' => if is_whitespace c then trimStart s' else s
  | [] => []
  end.

Definition trim (s : jsstring) : jsstring :=
  rev (trimStart (rev (trimStart s))).

(** *** Values

    The values the program handles: what [JSON.parse] produces, plus
    [undefined] and the [File] objects of the file picker.  Numbers are
    doubles.  An object is its property list; the first binding of a
    name is the one property access sees. *)
Inductive value :=
| VUndefined
| VNull
| VBool (b : bool)
| VNum (n : float)
| VStr (s : jsstring)
| VFile (name : jsstring) (size : N)
| VArr (elems : list value)
| VObj (props : list (jsstring * value)).

(** ToBoolean. *)
Definition truthy (v : value) : bool :=
  match v with
  | VUndefined | VNull => false
  | VBool b => b
  | VNum n => negb (PrimFloat.is_zero n || PrimFloat.is_nan n)
  | VStr s => match s with [] => false | _ => true end
  | VFile _ _ | VArr _ | VObj _ => true
  end.

(** [a || b]. *)
Definition or_else (a b : value) : value := if truthy a then a else b.

(** [a === 'literal']. *)
Definition strict_eq_str (a : value) (s : jsstring) : bool :=
  match a with
  | VStr t => jsstring_eqb t s
  | _ => false
  end.

(** ToString, as a template literal and [new Error(v)] apply it. *)
Fixpoint ToString (v : value) : jsstring :=
  match v with
  | VUndefined => js "undefined"
  | VNull => js "null"
  | VBool true => js "true"
  | VBool false => js "false"
  | VNum n => Number_toString n
  | VStr s => s
  | VFile _ _ => js "[object File]"
  | VObj _ => js "[object Object]"
  | VArr l =>
      (fix join (l : list value) : jsstring :=
         match l with
         | [] => []
         | x :: r =>
             let sx := match x with
                       | VUndefined | VNull => []
                       | _ => ToString x
                       end in
             match r with
             | [] => sx
             | _ :: _ => sx ++ js "," ++ join r
             end
         end) l
  end.

Fixpoint lookup (k : jsstring) (props : list (jsstring * value)) : value :=
  match props with
  | [] => VUndefined
  | (k', v) :: r => if jsstring_eqb k k' then v else lookup k r
  end.

(** What a [throw] carries: an [Error] built by the program, or one of
    the errors the platform raises, with its message. *)
Inductive exn :=
| Error (message : jsstring)
| TypeError (message : jsstring)
| SyntaxError (message : jsstring).

Definition message (e : exn) : jsstring :=
  match e with
  | Error m | TypeError m | SyntaxError m => m
  end.

(** [v.k]: a TypeError on [undefined] and [null], the property of an
    object, the two fields of a [File] the program reads, and
    [undefined] on anything else (none of the names the program reads is
    a built-in property of a string, a number or an array). *)
Definition get (v : value) (k : jsstring) : value + exn :=
  match v with
  | VUndefined =>
      inr (TypeError (js "Cannot read properties of undefined (reading '" ++ k ++ js "')"))
  | VNull =>
      inr (TypeError (js "Cannot read properties of null (reading '" ++ k ++ js "')"))
  | VObj props => inl (lookup k props)
  | VFile name size =>
      inl (if jsstring_eqb k (js "name") then VStr name
           else if jsstring_eqb k (js "size") then VNum (Number_of_Z (Z.of_N size))
           else VUndefined)
  | _ => inl VUndefined
  end.

(** A Session, as the backend sends it: a JSON object. *)
Definition Session := list (jsstring * value).

(** [v?.k]. *)
Definition get_opt (v : value) (k : jsstring) : value :=
  match v with
  | VUndefined | VNull => VUndefined
  | _ => match get v k with inl x => x | inr _ => VUndefined end
  end.

End JS.

Import JS.

(* ================================================================== *)
(** ** The platform: fetch, toasts, the console, downloads *)
(* ================================================================== *)

Module Platform.

Inductive method := GET | POST | DELETE.

(** A [FormData]: its entries in the order they were appended. *)
Definition FormData := list (jsstring * value).

(** The value of a form entry: a [File] is kept, anything else is
    turned into a string. *)
Definition form_value (v : value) : value :=
  match v with
  | VFile _ _ => v
  | _ => VStr (ToString v)
  end.

(** [formData.append(name, v)]. *)
Definition append (fd : FormData) (name : jsstring) (v : value) : FormData :=
  fd ++ [(name, form_value v)].

Record Request := {
  url : jsstring;
  req_method : method;
  body : option FormData
}.

(** A response as the program reads it: the status, the
    [Content-Disposition] header ([None] when [headers.get] gives
    [null]), the body as [response.json()] parses it ([inr] when it is
    not JSON text) and the size of the body as a blob. *)
Record Response := {
  status : Z;
  contentDisposition : option jsstring;
  json_body : value + jsstring;
  blob_size : N
}.

(** [response.ok]. *)
Definition ok (r : Response) : bool :=
  (200 <=? status r)%Z && (status r <=? 299)%Z.

(** How a [fetch] settles: with a response, or rejected (no connection)
    with the TypeError's message. *)
Inductive FetchOutcome :=
| Resolved (r : Response)
| Rejected (message : jsstring).

(** The backend: its answer to the [n]-th request the page issues. *)
Definition Backend := nat -> Request -> FetchOutcome.

Inductive ToastKind := success | error | info.

(** The effects of a handler, in the order they happen. *)
Inductive event :=
| Fetch (r : Request)
| SetLoading (b : bool)
| SetError (e : value)
| Toast (kind : ToastKind) (message : jsstring)
| ConsoleLog (level : jsstring) (message : jsstring)
| Download (filename : jsstring).

Definition is_fetch (e : event) : bool :=
  match e with Fetch _ => true | _ => false end.

(** The names of the files a log saved through the browser. *)
Definition downloads (log : list event) : list jsstring :=
  flat_map (fun e => match e with Download f => [f] | _ => [] end) log.

Definition requests (log : list event) : list Request :=
  flat_map (fun e => match e with Fetch r => [r] | _ => [] end) log.

(** *** Handlers as computations

    A handler runs on the state of its component and the log of effects
    so far, and either returns or throws. *)
Section Handlers.
Variable St : Type.

Inductive outcome (A : Type) :=
| Returned (a : A)
| Thrown (e : exn).
Arguments Thrown {A} e.

Definition M (A : Type) := St * list event -> St * list event * outcome A.

Definition ret {A} (a : A) : M A := fun w => (w, Returned a).

Definition bind {A B} (m : M A) (k : A -> M B) : M B :=
  fun w =>
    match m w with
    | (w', Returned a) => k a w'
    | (w', Thrown e) => (w', Thrown e)
    end.

Definition throw {A} (e : exn) : M A := fun w => (w, Thrown e).

(** [try { m } catch (err) { h err }]. *)
Definition try_catch {A} (m : M A) (h : exn -> M A) : M A :=
  fun w =>
    match m w with
    | (w', Returned a) => (w', Returned a)
    | (w', Thrown e) => h e w'
    end.

(** [try { m } finally { f }]: [f] runs on every exit of [m]. *)
Definition try_finally {A} (m : M A) (f : M unit) : M A :=
  fun w =>
    match m w with
    | (w', r) =>
        match f w' with
        | (w'', Returned _) => (w'', r)
        | (w'', Thrown e) => (w'', Thrown e)
        end
    end.

Definition emit (e : event) : M unit :=
  fun w => ((fst w, snd w ++ [e]), Returned tt).

Definition modify (f : St -> St) : M unit :=
  fun w => ((f (fst w), snd w), Returned tt).

(** A property read that may throw. *)
Definition lift {A} (r : A + exn) : M A :=
  match r with
  | inl a => ret a
  | inr e => throw e
  end.

(** [await fetch(url, init)]: the request is logged, and the backend's
    answer to it settles the promise. *)
Definition fetch (backend : Backend) (r : Request) : M Response :=
  fun w =>
    let n := List.length (requests (snd w)) in
    let w' := (fst w, snd w ++ [Fetch r]) in
    match backend n r with
    | Resolved resp => (w', Returned resp)
    | Rejected m => (w', Thrown (TypeError m))
    end.

(** [await response.json()]. *)
Definition json (r : Response) : M value :=
  match json_body r with
  | inl v => ret v
  | inr m => throw (SyntaxError m)
  end.

(** A [for ... of] loop over a list with an [await] in its body: the
    next iteration starts when the previous one has returned, and a
    throw leaves the loop. *)
Fixpoint for_of {A} (l : list A) (body : A -> M unit) : M unit :=
  match l with
  | [] => ret tt
  | x :: r => bind (body x) (fun _ => for_of r body)
  end.

(** A computation of a component run inside a larger state that holds
    the component's ([get] reads it, [set] writes it back). *)
Definition zoom {T A} (get : T -> St) (set : St -> T -> T)
    (m : M A) : T * list event -> T * list event * outcome A :=
  fun w =>
    match m (get (fst w), snd w) with
    | ((s', log'), r) => ((set s' (fst w), log'), r)
    end.

End Handlers.

Arguments Thrown {A} e.
Arguments ret {St A} a.
Arguments throw {St A} e.
Arguments emit {St} e.
Arguments lift {St A} r.
Arguments fetch {St} backend r.
Arguments json {St} r.

Declare Scope handler_scope.
Delimit Scope handler_scope with handler.
Notation "x <- m ;; k" := (bind m (fun x => k))
  (at level 61, m at next level, right associativity) : handler_scope.
Notation "m ;; k" := (bind m (fun _ => k))
  (at level 61, right associativity) : handler_scope.

End Platform.

Import Platform.
Open Scope handler_scope.

(* ================================================================== *)
(** ** Platform functions the download code calls *)
(* ================================================================== *)

Module URI.

Definition hex_digit (c : code_unit) : option N :=
  if (48 <=? c)%N && (c <=? 57)%N then Some (c - 48)%N
  else if (65 <=? c)%N && (c <=? 70)%N then Some (c - 55)%N
  else if (97 <=? c)%N && (c <=? 102)%N then Some (c - 87)%N
  else None.

(** A string read as a sequence of plain code units and [%XX] escapes;
    [None] when a [%] is not followed by two hexadecimal digits. *)
Inductive token :=
| Raw (c : code_unit)
| Pct (b : N).

Fixpoint tokens (s : jsstring) : option (list token) :=
  match s with
  | [] => Some []
  | c :: r =>
      if (c =? 37)%N then
        match r with
        | h1 :: h2 :: r' =>
            match hex_digit h1, hex_digit h2 with
            | Some a, Some b => option_map (cons (Pct (16 * a + b)%N)) (tokens r')
            | _, _ => None
            end
        | _ => None
        end
      else option_map (cons (Raw c)) (tokens r)
  end.

(** One escaped UTF-8 sequence to UTF-16. *)
Definition octets (bs : list N) : option jsstring :=
  match utf8_decode bs with
  | Some [cp] => Some (utf16_encode cp)
  | _ => None
  end.

Definition prepend (p : option jsstring) (r : option jsstring) : option jsstring :=
  match p, r with
  | Some a, Some b => Some (a ++ b)
  | _, _ => None
  end.

(** The escapes decoded: a byte below 128 stands for itself, a lead byte
    takes the escapes that follow it as its continuation bytes, and the
    bytes must be the UTF-8 form of one code point. *)
Fixpoint decode_tokens (ts : list token) : option jsstring :=
  match ts with
  | [] => Some []
  | Raw c :: r => option_map (cons c) (decode_tokens r)
  | Pct b :: r =>
      if (b <? 128)%N then option_map (cons b) (decode_tokens r)
      else if (b <? 192)%N then None
      else if (b <? 224)%N then
        match r with
        | Pct b1 :: r1 => prepend (octets [b; b1]) (decode_tokens r1)
        | _ => None
        end
      else if (b <? 240)%N then
        match r with
        | Pct b1 :: Pct b2 :: r2 => prepend (octets [b; b1; b2]) (decode_tokens r2)
        | _ => None
        end
      else if (b <? 248)%N then
        match r with
        | Pct b1 :: Pct b2 :: Pct b3 :: r3 =>
            prepend (octets [b; b1; b2; b3]) (decode_tokens r3)
        | _ => None
        end
      else None
  end.

(** [decodeURIComponent(s)]; [None] stands for the URIError it throws on
    a malformed escape. *)
Definition decodeURIComponent (s : jsstring) : option jsstring :=
  match tokens s with
  | Some ts => decode_tokens ts
  | None => None
  end.

End URI.

(** The regular expressions of the program, with the [i] flag, and
    [String.prototype.match] on them: a backtracking matcher that tries
    the start positions from left to right and, at each, the
    alternatives in the order they are written. *)
Module RegExp.

Inductive regex :=
| Lit (s : jsstring)            (* literal characters *)
| PlusNot (c : code_unit)       (* [^c]+ *)
| Opt (r : regex)               (* (?:r)? *)
| Group (i : nat) (r : regex)   (* (r), the i-th capture *)
| Seq (r1 r2 : regex)
| Alt (r1 r2 : regex).

(** Canonicalize under the [i] flag.  Only ASCII letters are folded: a
    character from 128 on never canonicalizes to an ASCII one, and the
    patterns of the program are ASCII. *)
Definition canon (c : code_unit) : code_unit :=
  if (97 <=? c)%N && (c <=? 122)%N then (c - 32)%N else c.

Definition captures := list (nat * jsstring).

Fixpoint group (i : nat) (caps : captures) : option jsstring :=
  match caps with
  | [] => None
  | (j, v) :: r => if Nat.eqb i j then Some v else group i r
  end.

(** The literal [p] at the head of [s], case folded: what is left of [s]. *)
Fixpoint lit (p s : jsstring) : option jsstring :=
  match p, s with
  | [], _ => Some s
  | x :: p', y :: s' => if (canon x =? canon y)%N then lit p' s' else None
  | _ :: _, [] => None
  end.

(** [[^c]+] followed by the continuation [k]: greedy, giving back one
    character at a time. *)
Fixpoint plus_not {R} (c : code_unit) (s : jsstring)
    (k : jsstring -> option R) : option R :=
  match s with
  | [] => None
  | x :: s' =>
      if (canon x =? canon c)%N then None
      else match plus_not c s' k with
           | Some r => Some r
           | None => k s'
           end
  end.

(** What [s] has before its suffix [s']. *)
Definition consumed (s s' : jsstring) : jsstring :=
  firstn (List.length s - List.length s') s.

Fixpoint matcher {R} (r : regex) (s : jsstring) (caps : captures)
    (k : jsstring -> captures -> option R) : option R :=
  match r with
  | Lit p =>
      match lit p s with
      | Some s' => k s' caps
      | None => None
      end
  | PlusNot c => plus_not c s (fun s' => k s' caps)
  | Opt r1 =>
      match matcher r1 s caps k with
      | Some x => Some x
      | None => k s caps
      end
  | Group i r1 =>
      matcher r1 s caps (fun s' caps' => k s' ((i, consumed s s') :: caps'))
  | Seq r1 r2 =>
      matcher r1 s caps (fun s' caps' => matcher r2 s' caps' k)
  | Alt r1 r2 =>
      match matcher r1 s caps k with
      | Some x => Some x
      | None => matcher r2 s caps k
      end
  end.

Definition match_here (r : regex) (s : jsstring) : option captures :=
  matcher r s [] (fun _ caps => Some caps).

(** [s.match(r)] for a regular expression without the [g] flag: the
    captures of the leftmost match, [None] for [null]. *)
Fixpoint String_match (s : jsstring) (r : regex) : option captures :=
  match match_here r s with
  | Some caps => Some caps
  | None =>
      match s with
      | [] => None
      | _ :: s' => String_match s' r
      end
  end.

End RegExp.

(** The file name a download gets, as the three download paths compute
    it. *)
Module ContentDisposition.
Import RegExp URI.

(** The double quote, written [\x22] in the expressions quoted below. *)
Definition quote : jsstring := [34%N].

(** [/filename\*=(?:UTF-8'')?([^;]+)|filename=\x22([^\x22]+)\x22|filename=([^;]+)/i]
    (useApi.js, [downloadFile]). *)
Definition re_downloadFile : regex :=
  Alt (Seq (Lit (js "filename*="))
         (Seq (Opt (Lit (js "UTF-8''"))) (Group 1 (PlusNot 59%N))))
   (Alt (Seq (Lit (js "filename=" ++ quote))
           (Seq (Group 2 (PlusNot 34%N)) (Lit quote)))
        (Seq (Lit (js "filename=")) (Group 3 (PlusNot 59%N)))).

(** [/filename\*=(?:utf-8'')?([^;]+)|filename=\x22([^\x22]+)\x22|filename=([^;]+)/i]
    ([handleDownloadTemplate]). *)
Definition re_handleDownloadTemplate : regex :=
  Alt (Seq (Lit (js "filename*="))
         (Seq (Opt (Lit (js "utf-8''"))) (Group 1 (PlusNot 59%N))))
   (Alt (Seq (Lit (js "filename=" ++ quote))
           (Seq (Group 2 (PlusNot 34%N)) (Lit quote)))
        (Seq (Lit (js "filename=")) (Group 3 (PlusNot 59%N)))).

(** [/(?:filename\*=(?:UTF-8'')?([^;]+))|(?:filename=\x22([^\x22]+)\x22)|filename=([^;]+)/i]
    ([handleDownloadFinalFile]); a non-capturing group changes nothing
    in the match. *)
Definition re_handleDownloadFinalFile : regex :=
  Alt (Seq (Lit (js "filename*="))
         (Seq (Opt (Lit (js "UTF-8''"))) (Group 1 (PlusNot 59%N))))
   (Alt (Seq (Lit (js "filename=" ++ quote))
           (Seq (Group 2 (PlusNot 34%N)) (Lit quote)))
        (Seq (Lit (js "filename=")) (Group 3 (PlusNot 59%N)))).

(** A capture read as a condition: present and not empty. *)
Definition captured (i : nat) (caps : captures) : option jsstring :=
  match group i caps with
  | Some (c :: g) => Some (c :: g)
  | _ => None
  end.

(** The block shared by the three paths:
<<
  let filename = dflt;
  if (contentDisposition) {
      const filenameMatch = contentDisposition.match(re);
      if (filenameMatch) {
          if (filenameMatch[1]) {
              try { filename = decodeURIComponent(filenameMatch[1]); }
              catch (e) { filename = filenameMatch[1]; }
          } else if (filenameMatch[2]) { filename = filenameMatch[2]; }
          else if (filenameMatch[3]) { filename = filenameMatch[3].trim(); }
      }
  }
>> *)
Definition filename_of (re : regex) (contentDisposition : option jsstring)
    (dflt : jsstring) : jsstring :=
  match contentDisposition with
  | None | Some [] => dflt
  | Some header =>
      match String_match header re with
      | None => dflt
      | Some filenameMatch =>
          match captured 1 filenameMatch with
          | Some g1 =>
              match decodeURIComponent g1 with
              | Some decoded => decoded
              | None => g1
              end
          | None =>
              match captured 2 filenameMatch with
              | Some g2 => g2
              | None =>
                  match captured 3 filenameMatch with
                  | Some g3 => trim g3
                  | None => dflt
                  end
              end
          end
      end
  end.

(** The first capture when [decodeURIComponent] throws on it: the two
    handlers of the root component log a warning then. *)
Definition undecodable (re : regex) (contentDisposition : option jsstring)
    : option jsstring :=
  match contentDisposition with
  | None | Some [] => None
  | Some header =>
      match String_match header re with
      | None => None
      | Some filenameMatch =>
          match captured 1 filenameMatch with
          | Some g1 =>
              match decodeURIComponent g1 with
              | Some _ => None
              | None => Some g1
              end
          | None => None
          end
      end
  end.

End ContentDisposition.

(** A reading of the header that does not go through a regular
    expression, to compare [filename_of] with: the header is scanned
    from the left, and the first place where a [filename*=], a quoted
    [filename=] or a bare [filename=] parameter stands gives the name. *)
Module HeaderScan.
Import URI.

Definition upper (c : code_unit) : code_unit :=
  if (97 <=? c)%N && (c <=? 122)%N then (c - 32)%N else c.

(** [s] without its prefix [p], letters compared without case. *)
Definition after_prefix (p s : jsstring) : option jsstring :=
  if jsstring_eqb (map upper (firstn (List.length p) s)) (map upper p)
     && (List.length p <=? List.length s)
  then Some (skipn (List.length p) s)
  else None.

(** The longest prefix of [s] free of the character [c], and the rest. *)
Fixpoint span_not (c : code_unit) (s : jsstring) : jsstring :=
  match s with
  | [] => []
  | x :: s' => if (x =? c)%N then [] else x :: span_not c s'
  end.

Fixpoint after_not (c : code_unit) (s : jsstring) : jsstring :=
  match s with
  | [] => []
  | x :: s' => if (x =? c)%N then s else after_not c s'
  end.

Inductive parameter :=
| Star (v : jsstring)     (* filename*=v, an optional UTF-8'' left out *)
| Quoted (v : jsstring)   (* filename=, v between double quotes *)
| Bare (v : jsstring).    (* filename=v *)

Definition nonempty (v : jsstring) : option jsstring :=
  match v with
  | [] => None
  | _ :: _ => Some v
  end.

(** The value of [filename*=] at the head of [s]: the text up to the
    next semicolon, after [UTF-8''] when that leaves some text. *)
Definition star_here (s : jsstring) : option jsstring :=
  match after_prefix (js "filename*=") s with
  | None => None
  | Some rest =>
      match after_prefix (js "UTF-8''") rest with
      | Some rest' =>
          match nonempty (span_not 59%N rest') with
          | Some v => Some v
          | None => nonempty (span_not 59%N rest)
          end
      | None => nonempty (span_not 59%N rest)
      end
  end.

(** The value of a quoted [filename=] at the head of [s]: the text
    between the opening quote and the next one. *)
Definition quoted_here (s : jsstring) : option jsstring :=
  match after_prefix (js "filename=" ++ [34%N]) s with
  | None => None
  | Some rest =>
      match after_not 34%N rest with
      | _ :: _ => nonempty (span_not 34%N rest)
      | [] => None
      end
  end.

(** The value of a bare [filename=] at the head of [s]: the text up to
    the next semicolon. *)
Definition bare_here (s : jsstring) : option jsstring :=
  match after_prefix (js "filename=") s with
  | None => None
  | Some rest => nonempty (span_not 59%N rest)
  end.

Definition parameter_here (s : jsstring) : option parameter :=
  match star_here s with
  | Some v => Some (Star v)
  | None =>
      match quoted_here s with
      | Some v => Some (Quoted v)
      | None => option_map Bare (bare_here s)
      end
  end.

(** The leftmost parameter of the header. *)
Fixpoint first_parameter (s : jsstring) : option parameter :=
  match parameter_here s with
  | Some p => Some p
  | None =>
      match s with
      | [] => None
      | _ :: s' => first_parameter s'
      end
  end.

(** The name a parameter gives: a [filename*] value percent-decoded, or
    as it stands when it does not decode; a quoted value as it stands;
    a bare value trimmed. *)
Definition name_of (p : parameter) : jsstring :=
  match p with
  | Star v => match decodeURIComponent v with Some d => d | None => v end
  | Quoted v => v
  | Bare v => trim v
  end.

(** The captures [String.prototype.match] reports for a parameter. *)
Definition captures_of (p : parameter) : RegExp.captures :=
  match p with
  | Star v => [(1, v)]
  | Quoted v => [(2, v)]
  | Bare v => [(3, v)]
  end.

Definition leftmost_filename (contentDisposition : option jsstring)
    (dflt : jsstring) : jsstring :=
  match contentDisposition with
  | None | Some [] => dflt
  | Some header =>
      match first_parameter header with
      | Some p => name_of p
      | None => dflt
      end
  end.

End HeaderScan.

(* ================================================================== *)
(** ** components/ProgressIndicator.jsx *)
(* ================================================================== *)

Module ProgressIndicator.

(** The values [getStepStatus] returns. *)
Inductive StepStatus :=
| completed | processing | error | current | pending.

(** [getStepStatus] closes over the props [currentStep] and [status];
    [status] is a string compared with literals. *)
Definition getStepStatus (currentStep : nat) (status : jsstring)
    (stepIndex : nat) : StepStatus :=
  if stepIndex <? currentStep then completed
  else if stepIndex =? currentStep then
    if jsstring_eqb status (js "error") then error
    else if jsstring_eqb status (js "processing")
            || jsstring_eqb status (js "uploading") then processing
    else current
  else pending.

(** The result of [Math.round] on a double: an integer, or the argument
    itself when it is not finite. *)
Inductive rounded :=
| Int (z : Z)
| NotFinite.

(** [Math.round]: the closest integer, a tie going towards +infinity,
    computed exactly from the double's mantissa and exponent. *)
Definition Math_round (x : float) : rounded :=
  match Prim2SF x with
  | S754_zero _ => Int 0
  | S754_finite s m e =>
      let num := if s then Z.neg m else Z.pos m in
      Int (if (0 <=? e)%Z then num * 2 ^ e
           else (2 * num + 2 ^ (- e)) / (2 * 2 ^ (- e)))%Z
  | _ => NotFinite
  end.

(** A small natural number as a double. *)
Definition Number_of_nat (n : nat) : float :=
  PrimFloat.of_uint63 (Uint63.of_Z (Z.of_nat n)).

(** [Math.round((currentStep / (steps.length - 1)) * 100)], in doubles as
    the source computes it. *)
Definition percentage (currentStep nsteps : nat) : rounded :=
  Math_round
    (PrimFloat.mul
       (PrimFloat.div (Number_of_nat currentStep)
          (PrimFloat.sub (Number_of_nat nsteps) 1%float))
       100%float).

Record Step := { title : jsstring; description : jsstring }.

(** What the component renders, as far as the state of the steps and the
    global figure go: one state per step ([steps.map] with its index) and
    the percentage shown in the label and the bar. *)
Record Rendered := {
  stepStates : list StepStatus;
  globalPercent : rounded
}.

Definition render (steps : list Step) (currentStep : nat)
    (status : jsstring) : Rendered :=
  {| stepStates :=
       map (getStepStatus currentStep status) (seq 0 (length steps));
     globalPercent := percentage currentStep (length steps) |}.

End ProgressIndicator.

(** The global figure as the specification words it,
    round(currentStep / (n - 1) * 100), read in exact arithmetic with a
    half rounding up, to compare [ProgressIndicator.percentage] with. *)
Module ProgressSpec.

Definition exact_percentage (currentStep nsteps : nat) : Z :=
  ((200 * Z.of_nat currentStep + (Z.of_nat nsteps - 1))
   / (2 * (Z.of_nat nsteps - 1)))%Z.

(** The exact quotient falls half-way between two integers. *)
Definition half_way (currentStep nsteps : nat) : bool :=
  ((200 * Z.of_nat currentStep) mod (2 * (Z.of_nat nsteps - 1))
   =? Z.of_nat nsteps - 1)%Z.

(** The figure of the code is the exact one, or one less at a half. *)
Definition agrees (currentStep nsteps : nat) : bool :=
  match ProgressIndicator.percentage currentStep nsteps with
  | ProgressIndicator.Int z =>
      (z =? exact_percentage currentStep nsteps)%Z
      || ((z =? exact_percentage currentStep nsteps - 1)%Z
          && half_way currentStep nsteps)
  | ProgressIndicator.NotFinite => false
  end.

(** [agrees] for every list of 2 to [bound] steps and every index of the
    list. *)
Definition agrees_up_to (bound : nat) : bool :=
  forallb (fun n => forallb (fun c => agrees c n) (seq 0 n)) (seq 2 (bound - 1)).

End ProgressSpec.

(* ================================================================== *)
(** ** hooks/useApi.js *)
(* ================================================================== *)

Module UseApi.
Import ContentDisposition.

(** The two [useState] cells of the hook. *)
Record State := {
  loading : bool;
  error : value
}.

Definition initial : State := {| loading := false; error := VNull |}.

(** The [options] of [makeRequest], [{}] by default. *)
Record Options := {
  opt_method : option method;
  opt_body : option FormData
}.

Definition no_options : Options := {| opt_method := None; opt_body := None |}.

Section Hook.
(** [import.meta.env.VITE_API_BASE_URL], [undefined] when not set. *)
Variable VITE_API_BASE_URL : value.
Variable backend : Backend.

Definition API_BASE_URL : jsstring :=
  ToString (or_else VITE_API_BASE_URL (VStr (js "http://localhost:5000/api"))).

Definition setLoading (b : bool) : M State unit :=
  modify (fun s => {| loading := b; error := error s |}) ;; emit (SetLoading b).

Definition setError (e : value) : M State unit :=
  modify (fun s => {| loading := loading s; error := e |}) ;; emit (SetError e).

Definition request_of (endpoint : jsstring) (options : Options) : Request :=
  {| url := API_BASE_URL ++ endpoint;
     req_method := match opt_method options with Some m => m | None => GET end;
     body := opt_body options |}.

Definition makeRequest (endpoint : jsstring) (options : Options) : M State value :=
  setLoading true ;;
  setError VNull ;;
  try_finally
    (try_catch
       (response <- fetch backend (request_of endpoint options) ;;
        data <- json response ;;
        if negb (ok response) then
          e <- lift (get data (js "error")) ;;
          throw (Error (ToString
                   (or_else e (VStr (js "Erreur HTTP: " ++ Number_toString (Number_of_Z (status response)))))))
        else ret data)
       (fun err => setError (VStr (message err)) ;; throw err))
    (setLoading false).


(** [strategy = 'FIFO']: the default stands in for [undefined]. *)
Definition processFile (file sessionId strategy : value) : M State value :=
  let strategy := match strategy with VUndefined => VStr (js "FIFO") | _ => strategy end in
  let formData := append [] (js "file") file in
  let formData := append formData (js "session_id") sessionId in
  let formData := append formData (js "strategy") strategy in
  makeRequest (js "/process")
    {| opt_method := Some POST; opt_body := Some formData |}.

(** The name [downloadFile] starts from. *)
Definition default_filename (type : jsstring) (sessionId : value) : jsstring :=
  type ++ js "_" ++ ToString sessionId ++ js "."
    ++ (if jsstring_eqb type (js "template") then js "xlsx" else js "csv").

Definition downloadFile (type : jsstring) (sessionId : value) : M State value :=
  response <- fetch backend
    {| url := API_BASE_URL ++ js "/download/" ++ type ++ js "/" ++ ToString sessionId;
       req_method := GET; body := None |} ;;
  if negb (ok response) then
    errorData <- json response ;;
    e <- lift (get errorData (js "error")) ;;
    throw (Error (ToString (or_else e (VStr (js "Erreur de téléchargement")))))
  else
    let filename :=
      filename_of re_downloadFile (contentDisposition response)
        (default_filename type sessionId) in
    emit (Download filename) ;;
    ret (VObj [(js "filename", VStr filename);
               (js "size", VNum (Number_of_Z (Z.of_N (blob_size response))))]).

Definition getSessions : M State value :=
  makeRequest (js "/sessions") no_options.

Definition deleteSession (sessionId : value) : M State value :=
  makeRequest (js "/sessions/" ++ ToString sessionId)
    {| opt_method := Some DELETE; opt_body := None |}.


Definition clearError : M State unit := setError VNull.

End Hook.

End UseApi.

(* ================================================================== *)
(** ** The root component, [SageInventoryApp] *)
(* ================================================================== *)

Module App.
Import ContentDisposition.

(** The [useState] cells of the component.  The two statuses, the error
    text and the progress details only ever receive string literals and
    error messages; the files and the results hold values. *)
Record State := {
  originalFile : value;
  completedFile : value;
  uploadStatus : jsstring;
  processStatus : jsstring;
  uploadResult : value;
  processResult : value;
  error : jsstring;
  currentStep : nat;
  progressDetails : jsstring
}.

Definition initial : State :=
  {| originalFile := VNull; completedFile := VNull;
     uploadStatus := js "idle"; processStatus := js "idle";
     uploadResult := VNull; processResult := VNull;
     error := []; currentStep := 0; progressDetails := [] |}.

Definition setOriginalFile (v : value) : M State unit :=
  modify (fun s =>
    {| originalFile := v; completedFile := completedFile s;
       uploadStatus := uploadStatus s; processStatus := processStatus s;
       uploadResult := uploadResult s; processResult := processResult s;
       error := error s; currentStep := currentStep s;
       progressDetails := progressDetails s |}).

Definition setCompletedFile (v : value) : M State unit :=
  modify (fun s =>
    {| originalFile := originalFile s; completedFile := v;
       uploadStatus := uploadStatus s; processStatus := processStatus s;
       uploadResult := uploadResult s; processResult := processResult s;
       error := error s; currentStep := currentStep s;
       progressDetails := progressDetails s |}).

Definition setUploadStatus (v : jsstring) : M State unit :=
  modify (fun s =>
    {| originalFile := originalFile s; completedFile := completedFile s;
       uploadStatus := v; processStatus := processStatus s;
       uploadResult := uploadResult s; processResult := processResult s;
       error := error s; currentStep := currentStep s;
       progressDetails := progressDetails s |}).

Definition setProcessStatus (v : jsstring) : M State unit :=
  modify (fun s =>
    {| originalFile := originalFile s; completedFile := completedFile s;
       uploadStatus := uploadStatus s; processStatus := v;
       uploadResult := uploadResult s; processResult := processResult s;
       error := error s; currentStep := currentStep s;
       progressDetails := progressDetails s |}).

Definition setUploadResult (v : value) : M State unit :=
  modify (fun s =>
    {| originalFile := originalFile s; completedFile := completedFile s;
       uploadStatus := uploadStatus s; processStatus := processStatus s;
       uploadResult := v; processResult := processResult s;
       error := error s; currentStep := currentStep s;
       progressDetails := progressDetails s |}).

Definition setProcessResult (v : value) : M State unit :=
  modify (fun s =>
    {| originalFile := originalFile s; completedFile := completedFile s;
       uploadStatus := uploadStatus s; processStatus := processStatus s;
       uploadResult := uploadResult s; processResult := v;
       error := error s; currentStep := currentStep s;
       progressDetails := progressDetails s |}).

Definition setError (v : jsstring) : M State unit :=
  modify (fun s =>
    {| originalFile := originalFile s; completedFile := completedFile s;
       uploadStatus := uploadStatus s; processStatus := processStatus s;
       uploadResult := uploadResult s; processResult := processResult s;
       error := v; currentStep := currentStep s;
       progressDetails := progressDetails s |}).

Definition setCurrentStep (v : nat) : M State unit :=
  modify (fun s =>
    {| originalFile := originalFile s; completedFile := completedFile s;
       uploadStatus := uploadStatus s; processStatus := processStatus s;
       uploadResult := uploadResult s; processResult := processResult s;
       error := error s; currentStep := v;
       progressDetails := progressDetails s |}).

Definition setProgressDetails (v : jsstring) : M State unit :=
  modify (fun s =>
    {| originalFile := originalFile s; completedFile := completedFile s;
       uploadStatus := uploadStatus s; processStatus := processStatus s;
       uploadResult := uploadResult s; processResult := processResult s;
       error := error s; currentStep := currentStep s;
       progressDetails := v |}).

(** The toast controller of [useToast]. *)
Definition showSuccess (m : jsstring) : M State unit := emit (Toast success m).
Definition showError (m : jsstring) : M State unit := emit (Toast Platform.error m).
Definition showInfo (m : jsstring) : M State unit := emit (Toast info m).

Definition console_error (m : jsstring) : M State unit :=
  emit (ConsoleLog (js "error") m).
Definition console_warn (m : jsstring) : M State unit :=
  emit (ConsoleLog (js "warn") m).

(** [processSteps], the five steps handed to the progress indicator. *)
Definition processSteps : list ProgressIndicator.Step :=
  [ {| ProgressIndicator.title := js "Import du fichier Sage X3";
       ProgressIndicator.description :=
         js "Validation et traitement du fichier d'inventaire initial" |};
    {| ProgressIndicator.title := js "Génération du template";
       ProgressIndicator.description :=
         js "Création du fichier Excel pour la saisie des quantités réelles" |};
    {| ProgressIndicator.title := js "Saisie des quantités";
       ProgressIndicator.description :=
         js "Complétion du template avec les quantités réellement comptées" |};
    {| ProgressIndicator.title := js "Calcul des écarts";
       ProgressIndicator.description :=
         js "Analyse des différences et répartition selon la stratégie FIFO" |};
    {| ProgressIndicator.title := js "Génération du fichier final";
       ProgressIndicator.description :=
         js "Création du fichier CSV corrigé pour réimport dans Sage X3" |} ].

(** [createMockFile(filename, size = 0)]; [now] is [Date.now()]. *)
Definition createMockFile (now : Z) (filename : jsstring) (size : value) : value :=
  let size := match size with VUndefined => VNum 0 | _ => size end in
  VObj [(js "name", VStr filename);
        (js "size", size);
        (js "type",
         VStr (if endsWith filename (js ".xlsx")
               then js "application/vnd.openxmlformats-officedocument.spreadsheetml.sheet"
               else js "text/csv"));
        (js "lastModified", VNum (Number_of_Z now));
        (js "isMock", VBool true)].

Section Component.
Variable VITE_API_BASE_URL : value.
Variable backend : Backend.

Definition API_BASE_URL : jsstring :=
  ToString (or_else VITE_API_BASE_URL (VStr (js "http://localhost:5000/api"))).

(** [new Error(data.error || fallback)] thrown on a response that is
    not ok. *)
Definition throw_backend_error {A} (data : value) (fallback : jsstring) : M State A :=
  e <- lift (get data (js "error")) ;;
  throw (Error (ToString (or_else e (VStr fallback)))).

Definition warn_undecodable (re : RegExp.regex) (cd : option jsstring)
    (what : jsstring) : M State unit :=
  match undecodable re cd with
  | Some g1 => console_warn (what ++ js " " ++ g1)
  | None => ret tt
  end.

(** [handleProcessCompleted]; [s] is the state the handler closes
    over. *)
Definition handleProcessCompleted (s : State) : M State unit :=
  if negb (truthy (completedFile s)) then
    setError (js "Veuillez sélectionner le fichier Excel complété") ;;
    showError (js "Veuillez sélectionner le fichier Excel complété")
  else if negb (truthy (get_opt (uploadResult s) (js "session_id"))) then
    setError (js "Veuillez d'abord importer et traiter le fichier original.") ;;
    showError (js "Veuillez d'abord importer et traiter le fichier original.")
  else
    let formData := append [] (js "file") (completedFile s) in
    let formData :=
      append formData (js "session_id") (get_opt (uploadResult s) (js "session_id")) in
    setProcessStatus (js "processing") ;;
    setCurrentStep 3 ;;
    setProgressDetails (js "Calcul des écarts et répartition FIFO en cours...") ;;
    setError [] ;;
    try_catch
      (response <- fetch backend
         {| url := API_BASE_URL ++ js "/process";
            req_method := POST; body := Some formData |} ;;
       data <- json response ;;
       if ok response then
         setProcessStatus (js "success") ;;
         setProcessResult data ;;
         setCurrentStep 4 ;;
         setProgressDetails (js "Fichier final généré et prêt au téléchargement") ;;
         showSuccess (js "Traitement terminé avec succès !")
       else throw_backend_error data (js "Erreur lors du calcul des écarts"))
      (fun err =>
         setProcessStatus (js "error") ;;
         setError (message err) ;;
         showError (message err) ;;
         setProcessResult VNull ;;
         setProgressDetails []).

(** [handleDownloadTemplate]. *)
Definition handleDownloadTemplate (s : State) : M State unit :=
  let session_id := get_opt (uploadResult s) (js "session_id") in
  if negb (truthy session_id) then
    setError (js "Aucune session active pour générer le template") ;;
    showError (js "Aucune session active pour générer le template")
  else
    try_catch
      (response <- fetch backend
         {| url := API_BASE_URL ++ js "/download/template/" ++ ToString session_id;
            req_method := GET; body := None |} ;;
       if ok response then
         let filename :=
           filename_of re_handleDownloadTemplate (contentDisposition response)
             (js "inventaire_template_" ++ ToString session_id ++ js ".xlsx") in
         warn_undecodable re_handleDownloadTemplate (contentDisposition response)
           (js "Failed to decode URI component from filename*:") ;;
         emit (Download filename) ;;
         showSuccess (js "Template téléchargé avec succès !")
       else
         errorData <- json response ;;
         throw_backend_error errorData (js "Erreur lors du téléchargement du template"))
      (fun err =>
         setError (message err) ;;
         showError (message err) ;;
         console_error (js "Download template error: " ++ message err)).

(** [handleDownloadFinalFile]. *)
Definition handleDownloadFinalFile (s : State) : M State unit :=
  let session_id := get_opt (uploadResult s) (js "session_id") in
  if negb (truthy session_id) then
    setError (js "Aucun ID de session disponible pour télécharger le fichier final.") ;;
    showError (js "Aucun ID de session disponible pour télécharger le fichier final.")
  else if negb (truthy (get_opt (processResult s) (js "final_url"))) then
    setError (js "Le fichier final n'a pas été généré ou son URL est manquante.") ;;
    showError (js "Le fichier final n'a pas été généré ou son URL est manquante.")
  else
    try_catch
      (response <- fetch backend
         {| url := API_BASE_URL ++ js "/download/final/" ++ ToString session_id;
            req_method := GET; body := None |} ;;
       if ok response then
         let filename :=
           filename_of re_handleDownloadFinalFile (contentDisposition response)
             (js "inventaire_corrige_" ++ ToString session_id ++ js ".csv") in
         warn_undecodable re_handleDownloadFinalFile (contentDisposition response)
           (js "Failed to decode URI component from filename* for final file:") ;;
         emit (Download filename) ;;
         setError [] ;;
         showSuccess (js "Fichier final téléchargé avec succès !")
       else
         errorData <- json response ;;
         throw_backend_error errorData
           (js "Erreur lors du téléchargement du fichier final."))
      (fun err =>
         setError (message err) ;;
         showError (message err) ;;
         console_error (js "Download final file error: " ++ message err)).

End Component.

(** [session.stats?.k || dflt]. *)
Definition stat (session : Session) (k : jsstring) (dflt : value) : value :=
  or_else (get_opt (lookup (js "stats") session) k) dflt.

(** The placeholder [handleSessionSelect] builds for the original file. *)
Definition mockOriginalFile (session : Session) : value :=
  VObj [(js "name",
         or_else (lookup (js "original_filename") session)
           (VStr (js "Fichier original")));
        (js "size", VNum 0)].

(** [handleSessionSelect(session)]. *)
Definition handleSessionSelect (session : Session) : M State unit :=
  try_catch
    (setOriginalFile VNull ;;
     setCompletedFile VNull ;;
     setError [] ;;
     let status := lookup (js "status") session in
     let id := lookup (js "id") session in
     if strict_eq_str status (js "template_generated")
        || strict_eq_str status (js "completed") then
       setOriginalFile (mockOriginalFile session) ;;
       setUploadStatus (js "success") ;;
       setUploadResult
         (VObj [(js "session_id", id);
                (js "stats",
                 VObj [(js "nb_articles", stat session (js "nb_articles") (VNum 0));
                       (js "total_quantity", stat session (js "total_quantity") (VNum 0));
                       (js "nb_lots", stat session (js "nb_lots") (VNum 0))])]) ;;
       if strict_eq_str status (js "completed") then
         setProcessStatus (js "success") ;;
         setCurrentStep 4 ;;
         setProgressDetails (js "Session terminée - Fichier final disponible") ;;
         setProcessResult
           (VObj [(js "final_url", VStr (js "/api/download/final/" ++ ToString id));
                  (js "stats",
                   VObj [(js "total_discrepancy",
                          stat session (js "total_discrepancy") (VNum 0));
                         (js "adjusted_items",
                          stat session (js "adjusted_items_count") (VNum 0));
                         (js "strategy_used",
                          stat session (js "strategy_used") (VStr (js "FIFO")))])]) ;;
         showSuccess (js "Session " ++ ToString id ++ js " reprise - Traitement terminé")
       else
         setProcessStatus (js "idle") ;;
         setProcessResult VNull ;;
         setCurrentStep 1 ;;
         setProgressDetails (js "Template disponible pour téléchargement") ;;
         showSuccess (js "Session " ++ ToString id ++ js " reprise - Template disponible")
     else
       setCurrentStep 0 ;;
       setProgressDetails [] ;;
       showInfo (js "Session " ++ ToString id ++ js " sélectionnée (statut: "
                 ++ ToString status ++ js ")"))
    (fun err =>
       showError (js "Erreur lors de la reprise de la session: " ++ message err)).

(** What the first card shows under the name of the selected file:
    [originalFile.isMock ? 'Session reprise' : size in MB]; the test on
    [isMock] is what tells a placeholder from a picked file. *)
Definition isMock (file : value) : bool := truthy (get_opt file (js "isMock")).

End App.

(* ================================================================== *)
(** ** components/SessionManager.jsx: the quick panel *)
(* ================================================================== *)

Module SessionManager.

(** What a click on a button of a session row calls. *)
Inductive action :=
| handleDownload (sessionId : value) (type : jsstring)
| handleSessionSelect (session : Session).

Record Button := {
  label : jsstring;
  disabled : bool;
  onClick : action
}.

(** [['template_generated', 'completed'].includes(status)]. *)
Definition resumable (status : value) : bool :=
  strict_eq_str status (js "template_generated")
  || strict_eq_str status (js "completed").

(** The buttons on the left of a session row: three conditional blocks,
    rendered one after the other. *)
Definition row_buttons (session : Session) : list Button :=
  let status := lookup (js "status") session in
  let id := lookup (js "id") session in
  (if strict_eq_str status (js "template_generated") then
     [ {| label := js "Template"; disabled := false;
          onClick := handleDownload id (js "template") |};
       {| label := js "Reprendre"; disabled := false;
          onClick := handleSessionSelect session |} ]
   else [])
  ++
  (if strict_eq_str status (js "completed") then
     [ {| label := js "Template"; disabled := false;
          onClick := handleDownload id (js "template") |};
       {| label := js "Final"; disabled := false;
          onClick := handleDownload id (js "final") |};
       {| label := js "Reprendre"; disabled := false;
          onClick := handleSessionSelect session |} ]
   else [])
  ++
  (if negb (resumable status) then
     [ {| label :=
            if strict_eq_str status (js "error") then js "Erreur"
            else if strict_eq_str status (js "processing") then js "En cours..."
            else js "Reprendre";
          disabled :=
            strict_eq_str status (js "error")
            || strict_eq_str status (js "processing");
          onClick := handleSessionSelect session |} ]
   else []).

(** A click: a disabled button calls nothing. *)
Definition click (b : Button) : option action :=
  if disabled b then None else Some (onClick b).

End SessionManager.

(* ================================================================== *)
(** ** The session dashboard, [SessionDashboard] *)
(* ================================================================== *)

Module SessionDashboard.

(** The cells [handleBulkAction] touches, and the state of the
    component's own [useApi]. *)
Record State := {
  sessions : list Session;
  selectedSessions : list value;
  api : UseApi.State
}.

Definition setSessions (v : list Session) : M State unit :=
  modify (fun s =>
    {| sessions := v; selectedSessions := selectedSessions s; api := api s |}).

Definition setSelectedSessions (v : list value) : M State unit :=
  modify (fun s =>
    {| sessions := sessions s; selectedSessions := v; api := api s |}).

Definition set_api (a : UseApi.State) (s : State) : State :=
  {| sessions := sessions s; selectedSessions := selectedSessions s; api := a |}.

(** SameValueZero on the values an identifier can be; two objects are
    the same when they are one object, which this model does not
    track, so they compare as different. *)
Definition same_value_zero (a b : value) : bool :=
  match a, b with
  | VUndefined, VUndefined | VNull, VNull => true
  | VBool x, VBool y => Bool.eqb x y
  | VNum x, VNum y => PrimFloat.eqb x y || (PrimFloat.is_nan x && PrimFloat.is_nan y)
  | VStr x, VStr y => jsstring_eqb x y
  | _, _ => false
  end.

(** [array.includes(v)]. *)
Definition array_includes (array : list value) (v : value) : bool :=
  existsb (fun x => same_value_zero x v) array.

Section Component.
Variable VITE_API_BASE_URL : value.
Variable backend : Backend.

(** [deleteSession] of the component's hook. *)
Definition deleteSession (sessionId : value) : M State value :=
  zoom api set_api (UseApi.deleteSession VITE_API_BASE_URL backend sessionId).

(** [handleBulkAction(action)]; [s] is the state the handler closes
    over. *)
Definition handleBulkAction (s : State) (action : jsstring) : M State unit :=
  if Nat.eqb (List.length (selectedSessions s)) 0 then ret tt
  else
    try_catch
      ((if jsstring_eqb action (js "delete") then
          for_of (selectedSessions s)
            (fun sessionId => deleteSession sessionId ;; ret tt) ;;
          setSessions
            (filter
               (fun x => negb (array_includes (selectedSessions s)
                                 (lookup (js "id") x)))
               (sessions s))
        else if jsstring_eqb action (js "archive") then
          emit (ConsoleLog (js "log")
                  (js "Archive sessions: " ++ ToString (VArr (selectedSessions s))))
        else ret tt) ;;
       setSelectedSessions [])
      (fun err =>
         emit (ConsoleLog (js "error")
                 (js "Erreur action groupée: " ++ message err))).

End Component.

End SessionDashboard.

(** How the answers of the backend are told apart in the statements
    below: the body of an answer that has a successful status and
    parses as JSON, [None] for any other answer and for a request that
    gets none. *)
Module Answers.

Definition parsed_answer (o : FetchOutcome) : option value :=
  match o with
  | Resolved r =>
      if ok r then
        match json_body r with
        | inl data => Some data
        | inr _ => None
        end
      else None
  | Rejected _ => None
  end.

End Answers.

(* ================================================================== *)
(** ** The root component: import, reset, drops and what is rendered *)
(* ================================================================== *)

Module AppHandlers.
Import App.

Section Component.
Variable VITE_API_BASE_URL : value.
Variable backend : Backend.

(** [handleUploadFile]; [s] is the state the handler closes over. *)
Definition handleUploadFile (s : State) : M State unit :=
  if negb (truthy (originalFile s)) then
    setError (js "Veuillez sélectionner un fichier CSV Sage X3") ;;
    showError (js "Veuillez sélectionner un fichier CSV Sage X3")
  else
    let formData := append [] (js "file") (originalFile s) in
    setUploadStatus (js "uploading") ;;
    setCurrentStep 0 ;;
    setProgressDetails (js "Validation du format et traitement des données...") ;;
    setError [] ;;
    try_catch
      (response <- fetch backend
         {| url := API_BASE_URL VITE_API_BASE_URL ++ js "/upload";
            req_method := POST; body := Some formData |} ;;
       data <- json response ;;
       if ok response then
         setUploadStatus (js "success") ;;
         setUploadResult data ;;
         setCurrentStep 1 ;;
         setProgressDetails (js "Template prêt à être téléchargé") ;;
         showSuccess (js "Fichier traité avec succès !")
       else throw_backend_error data (js "Erreur lors du traitement du fichier"))
      (fun err =>
         setUploadStatus (js "error") ;;
         setError (message err) ;;
         showError (message err) ;;
         setUploadResult VNull ;;
         setProgressDetails []).

End Component.

(** [resetAll]. *)
Definition resetAll : M State unit :=
  setOriginalFile VNull ;;
  setCompletedFile VNull ;;
  setUploadStatus (js "idle") ;;
  setProcessStatus (js "idle") ;;
  setUploadResult VNull ;;
  setProcessResult VNull ;;
  setError [] ;;
  setCurrentStep 0 ;;
  setProgressDetails [] ;;
  showInfo (js "Session réinitialisée").

(** [Array.from(e.dataTransfer.files)[0]]. *)
Definition first_file (files : list value) : value :=
  match files with
  | [] => VUndefined
  | f :: _ => f
  end.

(** [onDropOriginal] and [onDropCompleted], on the files of the drop. *)
Definition onDropOriginal (files : list value) : M State unit :=
  let file := first_file files in
  if truthy file then setOriginalFile file ;; setError [] else ret tt.

Definition onDropCompleted (files : list value) : M State unit :=
  let file := first_file files in
  if truthy file then setCompletedFile file ;; setError [] else ret tt.

(** *** What the component renders, as far as it depends on the state *)

(** The [status] prop handed to the progress indicator. *)
Definition progressStatus (s : State) : jsstring :=
  if jsstring_eqb (uploadStatus s) (js "error")
     || jsstring_eqb (processStatus s) (js "error") then js "error"
  else if jsstring_eqb (uploadStatus s) (js "uploading")
          || jsstring_eqb (processStatus s) (js "processing") then js "processing"
  else js "idle".

(** The progress indicator, rendered when one of the phases is not
    idle. *)
Definition progressIndicator (s : State) : option ProgressIndicator.Rendered :=
  if negb (jsstring_eqb (uploadStatus s) (js "idle"))
     || negb (jsstring_eqb (processStatus s) (js "idle"))
  then Some (ProgressIndicator.render processSteps (currentStep s) (progressStatus s))
  else None.

(** The first card: the drop zone (with the panel of the selected file
    and, for a picked file, the button that starts the import), the
    spinner, the result with the template download. *)
Record Card1 := {
  dropZone1 : bool;
  selectedFile1 : bool;
  uploadButton : bool;
  sessionBadge : bool;
  spinner1 : bool;
  result1 : bool
}.

Definition card1 (s : State) : Card1 :=
  let idle := jsstring_eqb (uploadStatus s) (js "idle") in
  {| dropZone1 := idle;
     selectedFile1 := idle && truthy (originalFile s);
     uploadButton := idle && truthy (originalFile s) && negb (isMock (originalFile s));
     sessionBadge := idle && truthy (originalFile s) && isMock (originalFile s);
     spinner1 := jsstring_eqb (uploadStatus s) (js "uploading");
     result1 := jsstring_eqb (uploadStatus s) (js "success")
                && truthy (uploadResult s) |}.

(** The second card: disabled for the pointer until the first phase has
    succeeded; the drop zone (with the panel of the selected file and
    the button that starts the computation), the spinner, the result
    with the final download and the reset button. *)
Record Card2 := {
  disabled2 : bool;
  dropZone2 : bool;
  processButton : bool;
  spinner2 : bool;
  result2 : bool
}.

Definition card2 (s : State) : Card2 :=
  let open := negb (jsstring_eqb (processStatus s) (js "success")) in
  {| disabled2 := negb (jsstring_eqb (uploadStatus s) (js "success"));
     dropZone2 := open;
     processButton := open && truthy (completedFile s);
     spinner2 := jsstring_eqb (processStatus s) (js "processing");
     result2 := jsstring_eqb (processStatus s) (js "success")
                && truthy (processResult s) |}.

End AppHandlers.

(* ================================================================== *)
(** ** components/Toast.jsx: the toast controller *)
(* ================================================================== *)

Module ToastController.

Record ToastItem := {
  id : Z;
  type : ToastKind;
  message : jsstring;
  duration : value
}.

(** [addToast(type, message, duration = 5000)] as the update it hands
    to [setToasts]; [now] is [Date.now()]. *)
Definition addToast (now : Z) (type : ToastKind) (message : jsstring)
    (duration : value) (prev : list ToastItem) : list ToastItem :=
  prev ++ [ {| id := now; type := type; message := message;
               duration := match duration with
                           | VUndefined => VNum 5000
                           | _ => duration
                           end |} ].

(** [removeToast(id)] as the update it hands to [setToasts]. *)
Definition removeToast (i : Z) (prev : list ToastItem) : list ToastItem :=
  filter (fun toast => negb (id toast =? i)%Z) prev.

Definition showSuccess now message duration := addToast now success message duration.
Definition showError now message duration := addToast now error message duration.
Definition showInfo now message duration := addToast now info message duration.

End ToastController.

(* ================================================================== *)
(** ** components/SessionManager.jsx: the handlers of the quick panel *)
(* ================================================================== *)

Module QuickPanel.

(** The [useState] cells of the component and the state of its
    [useApi]; [sessions] holds what the backend sent. *)
Record State := {
  sessions : value;
  isOpen : bool;
  showDashboard : bool;
  deleteConfirm : value;
  api : UseApi.State
}.

Definition initial : State :=
  {| sessions := VArr []; isOpen := false; showDashboard := false;
     deleteConfirm := VNull; api := UseApi.initial |}.

Definition setSessions (v : value) : M State unit :=
  modify (fun s =>
    {| sessions := v; isOpen := isOpen s; showDashboard := showDashboard s;
       deleteConfirm := deleteConfirm s; api := api s |}).

Definition setIsOpen (v : bool) : M State unit :=
  modify (fun s =>
    {| sessions := sessions s; isOpen := v; showDashboard := showDashboard s;
       deleteConfirm := deleteConfirm s; api := api s |}).

Definition setShowDashboard (v : bool) : M State unit :=
  modify (fun s =>
    {| sessions := sessions s; isOpen := isOpen s; showDashboard := v;
       deleteConfirm := deleteConfirm s; api := api s |}).

Definition setDeleteConfirm (v : value) : M State unit :=
  modify (fun s =>
    {| sessions := sessions s; isOpen := isOpen s; showDashboard := showDashboard s;
       deleteConfirm := v; api := api s |}).

Definition set_api (a : UseApi.State) (s : State) : State :=
  {| sessions := sessions s; isOpen := isOpen s; showDashboard := showDashboard s;
     deleteConfirm := deleteConfirm s; api := a |}.

(** [a !== b] on the values an identifier can be, negated; as for
    SameValueZero, two objects are equal when they are one object, which
    this model does not track. *)
Definition strict_eq (a b : value) : bool :=
  match a, b with
  | VUndefined, VUndefined | VNull, VNull => true
  | VBool x, VBool y => Bool.eqb x y
  | VNum x, VNum y => PrimFloat.eqb x y
  | VStr x, VStr y => jsstring_eqb x y
  | _, _ => false
  end.

(** The elements of [l] whose [id] is not [sessionId]; reading [id] on
    [null] or [undefined] throws. *)
Fixpoint without_id (sessionId : value) (l : list value) : list value + exn :=
  match l with
  | [] => inl []
  | x :: r =>
      match get x (js "id") with
      | inr e => inr e
      | inl i =>
          match without_id sessionId r with
          | inr e => inr e
          | inl r' => inl (if strict_eq i sessionId then r' else x :: r')
          end
      end
  end.

(** [sessions.filter(s => s.id !== sessionId)]: only an array has a
    [filter] to call. *)
Definition filter_sessions (sessions sessionId : value) : value + exn :=
  match sessions with
  | VArr l =>
      match without_id sessionId l with
      | inl l' => inl (VArr l')
      | inr e => inr e
      end
  | VUndefined | VNull => get sessions (js "filter")
  | _ => inr (TypeError (js "sessions.filter is not a function"))
  end.

Section Component.
Variable VITE_API_BASE_URL : value.
Variable backend : Backend.

(** [loadSessions]. *)
Definition loadSessions : M State unit :=
  try_catch
    (data <- zoom api set_api (UseApi.getSessions VITE_API_BASE_URL backend) ;;
     listed <- lift (get data (js "sessions")) ;;
     setSessions (or_else listed (VArr [])))
    (fun err =>
       emit (ConsoleLog (js "error")
               (js "Erreur chargement sessions: " ++ message err))).

(** [handleDownload(sessionId, type)]. *)
Definition handleDownload (sessionId : value) (type : jsstring) : M State unit :=
  try_catch
    (zoom api set_api
       (UseApi.downloadFile VITE_API_BASE_URL backend type sessionId) ;;
     ret tt)
    (fun err =>
       emit (ConsoleLog (js "error")
               (js "Erreur téléchargement: " ++ message err))).

(** [handleDelete(sessionId)]; [s] is the state the handler closes
    over. *)
Definition handleDelete (s : State) (sessionId : value) : M State unit :=
  try_catch
    (zoom api set_api
       (UseApi.deleteSession VITE_API_BASE_URL backend sessionId) ;;
     kept <- lift (filter_sessions (sessions s) sessionId) ;;
     setSessions kept ;;
     setDeleteConfirm VNull)
    (fun err =>
       emit (ConsoleLog (js "error")
               (js "Erreur suppression: " ++ message err))).

End Component.

End QuickPanel.

(** The page: the root component and the quick panel it mounts with
    [onSessionSelect={handleSessionSelect}]. *)
Module Page.

Record State := {
  app : App.State;
  panel : QuickPanel.State
}.

Definition set_app (a : App.State) (s : State) : State :=
  {| app := a; panel := panel s |}.

Definition set_panel (p : QuickPanel.State) (s : State) : State :=
  {| app := app s; panel := p |}.

(** [handleSessionSelect] of the quick panel; [onSessionSelect] is the
    prop, [None] when the parent gives none. *)
Definition handleSessionSelect (onSessionSelect : option (Session -> M State unit))
    (session : Session) : M State unit :=
  match onSessionSelect with
  | Some callback => callback session
  | None => ret tt
  end ;;
  zoom panel set_panel (QuickPanel.setIsOpen false) ;;
  zoom panel set_panel (QuickPanel.setShowDashboard false).

(** The prop the root component passes. *)
Definition onSessionSelect (session : Session) : M State unit :=
  zoom app set_app (App.handleSessionSelect session).

Section Component.
Variable VITE_API_BASE_URL : value.
Variable backend : Backend.

(** A click on a button of a session row of the panel. *)
Definition click_row_button (b : SessionManager.Button) : M State unit :=
  match SessionManager.click b with
  | Some (SessionManager.handleSessionSelect session) =>
      handleSessionSelect (Some onSessionSelect) session
  | Some (SessionManager.handleDownload sessionId type) =>
      zoom panel set_panel
        (QuickPanel.handleDownload VITE_API_BASE_URL backend sessionId type)
  | None => ret tt
  end.

End Component.

End Page.

(* ================================================================== *)
(** ** The session dashboard: the selection check boxes *)
(* ================================================================== *)

Module DashboardSelection.
Import SessionDashboard.

(** The [onChange] of the check box of a row; [checked] is
    [e.target.checked], [s] the state the handler closes over. *)
Definition onChange (s : State) (session : Session) (checked : bool) : M State unit :=
  if checked then
    setSelectedSessions (selectedSessions s ++ [lookup (js "id") session])
  else
    setSelectedSessions
      (filter (fun i => negb (QuickPanel.strict_eq i (lookup (js "id") session)))
         (selectedSessions s)).

(** The [checked] attribute of the check box of a row. *)
Definition checked (s : State) (session : Session) : bool :=
  array_includes (selectedSessions s) (lookup (js "id") session).

End DashboardSelection.

(* ================================================================== *)
(** ** components/ErrorBoundary.jsx *)
(* ================================================================== *)

Module ErrorBoundary.

Record State := {
  hasError : bool;
  error : option exn;
  errorInfo : option jsstring
}.

(** The state the constructor sets. *)
Definition initial : State :=
  {| hasError := false; error := None; errorInfo := None |}.

(** [getDerivedStateFromError(error)], merged into the state. *)
Definition getDerivedStateFromError (e : exn) (s : State) : State :=
  {| hasError := true; error := error s; errorInfo := errorInfo s |}.

(** [componentDidCatch(error, errorInfo)]; the info is its component
    stack. *)
Definition componentDidCatch (e : exn) (info : jsstring) : M State unit :=
  modify (fun s => {| hasError := hasError s; error := Some e; errorInfo := Some info |}) ;;
  emit (ConsoleLog (js "error")
          (js "ErrorBoundary caught an error: " ++ message e ++ js " " ++ info)).

(** A rendering failure below the boundary: the derived state first,
    then [componentDidCatch]. *)
Definition caught (e : exn) (info : jsstring) : M State unit :=
  modify (getDerivedStateFromError e) ;; componentDidCatch e info.

Inductive View :=
| Children
| RecoveryScreen (details : bool).

(** [render]; [development] is [process.env.NODE_ENV === 'development']. *)
Definition render (development : bool) (s : State) : View :=
  if hasError s
  then RecoveryScreen (development && match error s with Some _ => true | None => false end)
  else Children.

End ErrorBoundary.

(* ================================================================== *)
(** ** Sample data *)
(* ================================================================== *)

Module Samples.

(** A session still being uploaded. *)
Definition uploading_session : Session :=
  [(js "id", VStr (js "s1")); (js "status", VStr (js "uploading"))].

(** A session under processing, and a state of the root component in
    which the operator has picked both files. *)
Definition processing_session : Session :=
  [(js "id", VStr (js "s2")); (js "status", VStr (js "processing"))].

Definition files_picked : App.State :=
  {| App.originalFile := VFile (js "inventaire.csv") 2048;
     App.completedFile := VFile (js "template.xlsx") 4096;
     App.uploadStatus := js "idle"; App.processStatus := js "idle";
     App.uploadResult := VNull; App.processResult := VNull;
     App.error := js "Veuillez sélectionner un fichier CSV Sage X3";
     App.currentStep := 0; App.progressDetails := [] |}.

(** The completed session of the resumption example. *)
Definition completed_session : Session :=
  [(js "id", VStr (js "abc123"));
   (js "status", VStr (js "completed"));
   (js "original_filename", VStr (js "inventaire.csv"));
   (js "stats",
    VObj [(js "nb_articles", VNum 5);
          (js "total_quantity", VNum 200);
          (js "total_discrepancy", VNum 12);
          (js "adjusted_items_count", VNum 4);
          (js "strategy_used", VStr (js "LIFO"))])].

(** A session whose template is ready, without stats. *)
Definition template_session : Session :=
  [(js "id", VStr (js "abc123"));
   (js "status", VStr (js "template_generated"));
   (js "original_filename", VStr (js "inventaire.csv"))].

(** A backend that refuses every request with status 500 and a JSON
    body whose [error] field is the empty string. *)
Definition refusing_backend : Backend :=
  fun _ _ =>
    Resolved {| status := 500; contentDisposition := None;
                json_body := inl (VObj [(js "error", VStr [])]);
                blob_size := 0 |}.

(** A backend that refuses every request with status 404 and the error
    text of the body. *)
Definition not_found_backend : Backend :=
  fun _ _ =>
    Resolved {| status := 404; contentDisposition := None;
                json_body := inl (VObj [(js "error", VStr (js "Session introuvable"))]);
                blob_size := 0 |}.

(** A backend that accepts every request with status 200, an empty JSON
    object and no [Content-Disposition] header. *)
Definition accepting_backend : Backend :=
  fun _ _ =>
    Resolved {| status := 200; contentDisposition := None;
                json_body := inl (VObj []); blob_size := 3 |}.


(** A state of the root component after a successful import, the
    completed template picked. *)
Definition ready_to_process : App.State :=
  {| App.originalFile := VFile (js "inventaire.csv") 2048;
     App.completedFile := VFile (js "template.xlsx") 4096;
     App.uploadStatus := js "success"; App.processStatus := js "idle";
     App.uploadResult :=
       VObj [(js "session_id", VStr (js "abc123"));
             (js "stats",
              VObj [(js "nb_articles", VNum 10);
                    (js "total_quantity", VNum 500);
                    (js "nb_lots", VNum 3)])];
     App.processResult := VNull;
     App.error := []; App.currentStep := 1;
     App.progressDetails := js "Template prêt à être téléchargé" |}.

(** A dashboard that lists three sessions, the first two selected. *)
Definition two_selected : SessionDashboard.State :=
  {| SessionDashboard.sessions :=
       [ [(js "id", VStr (js "s1")); (js "status", VStr (js "completed"))];
         [(js "id", VStr (js "s2")); (js "status", VStr (js "error"))];
         [(js "id", VStr (js "s3")); (js "status", VStr (js "completed"))] ];
     SessionDashboard.selectedSessions := [VStr (js "s1"); VStr (js "s2")];
     SessionDashboard.api := UseApi.initial |}.

(** A header with a quoted [filename=] followed by a [filename*=]. *)
Definition both_forms : jsstring :=
  js "attachment; filename=" ++ ContentDisposition.quote ++ js "a.csv"
  ++ ContentDisposition.quote ++ js "; filename*=UTF-8''b.csv".

Definition quoted_report : jsstring :=
  js "attachment; filename=" ++ ContentDisposition.quote ++ js "report.csv"
  ++ ContentDisposition.quote.

Definition star_resume : jsstring :=
  js "attachment; filename*=UTF-8''r%C3%A9sum%C3%A9.csv".

(** A backend that answers every request with status 200 and the
    header of the second example. *)
Definition resume_backend : Backend :=
  fun _ _ =>
    Resolved {| status := 200; contentDisposition := Some star_resume;
                json_body := inr (js "Unexpected token"); blob_size := 7 |}.

(** A backend that answers every request with status 200 and the
    header that has both forms. *)
Definition both_forms_backend : Backend :=
  fun _ _ =>
    Resolved {| status := 200; contentDisposition := Some both_forms;
                json_body := inr (js "Unexpected token"); blob_size := 7 |}.

(** A state of the root component after both phases succeeded. *)
Definition processed : App.State :=
  {| App.originalFile := VFile (js "inventaire.csv") 2048;
     App.completedFile := VFile (js "template.xlsx") 4096;
     App.uploadStatus := js "success"; App.processStatus := js "success";
     App.uploadResult := VObj [(js "session_id", VStr (js "abc123"))];
     App.processResult := VObj [(js "final_url", VStr (js "/files/abc123.csv"))];
     App.error := []; App.currentStep := 4;
     App.progressDetails := js "Fichier final généré et prêt au téléchargement" |}.

End Samples.

(** Further sample data. *)
Module MoreSamples.

(** A backend that accepts the first request with status 200 and an
    empty JSON object, and refuses every later one with status 500. *)
Definition second_refused_backend : Backend :=
  fun n _ =>
    if Nat.eqb n 0 then
      Resolved {| status := 200; contentDisposition := None;
                  json_body := inl (VObj []); blob_size := 0 |}
    else
      Resolved {| status := 500; contentDisposition := None;
                  json_body := inl (VObj [(js "error", VStr (js "Suppression refusée"))]);
                  blob_size := 0 |}.

(** The first and the third session of the dashboard of
    [Samples.two_selected]. *)
Definition first_session : Session :=
  [(js "id", VStr (js "s1")); (js "status", VStr (js "completed"))].


Definition third_session : Session :=
  [(js "id", VStr (js "s3")); (js "status", VStr (js "completed"))].

(** A completed session whose id is the number 1e21 and whose total
    quantity has a fraction. *)
Definition numeric_session : Session :=
  [(js "id", VNum 1e21);
   (js "status", VStr (js "completed"));
   (js "stats",
    VObj [(js "nb_articles", VNum 5); (js "total_quantity", VNum 12.5)])].

(** A session under processing whose id is the number 1e21. *)
Definition numeric_processing_session : Session :=
  [(js "id", VNum 1e21); (js "status", VStr (js "processing"))].

(** A list of forty-one steps. *)
Definition forty_one_steps : list ProgressIndicator.Step :=
  repeat {| ProgressIndicator.title := js "Lot";
            ProgressIndicator.description := js "Traitement du lot" |} 41.

(** One toast on display. *)
Definition one_toast : list ToastController.ToastItem :=
  [ {| ToastController.id := 1700000000000;
       ToastController.type := Platform.success;
       ToastController.message := js "Fichier traité avec succès !";
       ToastController.duration := VNum 5000 |} ].

End MoreSamples.

(* ================================================================== *)
(** * Properties *)
(* ================================================================== *)

Unset Implicit Arguments.

Lemma jsstring_eqb_eq (a b : jsstring) : jsstring_eqb a b = true <-> a = b.
Proof.
  revert b; induction a as [|x a IH]; intros [|y b]; simpl; split;
    try easy.
  - intros H. apply andb_true_iff in H as [Hx Hab].
    apply N.eqb_eq in Hx. apply IH in Hab. now subst.
  - intros [= -> ->]. rewrite N.eqb_refl. now apply IH.
Qed.

Lemma jsstring_eqb_refl (a : jsstring) : jsstring_eqb a a = true.
Proof. now apply jsstring_eqb_eq. Qed.

(** [Number::toString] on a few doubles: plain digits below 1e21, the
    exponent form from there on and below 1e-6, the shortest digits
    that read back as the same double. *)
Lemma Number_toString_examples :
  map Number_toString
    [404; 12.5; -7; 100000000000000000000; 1e21; 123456789012345680000;
     0.000001; 1e-7; 0.1; 0.1 + 0.2; 0 / 0; 1 / 0; -0]%float
  = [js "404"; js "12.5"; js "-7"; js "100000000000000000000"; js "1e+21";
     js "123456789012345680000"; js "0.000001"; js "1e-7"; js "0.1";
     js "0.30000000000000004"; js "NaN"; js "Infinity"; js "0"].
Proof. vm_compute. reflexivity. Qed.

(* ------------------------------------------------------------------ *)
(** ** The progress indicator *)
(* ------------------------------------------------------------------ *)

Section ProgressIndicatorFacts.
Import ProgressIndicator.

Lemma nth_error_map_seq {A} (f : nat -> A) (n i : nat) :
  i < n -> nth_error (map f (seq 0 n)) i = Some (f i).
Proof.
  intros Hi. rewrite nth_error_map, nth_error_seq.
  destruct (Nat.ltb_spec i n) as [_|Hge]; [reflexivity | lia].
Qed.

Lemma getStepStatus_before c st i : i < c -> getStepStatus c st i = completed.
Proof.
  intros H. unfold getStepStatus.
  destruct (Nat.ltb_spec i c); [reflexivity | lia].
Qed.

Lemma getStepStatus_after c st i : c < i -> getStepStatus c st i = pending.
Proof.
  intros H. unfold getStepStatus.
  destruct (Nat.ltb_spec i c); [lia|].
  destruct (Nat.eqb_spec i c); [lia | reflexivity].
Qed.

Lemma getStepStatus_at c st :
  getStepStatus c st c =
    if jsstring_eqb st (js "error") then error
    else if jsstring_eqb st (js "processing") || jsstring_eqb st (js "uploading")
         then processing
    else current.
Proof.
  unfold getStepStatus. rewrite Nat.ltb_irrefl, Nat.eqb_refl. reflexivity.
Qed.

(** With five steps the doubles are exact: c / 4 and its product by 100
    are representable for c from 0 to 4. *)
Lemma percentage_five_steps c :
  c <= 4 -> percentage c 5 = Int (25 * Z.of_nat c).
Proof.
  intros H.
  do 5 (destruct c as [|c]; [vm_compute; reflexivity|]). lia.
Qed.

(** [Math.round] gives the integer within a half of its argument, a
    half going up: for the finite double [num * 2^e] it is the [z] with
    [z - 1/2 <= num * 2^e < z + 1/2]. *)
Lemma Math_round_half_up (x : float) (sign : bool) (m : positive) (e : Z) :
  Prim2SF x = S754_finite sign m e ->
  exists z,
    Math_round x = Int z
    /\ ((2 * z - 1) * 2 ^ Z.max (- e) 0
        <= 2 * (if sign then Z.neg m else Z.pos m) * 2 ^ Z.max e 0
        < (2 * z + 1) * 2 ^ Z.max (- e) 0)%Z.
Proof.
  intros H. unfold Math_round. rewrite H.
  set (num := if sign then Z.neg m else Z.pos m).
  destruct (Z.leb_spec 0 e) as [He|He].
  - exists (num * 2 ^ e)%Z. split; [reflexivity|].
    rewrite (Z.max_r (- e) 0), (Z.max_l e 0) by lia.
    change (2 ^ 0)%Z with 1%Z. lia.
  - exists ((2 * num + 2 ^ (- e)) / (2 * 2 ^ (- e)))%Z. split; [reflexivity|].
    rewrite (Z.max_l (- e) 0), (Z.max_r e 0) by lia.
    change (2 ^ 0)%Z with 1%Z.
    assert (Hd : (0 < 2 ^ (- e))%Z) by (apply Z.pow_pos_nonneg; lia).
    set (d := (2 ^ (- e))%Z) in *.
    pose proof (Z.mul_div_le (2 * num + d) (2 * d) ltac:(lia)) as Hlo.
    pose proof (Z.mul_succ_div_gt (2 * num + d) (2 * d) ltac:(lia)) as Hhi.
    set (z := ((2 * num + d) / (2 * d))%Z) in *.
    nia.
Qed.

Lemma percentage_up_to_101 : ProgressSpec.agrees_up_to 101 = true.
Proof. vm_compute. reflexivity. Qed.

Lemma percentage_near_exact (c n : nat) :
  2 <= n -> n <= 101 -> c < n ->
  percentage c n = Int (ProgressSpec.exact_percentage c n)
  \/ (((200 * Z.of_nat c) mod (2 * (Z.of_nat n - 1)) = Z.of_nat n - 1)%Z
      /\ percentage c n = Int (ProgressSpec.exact_percentage c n - 1)).
Proof.
  intros H2 H101 Hc.
  pose proof percentage_up_to_101 as Hall. unfold ProgressSpec.agrees_up_to in Hall.
  rewrite forallb_forall in Hall.
  assert (Hn : In n (seq 2 (101 - 1))) by (apply in_seq; lia).
  specialize (Hall n Hn). rewrite forallb_forall in Hall.
  assert (Hin : In c (seq 0 n)) by (apply in_seq; lia).
  specialize (Hall c Hin). unfold ProgressSpec.agrees in Hall.
  destruct (percentage c n) as [z|]; [|discriminate].
  apply orb_true_iff in Hall as [Hz | Hz].
  - left. apply Z.eqb_eq in Hz. now subst.
  - right. apply andb_true_iff in Hz as [Hz Hh]. apply Z.eqb_eq in Hz.
    unfold ProgressSpec.half_way in Hh. apply Z.eqb_eq in Hh. now subst.
Qed.

(** C6, as the code has it.  For a list of at least two steps, any
    current index and a status among idle, processing, uploading and
    error, the indicator shows one state per step: completed below the
    current index; at the current index error for the status error,
    processing for processing and uploading, current otherwise; pending
    above it.  The global figure is [Math.round] of the double the
    source computes as currentStep / (n - 1) * 100: the integer within a
    half of that double, a half going up.  For a list of at most 101
    steps and an index of the list it is the exactly rounded percentage,
    except where the exact quotient is half-way between two integers,
    where it is that or one less.  With five steps it is 0, 25, 50, 75,
    100, and step 2 under processing gives completed, completed,
    processing, pending, pending and 50. *)
Theorem progress_indicator_rule :
  forall (steps : list Step) (currentStep : nat) (status : jsstring),
    2 <= List.length steps ->
    In status [js "idle"; js "processing"; js "uploading"; js "error"] ->
    List.length (stepStates (render steps currentStep status)) = List.length steps
    /\ (forall i, i < List.length steps -> i < currentStep ->
          nth_error (stepStates (render steps currentStep status)) i = Some completed)
    /\ (currentStep < List.length steps ->
          nth_error (stepStates (render steps currentStep status)) currentStep
          = Some (if jsstring_eqb status (js "error") then error
                  else if jsstring_eqb status (js "idle") then current
                  else processing))
    /\ (forall i, i < List.length steps -> currentStep < i ->
          nth_error (stepStates (render steps currentStep status)) i = Some pending)
    /\ (forall sign m e,
          Prim2SF
            (PrimFloat.mul
               (PrimFloat.div (Number_of_nat currentStep)
                  (PrimFloat.sub (Number_of_nat (List.length steps)) 1%float))
               100%float)
          = S754_finite sign m e ->
          exists z,
            globalPercent (render steps currentStep status) = Int z
            /\ ((2 * z - 1) * 2 ^ Z.max (- e) 0
                <= 2 * (if sign then Z.neg m else Z.pos m) * 2 ^ Z.max e 0
                < (2 * z + 1) * 2 ^ Z.max (- e) 0)%Z)
    /\ (List.length steps <= 101 -> currentStep < List.length steps ->
          globalPercent (render steps currentStep status)
          = Int (ProgressSpec.exact_percentage currentStep (List.length steps))
          \/ (((200 * Z.of_nat currentStep) mod (2 * (Z.of_nat (List.length steps) - 1))
               = Z.of_nat (List.length steps) - 1)%Z
              /\ globalPercent (render steps currentStep status)
                 = Int (ProgressSpec.exact_percentage currentStep (List.length steps)
                        - 1)))
    /\ (List.length steps = 5 -> currentStep <= 4 ->
          globalPercent (render steps currentStep status)
          = Int (25 * Z.of_nat currentStep))
    /\ (List.length steps = 5 -> currentStep = 2 -> status = js "processing" ->
          stepStates (render steps currentStep status)
          = [completed; completed; processing; pending; pending]
          /\ globalPercent (render steps currentStep status) = Int 50).
Proof.
  intros steps c st Hn Hst. unfold render; simpl stepStates; simpl globalPercent.
  split; [|split; [|split; [|split; [|split; [|split; [|split]]]]]].
  - now rewrite length_map, length_seq.
  - intros i Hi Hlt. rewrite nth_error_map_seq by assumption.
    now rewrite getStepStatus_before.
  - intros Hc. rewrite nth_error_map_seq by assumption.
    rewrite getStepStatus_at.
    simpl in Hst.
    destruct Hst as [<-|[<-|[<-|[<-|[]]]]]; vm_compute; reflexivity.
  - intros i Hi Hlt. rewrite nth_error_map_seq by assumption.
    now rewrite getStepStatus_after.
  - intros sign m e H. unfold percentage.
    exact (Math_round_half_up _ sign m e H).
  - intros H101 Hc. now apply percentage_near_exact.
  - intros H5 Hc. rewrite H5. now apply percentage_five_steps.
  - intros H H0 H1. rewrite H, H0, H1. split; vm_compute; reflexivity.
Qed.

Lemma progress_indicator_rule_witness :
  stepStates (render App.processSteps 2 (js "processing"))
  = [completed; completed; processing; pending; pending]
  /\ globalPercent (render App.processSteps 2 (js "processing")) = Int 50.
Proof.
  assert (Hn : 2 <= List.length App.processSteps) by (simpl; lia).
  assert (Hst : In (js "processing")
                  [js "idle"; js "processing"; js "uploading"; js "error"])
    by (simpl; tauto).
  apply (progress_indicator_rule App.processSteps 2 (js "processing") Hn Hst);
    reflexivity.
Defined.

(** C6 as stated fails where the double falls below an exact half: at
    step 23 of 41 the exact quotient is 57.5, which rounds to 58, and
    the indicator shows 57. *)
Lemma percentage_below_exact_rounding :
  List.length MoreSamples.forty_one_steps = 41
  /\ globalPercent (render MoreSamples.forty_one_steps 23 (js "idle")) = Int 57
  /\ ProgressSpec.exact_percentage 23 41 = 58%Z.
Proof. vm_compute. repeat split. Qed.

End ProgressIndicatorFacts.

(* ------------------------------------------------------------------ *)
(** ** The quick panel *)
(* ------------------------------------------------------------------ *)

Section SessionManagerFacts.
Import SessionManager.

Lemma strict_eq_str_true (v : value) (s : jsstring) :
  strict_eq_str v s = true <-> v = VStr s.
Proof.
  destruct v; simpl; split; try easy.
  - intros H. apply jsstring_eqb_eq in H. now subst.
  - intros [= ->]. apply jsstring_eqb_refl.
Qed.

(** C8, as the code has it.  In the quick panel a session whose template
    is generated gets an enabled template download and an enabled
    resume button; a completed one gets enabled template and final
    downloads and an enabled resume button.  Any other status gets one
    button that calls the same session selection: disabled and labelled
    Erreur for error, disabled and labelled En cours... for processing,
    and for every remaining status (uploading, archived, an unknown
    one) enabled and labelled Reprendre. *)
Theorem quick_panel_buttons :
  forall (session : Session),
    (lookup (js "status") session = VStr (js "template_generated") ->
       row_buttons session
       = [ {| label := js "Template"; disabled := false;
              onClick := handleDownload (lookup (js "id") session) (js "template") |};
           {| label := js "Reprendre"; disabled := false;
              onClick := handleSessionSelect session |} ])
    /\ (lookup (js "status") session = VStr (js "completed") ->
       row_buttons session
       = [ {| label := js "Template"; disabled := false;
              onClick := handleDownload (lookup (js "id") session) (js "template") |};
           {| label := js "Final"; disabled := false;
              onClick := handleDownload (lookup (js "id") session) (js "final") |};
           {| label := js "Reprendre"; disabled := false;
              onClick := handleSessionSelect session |} ])
    /\ (lookup (js "status") session = VStr (js "error") ->
       row_buttons session
       = [ {| label := js "Erreur"; disabled := true;
              onClick := handleSessionSelect session |} ]
       /\ map click (row_buttons session) = [None])
    /\ (lookup (js "status") session = VStr (js "processing") ->
       row_buttons session
       = [ {| label := js "En cours..."; disabled := true;
              onClick := handleSessionSelect session |} ]
       /\ map click (row_buttons session) = [None])
    /\ (lookup (js "status") session <> VStr (js "template_generated") ->
        lookup (js "status") session <> VStr (js "completed") ->
        lookup (js "status") session <> VStr (js "error") ->
        lookup (js "status") session <> VStr (js "processing") ->
       row_buttons session
       = [ {| label := js "Reprendre"; disabled := false;
              onClick := handleSessionSelect session |} ]
       /\ map click (row_buttons session) = [Some (handleSessionSelect session)]).
Proof.
  intros session. unfold row_buttons, resumable.
  repeat split; intros.
  1-6: rewrite H; vm_compute; reflexivity.
  all: repeat match goal with
       | Hne : lookup _ _ <> VStr ?s |- _ =>
           let E := fresh "E" in
           destruct (strict_eq_str (lookup (js "status") session) s) eqn:E;
           [apply strict_eq_str_true in E; contradiction | clear Hne]
       end; reflexivity.
Qed.

Lemma quick_panel_buttons_witness :
  row_buttons Samples.uploading_session
  = [ {| label := js "Reprendre"; disabled := false;
         onClick := handleSessionSelect Samples.uploading_session |} ]
  /\ map click (row_buttons Samples.uploading_session)
     = [Some (handleSessionSelect Samples.uploading_session)].
Proof.
  apply (quick_panel_buttons Samples.uploading_session); vm_compute; discriminate.
Defined.

(** C8 as stated fails for a session that is uploading: its status is
    outside the two resumable ones, and its resume button is enabled
    and calls the session selection. *)
Lemma uploading_session_resume_enabled :
  resumable (lookup (js "status") Samples.uploading_session) = false
  /\ map disabled (row_buttons Samples.uploading_session) = [false]
  /\ map click (row_buttons Samples.uploading_session)
     = [Some (handleSessionSelect Samples.uploading_session)].
Proof. vm_compute. repeat split. Qed.

End SessionManagerFacts.

(* ------------------------------------------------------------------ *)
(** ** Session resumption in the root component *)
(* ------------------------------------------------------------------ *)

Section ResumptionFacts.
Import App.

Lemma requests_app (a b : list event) : requests (a ++ b) = requests a ++ requests b.
Proof. unfold requests. apply flat_map_app. Qed.

Lemma stat_missing (session : Session) (k : jsstring) (d : value) :
  get_opt (lookup (js "stats") session) k = VUndefined -> stat session k d = d.
Proof. intros H. unfold stat. now rewrite H. Qed.

Lemma stat_number (session : Session) (k : jsstring) (n : float) :
  get_opt (lookup (js "stats") session) k = VNum n ->
  PrimFloat.is_zero n = false -> PrimFloat.is_nan n = false ->
  stat session k (VNum 0) = VNum n.
Proof.
  intros H Hz Hn. unfold stat, or_else. rewrite H. simpl. now rewrite Hz, Hn.
Qed.

Lemma stat_zero (session : Session) (k : jsstring) (n : float) :
  get_opt (lookup (js "stats") session) k = VNum n ->
  PrimFloat.is_zero n || PrimFloat.is_nan n = true ->
  stat session k (VNum 0) = VNum 0.
Proof.
  intros H Hz. unfold stat, or_else. rewrite H. simpl. now rewrite Hz.
Qed.

Lemma stat_text (session : Session) (k : jsstring) (c : code_unit) (t : jsstring)
    (d : value) :
  get_opt (lookup (js "stats") session) k = VStr (c :: t) ->
  stat session k d = VStr (c :: t).
Proof. intros H. unfold stat, or_else. now rewrite H. Qed.

(** C3.  Resuming a session whose status is template_generated or
    completed sets the first phase to success with an upload result
    built from the session's stats, a missing count being 0 (a count
    that is a number other than zero is kept whatever it is, fractions
    included; a zero of either sign gives 0).  A
    completed session also sets the second phase to success and the
    step to 4, with a process result whose final file is
    /api/download/final/ followed by the session id and whose stats
    default a missing discrepancy and adjusted count to 0 and a missing
    strategy to FIFO.  A session with only its template sets the step to
    1 and the second phase to idle.  Whatever the session, no request
    goes to the network. *)
Theorem session_resumption :
  forall (session : Session) (s0 : State) (log0 : list event),
    (lookup (js "status") session = VStr (js "completed") ->
       handleSessionSelect session (s0, log0)
       = (({| originalFile := mockOriginalFile session;
              completedFile := VNull;
              uploadStatus := js "success";
              processStatus := js "success";
              uploadResult :=
                VObj [(js "session_id", lookup (js "id") session);
                      (js "stats",
                       VObj [(js "nb_articles",
                              stat session (js "nb_articles") (VNum 0));
                             (js "total_quantity",
                              stat session (js "total_quantity") (VNum 0));
                             (js "nb_lots",
                              stat session (js "nb_lots") (VNum 0))])];
              processResult :=
                VObj [(js "final_url",
                       VStr (js "/api/download/final/"
                             ++ ToString (lookup (js "id") session)));
                      (js "stats",
                       VObj [(js "total_discrepancy",
                              stat session (js "total_discrepancy") (VNum 0));
                             (js "adjusted_items",
                              stat session (js "adjusted_items_count") (VNum 0));
                             (js "strategy_used",
                              stat session (js "strategy_used") (VStr (js "FIFO")))])];
              error := [];
              currentStep := 4;
              progressDetails := js "Session terminée - Fichier final disponible" |},
           log0 ++ [Toast success
                      (js "Session " ++ ToString (lookup (js "id") session)
                       ++ js " reprise - Traitement terminé")]),
          Returned tt))
    /\ (lookup (js "status") session = VStr (js "template_generated") ->
       handleSessionSelect session (s0, log0)
       = (({| originalFile := mockOriginalFile session;
              completedFile := VNull;
              uploadStatus := js "success";
              processStatus := js "idle";
              uploadResult :=
                VObj [(js "session_id", lookup (js "id") session);
                      (js "stats",
                       VObj [(js "nb_articles",
                              stat session (js "nb_articles") (VNum 0));
                             (js "total_quantity",
                              stat session (js "total_quantity") (VNum 0));
                             (js "nb_lots",
                              stat session (js "nb_lots") (VNum 0))])];
              processResult := VNull;
              error := [];
              currentStep := 1;
              progressDetails := js "Template disponible pour téléchargement" |},
           log0 ++ [Toast success
                      (js "Session " ++ ToString (lookup (js "id") session)
                       ++ js " reprise - Template disponible")]),
          Returned tt))
    /\ (forall k d, get_opt (lookup (js "stats") session) k = VUndefined ->
          stat session k d = d)
    /\ (forall k n, get_opt (lookup (js "stats") session) k = VNum n ->
          PrimFloat.is_zero n = false -> PrimFloat.is_nan n = false ->
          stat session k (VNum 0) = VNum n)
    /\ (forall k n, get_opt (lookup (js "stats") session) k = VNum n ->
          PrimFloat.is_zero n || PrimFloat.is_nan n = true ->
          stat session k (VNum 0) = VNum 0)
    /\ (forall k c t d, get_opt (lookup (js "stats") session) k = VStr (c :: t) ->
          stat session k d = VStr (c :: t))
    /\ requests (snd (fst (handleSessionSelect session (s0, log0)))) = requests log0.
Proof.
  intros session s0 log0. repeat split.
  - intros H. unfold handleSessionSelect. rewrite H. reflexivity.
  - intros H. unfold handleSessionSelect. rewrite H. reflexivity.
  - intros. now apply stat_missing.
  - intros. now apply stat_number.
  - intros. now apply (stat_zero session k n).
  - intros. now apply stat_text.
  - unfold handleSessionSelect.
    destruct (strict_eq_str (lookup (js "status") session) (js "template_generated"));
      destruct (strict_eq_str (lookup (js "status") session) (js "completed"));
      cbn [orb]; cbv [try_catch bind setOriginalFile setCompletedFile setError
                      setUploadStatus setUploadResult setProcessStatus
                      setProcessResult setCurrentStep setProgressDetails
                      showSuccess showInfo modify emit fst snd];
      rewrite requests_app; simpl; apply app_nil_r.
Qed.

(** The resumption example of the specification: a completed session
    with 5 articles, quantity 200, discrepancy 12, 4 adjusted items and
    strategy LIFO. *)
Lemma session_resumption_witness :
  handleSessionSelect Samples.completed_session (initial, [])
  = (({| originalFile :=
           VObj [(js "name", VStr (js "inventaire.csv")); (js "size", VNum 0)];
         completedFile := VNull;
         uploadStatus := js "success";
         processStatus := js "success";
         uploadResult :=
           VObj [(js "session_id", VStr (js "abc123"));
                 (js "stats",
                  VObj [(js "nb_articles", VNum 5);
                        (js "total_quantity", VNum 200);
                        (js "nb_lots", VNum 0)])];
         processResult :=
           VObj [(js "final_url", VStr (js "/api/download/final/abc123"));
                 (js "stats",
                  VObj [(js "total_discrepancy", VNum 12);
                        (js "adjusted_items", VNum 4);
                        (js "strategy_used", VStr (js "LIFO"))])];
         error := [];
         currentStep := 4;
         progressDetails := js "Session terminée - Fichier final disponible" |},
      [Toast success (js "Session abc123 reprise - Traitement terminé")]),
     Returned tt).
Proof.
  assert (H : lookup (js "status") Samples.completed_session = VStr (js "completed"))
    by reflexivity.
  exact (proj1 (session_resumption Samples.completed_session initial []) H).
Defined.

(** C4, as the code has it.  For a session whose status is neither
    template_generated nor completed the handler leaves both results
    and both phase statuses as they were and shows one informational
    toast naming the session id and the raw status; it also empties
    both file slots and the error text, puts the step back to 0 and
    clears the progress details, and issues no request. *)
Theorem session_resumption_other_status :
  forall (session : Session) (s0 : State) (log0 : list event),
    lookup (js "status") session <> VStr (js "template_generated") ->
    lookup (js "status") session <> VStr (js "completed") ->
    handleSessionSelect session (s0, log0)
    = (({| originalFile := VNull;
           completedFile := VNull;
           uploadStatus := uploadStatus s0;
           processStatus := processStatus s0;
           uploadResult := uploadResult s0;
           processResult := processResult s0;
           error := [];
           currentStep := 0;
           progressDetails := [] |},
        log0 ++ [Toast info
                   (js "Session " ++ ToString (lookup (js "id") session)
                    ++ js " sélectionnée (statut: "
                    ++ ToString (lookup (js "status") session) ++ js ")")]),
       Returned tt).
Proof.
  intros session s0 log0 Ht Hc. unfold handleSessionSelect.
  destruct (strict_eq_str (lookup (js "status") session) (js "template_generated")) eqn:Et.
  { apply strict_eq_str_true in Et. contradiction. }
  destruct (strict_eq_str (lookup (js "status") session) (js "completed")) eqn:Ec.
  { apply strict_eq_str_true in Ec. contradiction. }
  reflexivity.
Qed.

Lemma session_resumption_other_status_witness :
  handleSessionSelect Samples.processing_session (Samples.files_picked, [])
  = (({| originalFile := VNull;
         completedFile := VNull;
         uploadStatus := js "idle";
         processStatus := js "idle";
         uploadResult := VNull;
         processResult := VNull;
         error := [];
         currentStep := 0;
         progressDetails := [] |},
      [Toast info (js "Session s2 sélectionnée (statut: processing)")]),
     Returned tt).
Proof.
  assert (Ht : lookup (js "status") Samples.processing_session
               <> VStr (js "template_generated")) by (vm_compute; discriminate).
  assert (Hc : lookup (js "status") Samples.processing_session
               <> VStr (js "completed")) by (vm_compute; discriminate).
  exact (session_resumption_other_status Samples.processing_session
           Samples.files_picked [] Ht Hc).
Defined.

(** C4 as stated fails when the operator had picked files: resuming a
    session under processing empties both file slots. *)
Lemma resumption_clears_picked_files :
  originalFile Samples.files_picked = VFile (js "inventaire.csv") 2048
  /\ completedFile Samples.files_picked = VFile (js "template.xlsx") 4096
  /\ originalFile
       (fst (fst (handleSessionSelect Samples.processing_session
                    (Samples.files_picked, [])))) = VNull
  /\ completedFile
       (fst (fst (handleSessionSelect Samples.processing_session
                    (Samples.files_picked, [])))) = VNull.
Proof. repeat split. Qed.

(** C9 at a session whose template is generated: the placeholder put in
    the original-file slot has a name and size 0 and no [isMock]
    property, while [createMockFile] sets [isMock] to true. *)
Lemma resumed_placeholder_has_no_mock_flag :
  originalFile
    (fst (fst (handleSessionSelect Samples.template_session (initial, []))))
  = VObj [(js "name", VStr (js "inventaire.csv")); (js "size", VNum 0)]
  /\ get_opt
       (originalFile
          (fst (fst (handleSessionSelect Samples.template_session (initial, [])))))
       (js "isMock") = VUndefined
  /\ isMock
       (originalFile
          (fst (fst (handleSessionSelect Samples.template_session (initial, [])))))
     = false
  /\ isMock (createMockFile 0 (js "inventaire.csv") VUndefined) = true.
Proof. repeat split. Qed.

(** A session whose id is a number from 1e21 on is named in exponent
    form, as a template literal prints it, and a count with a fraction
    is kept as it is. *)
Lemma numeric_session_resumed :
  uploadResult
    (fst (fst (handleSessionSelect MoreSamples.numeric_session (initial, []))))
  = VObj [(js "session_id", VNum 1e21);
          (js "stats",
           VObj [(js "nb_articles", VNum 5);
                 (js "total_quantity", VNum 12.5);
                 (js "nb_lots", VNum 0)])]
  /\ get_opt
       (processResult
          (fst (fst (handleSessionSelect MoreSamples.numeric_session (initial, [])))))
       (js "final_url")
     = VStr (js "/api/download/final/1e+21")
  /\ snd (fst (handleSessionSelect MoreSamples.numeric_session (initial, [])))
     = [Toast success (js "Session 1e+21 reprise - Traitement terminé")]
  /\ snd (fst (handleSessionSelect MoreSamples.numeric_processing_session
                 (initial, [])))
     = [Toast info (js "Session 1e+21 sélectionnée (statut: processing)")].
Proof. vm_compute. repeat split. Qed.

End ResumptionFacts.

(* ------------------------------------------------------------------ *)
(** ** The request primitive of the hook *)
(* ------------------------------------------------------------------ *)

Section HookFacts.
Import UseApi.
Variable env : value.
Variable backend : Backend.

Lemma requests_snoc_other (log : list event) (e : event) :
  is_fetch e = false -> requests (log ++ [e]) = requests log.
Proof.
  intros H. rewrite requests_app. destruct e; try discriminate; simpl; apply app_nil_r.
Qed.

(** What a run of [makeRequest] does, by the backend's answer. *)
Lemma makeRequest_run (endpoint : jsstring) (options : Options)
    (s : State) (log : list event) :
  makeRequest env backend endpoint options (s, log)
  = let req := request_of env endpoint options in
    let failed (e : exn) :=
      (({| loading := false; error := VStr (message e) |},
        log ++ [SetLoading true; SetError VNull; Fetch req;
                SetError (VStr (message e)); SetLoading false]),
       Thrown e) in
    match backend (List.length (requests log)) req with
    | Rejected m => failed (TypeError m)
    | Resolved response =>
        match json_body response with
        | inr m => failed (SyntaxError m)
        | inl data =>
            if ok response then
              (({| loading := false; error := VNull |},
                log ++ [SetLoading true; SetError VNull; Fetch req; SetLoading false]),
               Returned data)
            else
              match get data (js "error") with
              | inr e => failed e
              | inl e =>
                  failed (Error (ToString
                            (or_else e
                               (VStr (js "Erreur HTTP: "
                                      ++ Number_toString (Number_of_Z (status response)))))))
              end
        end
    end.
Proof.
  unfold makeRequest.
  cbv [bind try_finally try_catch setLoading setError modify emit fetch json
       lift ret throw fst snd loading error].
  rewrite !requests_snoc_other by reflexivity.
  destruct (backend _ _) as [response|m]; [|now rewrite <- !app_assoc].
  destruct (json_body response) as [data|m]; [|now rewrite <- !app_assoc].
  destruct (ok response); simpl; [now rewrite <- !app_assoc|].
  destruct (get data (js "error")) as [e|e]; now rewrite <- !app_assoc.
Qed.

Lemma startsWith_refl (p : jsstring) : startsWith p p = true.
Proof. induction p as [|x p IH]; simpl; [reflexivity|]. now rewrite N.eqb_refl. Qed.

Lemma includes_suffix (a p : jsstring) : includes (a ++ p) p = true.
Proof.
  induction a as [|x a IH]; simpl.
  - destruct p; simpl; [reflexivity|]. now rewrite N.eqb_refl, startsWith_refl.
  - rewrite IH. apply orb_true_r.
Qed.

(** C1, as the code has it.  When the backend answers a call of the
    request primitive with a JSON body: on a successful status the
    primitive returns the parsed body; on any other status, if the body
    is an object with a non-empty [error] string it throws an error
    whose message is exactly that string, and if the [error] field is
    missing or falsy (the empty string among others) it throws an error
    whose message is Erreur HTTP: followed by the status in decimal. *)
Theorem makeRequest_outcome :
  forall (endpoint : jsstring) (options : Options) (s : State)
         (log : list event) (response : Response),
    backend (List.length (requests log)) (request_of env endpoint options)
    = Resolved response ->
    (forall data, ok response = true -> json_body response = inl data ->
       snd (makeRequest env backend endpoint options (s, log)) = Returned data)
    /\ (forall props c t,
          ok response = false -> json_body response = inl (VObj props) ->
          lookup (js "error") props = VStr (c :: t) ->
          snd (makeRequest env backend endpoint options (s, log))
          = Thrown (Error (c :: t)))
    /\ (forall props,
          ok response = false -> json_body response = inl (VObj props) ->
          truthy (lookup (js "error") props) = false ->
          snd (makeRequest env backend endpoint options (s, log))
          = Thrown (Error (js "Erreur HTTP: " ++ Number_toString (Number_of_Z (status response))))
          /\ includes (js "Erreur HTTP: " ++ Number_toString (Number_of_Z (status response)))
               (Number_toString (Number_of_Z (status response))) = true)
    /\ (forall props,
          ok response = false -> json_body response = inl (VObj props) ->
          lookup (js "error") props = VUndefined ->
          snd (makeRequest env backend endpoint options (s, log))
          = Thrown (Error (js "Erreur HTTP: " ++ Number_toString (Number_of_Z (status response))))).
Proof.
  intros endpoint options s log response Hb.
  rewrite makeRequest_run. cbv zeta. rewrite Hb.
  repeat split.
  - intros data Hok Hj. now rewrite Hj, Hok.
  - intros props c t Hok Hj He. rewrite Hj, Hok. simpl. now rewrite He.
  - rewrite H0, H. simpl. unfold or_else. now rewrite H1.
  - apply includes_suffix.
  - intros props Hok Hj He. rewrite Hj, Hok. simpl. now rewrite He.
Qed.


Lemma makeRequest_requests (endpoint : jsstring) (options : Options)
    (s : State) (log : list event) :
  requests (snd (fst (makeRequest env backend endpoint options (s, log))))
  = requests log ++ [request_of env endpoint options].
Proof.
  rewrite makeRequest_run. cbv zeta.
  destruct (backend _ _) as [response|m];
    [|cbn [fst snd]; now rewrite requests_app].
  destruct (json_body response) as [data|m];
    [|cbn [fst snd]; now rewrite requests_app].
  destruct (ok response); [cbn [fst snd]; now rewrite requests_app|].
  destruct (get data (js "error")); cbn [fst snd]; now rewrite requests_app.
Qed.

(** C7, as the code has it.  The hook's processFile posts to /process a
    form with exactly the fields file, session_id and strategy, in that
    order, the strategy being FIFO when the caller gives none.  The
    second phase of the root component, once a completed file and a
    session id are there, posts to /process a form with exactly the
    fields file and session_id: it sends no strategy field. *)
Theorem process_request_fields :
  (forall file sessionId strategy s log,
     requests (snd (fst (processFile env backend file sessionId strategy (s, log))))
     = requests log
       ++ [ {| url := API_BASE_URL env ++ js "/process";
               req_method := POST;
               body :=
                 Some [ (js "file", form_value file);
                        (js "session_id", form_value sessionId);
                        (js "strategy",
                         match strategy with
                         | VUndefined => VStr (js "FIFO")
                         | _ => form_value strategy
                         end) ] |} ])
  /\ (forall (s : App.State) log,
     truthy (App.completedFile s) = true ->
     truthy (get_opt (App.uploadResult s) (js "session_id")) = true ->
     requests (snd (fst (App.handleProcessCompleted env backend s (s, log))))
     = requests log
       ++ [ {| url := App.API_BASE_URL env ++ js "/process";
               req_method := POST;
               body :=
                 Some [ (js "file", form_value (App.completedFile s));
                        (js "session_id",
                         form_value (get_opt (App.uploadResult s) (js "session_id"))) ] |} ]).
Proof.
  split.
  - intros file sessionId strategy s log. unfold processFile.
    rewrite makeRequest_requests. unfold request_of, append. simpl.
    now destruct strategy.
  - intros s log Hf Hs. unfold App.handleProcessCompleted.
    rewrite Hf, Hs.
    cbv [negb bind try_catch App.setProcessStatus App.setCurrentStep
         App.setProgressDetails App.setError App.setProcessResult
         App.showSuccess App.showError App.throw_backend_error
         modify emit fetch json lift ret throw fst snd].
    destruct (backend _ _) as [response|m];
      [|now rewrite !requests_app; simpl; rewrite app_nil_r].
    destruct (json_body response) as [data|m];
      [|now rewrite !requests_app; simpl; rewrite app_nil_r].
    destruct (ok response);
      [now rewrite !requests_app; simpl; rewrite app_nil_r|].
    destruct (get data (js "error"));
      now rewrite !requests_app; simpl; rewrite app_nil_r.
Qed.

End HookFacts.

Lemma makeRequest_outcome_witness :
  snd (UseApi.makeRequest VUndefined Samples.not_found_backend (js "/sessions/s1")
         {| UseApi.opt_method := Some DELETE; UseApi.opt_body := None |}
         (UseApi.initial, []))
  = Thrown (Error (js "Session introuvable")).
Proof.
  refine (proj1 (proj2 (makeRequest_outcome VUndefined Samples.not_found_backend
            (js "/sessions/s1")
            {| UseApi.opt_method := Some DELETE; UseApi.opt_body := None |}
            UseApi.initial []
            {| status := 404; contentDisposition := None;
               json_body := inl (VObj [(js "error", VStr (js "Session introuvable"))]);
               blob_size := 0 |} eq_refl))
            [(js "error", VStr (js "Session introuvable"))] 83%N
            (js "ession introuvable") eq_refl eq_refl eq_refl).
Defined.

(** C1 as stated fails on an [error] field that is the empty string: the
    message thrown is the generated one. *)
Lemma makeRequest_empty_error_string :
  Samples.refusing_backend 0
    (UseApi.request_of VUndefined (js "/health") UseApi.no_options)
  = Resolved {| status := 500; contentDisposition := None;
                json_body := inl (VObj [(js "error", VStr [])]);
                blob_size := 0 |}
  /\ snd (UseApi.makeRequest VUndefined Samples.refusing_backend (js "/health")
            UseApi.no_options (UseApi.initial, []))
     = Thrown (Error (js "Erreur HTTP: 500"))
  /\ js "Erreur HTTP: 500" <> [].
Proof. repeat split. discriminate. Qed.


Lemma process_request_fields_witness :
  requests (snd (fst (App.handleProcessCompleted VUndefined Samples.accepting_backend
                        Samples.ready_to_process (Samples.ready_to_process, []))))
  = [ {| url := js "http://localhost:5000/api/process";
         req_method := POST;
         body := Some [ (js "file", VFile (js "template.xlsx") 4096);
                        (js "session_id", VStr (js "abc123")) ] |} ].
Proof.
  exact (proj2 (process_request_fields VUndefined Samples.accepting_backend)
           Samples.ready_to_process [] eq_refl eq_refl).
Defined.

(** C7 as stated fails for the second phase of the root component: the
    form it posts to /process has the fields file and session_id and no
    strategy. *)
Lemma phase2_posts_no_strategy :
  map (fun r => (url r, option_map (map fst) (body r)))
    (requests (snd (fst (App.handleProcessCompleted VUndefined
                           Samples.accepting_backend
                           Samples.ready_to_process
                           (Samples.ready_to_process, [])))))
  = [ (js "http://localhost:5000/api/process",
       Some [js "file"; js "session_id"]) ].
Proof. reflexivity. Qed.

(* ------------------------------------------------------------------ *)
(** ** The request primitive on a parsed and on an unparsed answer *)
(* ------------------------------------------------------------------ *)

Section AnswerFacts.
Import Answers.
Variable env : value.
Variable backend : Backend.

Abbreviation idle_api := {| UseApi.loading := false; UseApi.error := VNull |}.

Abbreviation returned_effects req :=
  [SetLoading true; SetError VNull; Fetch req; SetLoading false].
Abbreviation thrown_effects req m :=
  [SetLoading true; SetError VNull; Fetch req; SetError (VStr m); SetLoading false].

Lemma parsed_answer_some (o : FetchOutcome) (data : value) :
  parsed_answer o = Some data <->
  exists r, o = Resolved r /\ ok r = true /\ json_body r = inl data.
Proof.
  unfold parsed_answer. split.
  - destruct o as [r|m]; [|discriminate].
    destruct (ok r) eqn:Hok; [|discriminate].
    destruct (json_body r) as [d|m] eqn:Hj; [|discriminate].
    intros H. injection H as ->. now exists r.
  - intros (r & -> & Hok & Hj). now rewrite Hok, Hj.
Qed.

Lemma makeRequest_parsed (endpoint : jsstring) (options : UseApi.Options)
    (a : UseApi.State) (log : list event) (data : value) :
  parsed_answer (backend (List.length (requests log))
                   (UseApi.request_of env endpoint options)) = Some data ->
  UseApi.makeRequest env backend endpoint options (a, log)
  = ((idle_api, log ++ returned_effects (UseApi.request_of env endpoint options)),
     Returned data).
Proof.
  intros H. rewrite makeRequest_run. cbv zeta. unfold parsed_answer in H.
  destruct (backend _ _) as [r|m]; [|discriminate].
  destruct (ok r); [|discriminate].
  destruct (json_body r); [|discriminate]. now injection H as ->.
Qed.

Lemma makeRequest_unparsed (endpoint : jsstring) (options : UseApi.Options)
    (a : UseApi.State) (log : list event) :
  parsed_answer (backend (List.length (requests log))
                   (UseApi.request_of env endpoint options)) = None ->
  exists e,
    UseApi.makeRequest env backend endpoint options (a, log)
    = (({| UseApi.loading := false; UseApi.error := VStr (message e) |},
        log ++ thrown_effects (UseApi.request_of env endpoint options) (message e)),
       Thrown e).
Proof.
  intros H. rewrite makeRequest_run. cbv zeta. unfold parsed_answer in H.
  destruct (backend _ _) as [r|m]; [|now eexists].
  destruct (json_body r) as [d|m]; [|now eexists].
  destruct (ok r); [discriminate|].
  destruct (get d (js "error")); now eexists.
Qed.

End AnswerFacts.

(* ------------------------------------------------------------------ *)
(** ** Bulk deletion in the dashboard *)
(* ------------------------------------------------------------------ *)

Section DashboardFacts.
Import SessionDashboard Answers.
Variable env : value.
Variable backend : Backend.

(** The request [deleteSession(id)] issues. *)
Abbreviation delete_request id :=
  {| url := UseApi.API_BASE_URL env ++ js "/sessions/" ++ ToString id;
     req_method := DELETE; body := None |}.

(** The effects of one successful [deleteSession(id)], in order. *)
Abbreviation delete_effects id :=
  [SetLoading true; SetError VNull; Fetch (delete_request id); SetLoading false].

Abbreviation idle_api := {| UseApi.loading := false; UseApi.error := VNull |}.

Lemma deleteSession_success (id : value) (s : State) (log : list event)
    (r : Response) (v : value) :
  backend (List.length (requests log)) (delete_request id) = Resolved r ->
  ok r = true -> json_body r = inl v ->
  deleteSession env backend id (s, log)
  = ((set_api idle_api s, log ++ delete_effects id), Returned v).
Proof.
  intros Hb Hok Hj. unfold deleteSession, zoom, UseApi.deleteSession.
  cbn [fst snd]. rewrite makeRequest_run. cbv zeta.
  unfold UseApi.request_of. cbn [UseApi.opt_method UseApi.opt_body].
  rewrite Hb, Hj, Hok. reflexivity.
Qed.

Lemma delete_loop_success (l : list value) :
  forall (s : State) (log : list event),
    (forall k id, nth_error l k = Some id ->
       exists r v, backend (List.length (requests log) + k) (delete_request id)
                   = Resolved r /\ ok r = true /\ json_body r = inl v) ->
    for_of l (fun sessionId => deleteSession env backend sessionId ;; ret tt) (s, log)
    = ((match l with [] => s | _ :: _ => set_api idle_api s end,
        log ++ flat_map (fun id => delete_effects id) l),
       Returned tt).
Proof.
  induction l as [|id l IH]; intros s log H.
  - simpl. now rewrite app_nil_r.
  - destruct (H 0 id eq_refl) as (r & v & Hb & Hok & Hj).
    rewrite Nat.add_0_r in Hb.
    cbn [for_of]. unfold bind at 1. unfold bind at 1.
    rewrite (deleteSession_success id s log r v Hb Hok Hj).
    cbv [ret]. rewrite IH.
    + cbn [flat_map]. rewrite <- app_assoc. now destruct l.
    + intros k id' Hk. destruct (H (S k) id' Hk) as (r' & v' & Hb' & Hr').
      exists r', v'. split; [|exact Hr'].
      rewrite requests_app. cbn [requests flat_map app]. rewrite length_app.
      cbn [List.length]. now replace (List.length (requests log) + 1 + k)
                               with (List.length (requests log) + S k) by lia.
Qed.

Lemma requests_delete_effects (l : list value) :
  requests (flat_map (fun id => delete_effects id) l)
  = map (fun id => delete_request id) l.
Proof. induction l as [|id l IH]; simpl; [reflexivity | f_equal; exact IH]. Qed.

Lemma same_value_zero_str (a : value) (t : jsstring) :
  same_value_zero a (VStr t) = true -> a = VStr t.
Proof.
  destruct a; simpl; try discriminate.
  intros H. apply jsstring_eqb_eq in H. now subst.
Qed.

Lemma array_includes_str (l : list value) (t : jsstring) :
  array_includes l (VStr t) = true <-> In (VStr t) l.
Proof.
  unfold array_includes. rewrite existsb_exists. split.
  - intros (x & Hx & Hs). apply same_value_zero_str in Hs. now subst.
  - intros H. exists (VStr t). split; [exact H|]. simpl. apply jsstring_eqb_refl.
Qed.

Lemma filter_partition_length {A} (p : A -> bool) (l : list A) :
  List.length (filter p l) + List.length (filter (fun x => negb (p x)) l)
  = List.length l.
Proof.
  induction l as [|x l IH]; simpl; [reflexivity|].
  destruct (p x); simpl; lia.
Qed.

(** With string identifiers, no identifier listed twice and every
    selected identifier in the list, the sessions whose identifier is
    selected are as many as the selection. *)
Lemma selected_sessions_count (sessions : list Session) (selected : list value) :
  (forall x, In x sessions -> exists t, lookup (js "id") x = VStr t) ->
  NoDup (map (lookup (js "id")) sessions) ->
  NoDup selected ->
  (forall id, In id selected -> In id (map (lookup (js "id")) sessions)) ->
  List.length (filter (fun x => array_includes selected (lookup (js "id") x)) sessions)
  = List.length selected.
Proof.
  intros Hstr Hnd Hsel Hin.
  set (kept := filter (fun x => array_includes selected (lookup (js "id") x)) sessions).
  assert (Hids : List.length kept = List.length (map (lookup (js "id")) kept))
    by now rewrite length_map.
  rewrite Hids. apply Nat.le_antisymm.
  - apply NoDup_incl_length.
    + subst kept. clear -Hnd. induction sessions as [|x l IH]; simpl; [constructor|].
      inversion Hnd as [|? ? Hx Hl]; subst.
      destruct (array_includes selected (lookup (js "id") x)); [|now apply IH].
      simpl. constructor; [|now apply IH].
      intros Hc. apply Hx. apply in_map_iff in Hc as (y & Hy & Hiny).
      apply filter_In in Hiny as [Hiny _]. apply in_map_iff. now exists y.
    + intros id Hid. apply in_map_iff in Hid as (x & Hidx & Hx).
      subst id. apply filter_In in Hx as [Hx Hinc].
      destruct (Hstr x Hx) as [t Ht]. rewrite Ht in *.
      now apply array_includes_str.
  - apply NoDup_incl_length; [exact Hsel|].
    intros id Hid. destruct (proj1 (in_map_iff _ _ _) (Hin id Hid)) as (x & Hx & Hinx).
    apply in_map_iff. exists x. split; [exact Hx|].
    apply filter_In. split; [exact Hinx|].
    destruct (Hstr x Hinx) as [t Ht]. rewrite Ht in Hx. subst id.
    rewrite Ht. now apply array_includes_str.
Qed.

Abbreviation failed_delete_effects id m :=
  [SetLoading true; SetError VNull; Fetch (delete_request id);
   SetError (VStr m); SetLoading false].

Lemma dashboard_delete_parsed (id : value) (s : State) (log : list event)
    (data : value) :
  parsed_answer (backend (List.length (requests log)) (delete_request id))
  = Some data ->
  deleteSession env backend id (s, log)
  = ((set_api {| UseApi.loading := false; UseApi.error := VNull |} s,
      log ++ delete_effects id),
     Returned data).
Proof.
  intros H. unfold deleteSession, zoom, UseApi.deleteSession. cbn [fst snd].
  now rewrite (makeRequest_parsed env backend (js "/sessions/" ++ ToString id)
                 {| UseApi.opt_method := Some DELETE; UseApi.opt_body := None |}
                 (api s) log data H).
Qed.

Lemma dashboard_delete_unparsed (id : value) (s : State) (log : list event) :
  parsed_answer (backend (List.length (requests log)) (delete_request id)) = None ->
  exists e,
    deleteSession env backend id (s, log)
    = ((set_api {| UseApi.loading := false; UseApi.error := VStr (message e) |} s,
        log ++ failed_delete_effects id (message e)),
       Thrown e).
Proof.
  intros H. unfold deleteSession, zoom, UseApi.deleteSession. cbn [fst snd].
  destruct (makeRequest_unparsed env backend (js "/sessions/" ++ ToString id)
              {| UseApi.opt_method := Some DELETE; UseApi.opt_body := None |}
              (api s) log H) as [e He].
  exists e. now rewrite He.
Qed.

Lemma delete_loop_stops (id : value) (post : list value) (pre : list value) :
  forall (s : State) (log : list event),
    (forall k x, nth_error pre k = Some x ->
       exists data,
         parsed_answer (backend (List.length (requests log) + k) (delete_request x))
         = Some data) ->
    parsed_answer (backend (List.length (requests log) + List.length pre)
                     (delete_request id)) = None ->
    exists e,
      for_of (pre ++ id :: post)
        (fun sessionId => deleteSession env backend sessionId ;; ret tt) (s, log)
      = ((set_api {| UseApi.loading := false; UseApi.error := VStr (message e) |} s,
          log ++ flat_map (fun x => delete_effects x) pre
              ++ failed_delete_effects id (message e)),
         Thrown e).
Proof.
  induction pre as [|x pre IH]; intros s log Hpre Hid.
  - cbn [List.length] in Hid. rewrite Nat.add_0_r in Hid.
    destruct (dashboard_delete_unparsed id s log Hid) as [e He].
    exists e. cbn [app for_of flat_map]. unfold bind at 1. unfold bind at 1.
    now rewrite He.
  - destruct (Hpre 0 x eq_refl) as [data Hx]. rewrite Nat.add_0_r in Hx.
    destruct (IH (set_api {| UseApi.loading := false; UseApi.error := VNull |} s)
                (log ++ delete_effects x)) as [e He].
    + intros k y Hk. destruct (Hpre (S k) y Hk) as [d Hd]. exists d.
      rewrite requests_app. cbn [requests flat_map app]. rewrite length_app.
      cbn [List.length].
      now replace (List.length (requests log) + 1 + k)
        with (List.length (requests log) + S k) by lia.
    + rewrite requests_app. cbn [requests flat_map app]. rewrite length_app.
      cbn [List.length] in *.
      now replace (List.length (requests log) + 1 + List.length pre)
        with (List.length (requests log) + S (List.length pre)) by lia.
    + exists e. cbn [app for_of flat_map]. unfold bind at 1. unfold bind at 1.
      rewrite (dashboard_delete_parsed x s log data Hx). cbv [ret].
      refine (eq_trans He _). now rewrite <- !app_assoc.
Qed.

Lemma delete_loop_parsed (l : list value) (s : State) (log : list event) :
  (forall k id, nth_error l k = Some id ->
     exists data,
       Answers.parsed_answer
         (backend (List.length (requests log) + k) (delete_request id))
       = Some data) ->
  for_of l (fun sessionId => deleteSession env backend sessionId ;; ret tt) (s, log)
  = ((match l with [] => s | _ :: _ => set_api idle_api s end,
      log ++ flat_map (fun id => delete_effects id) l),
     Returned tt).
Proof.
  intros H. apply delete_loop_success. intros k id Hk.
  destruct (H k id Hk) as [data Hd].
  apply parsed_answer_some in Hd as (r & Hr & Hok & Hj). now exists r, data.
Qed.

(** The bulk deletion when the deletion of [id] is the first to fail. *)
Lemma bulk_delete_failure_run (s : State) (log : list event)
    (pre post : list value) (id : value) :
  selectedSessions s = pre ++ id :: post ->
  (forall k x, nth_error pre k = Some x ->
     exists data,
       Answers.parsed_answer
         (backend (List.length (requests log) + k) (delete_request x))
       = Some data) ->
  Answers.parsed_answer
    (backend (List.length (requests log) + List.length pre) (delete_request id))
  = None ->
  exists m,
    handleBulkAction env backend s (js "delete") (s, log)
    = (({| sessions := sessions s;
           selectedSessions := selectedSessions s;
           api := {| UseApi.loading := false; UseApi.error := VStr m |} |},
        log ++ flat_map (fun x => delete_effects x) pre
            ++ failed_delete_effects id m
            ++ [ConsoleLog (js "error") (js "Erreur action groupée: " ++ m)]),
       Returned tt).
Proof.
  intros Hsel Hpre Hid.
  destruct (delete_loop_stops id post pre s log Hpre Hid) as [e He].
  exists (message e). unfold handleBulkAction. rewrite Hsel.
  replace (Nat.eqb (List.length (pre ++ id :: post)) 0) with false
    by (rewrite length_app; cbn; symmetry; apply Nat.eqb_neq; lia).
  replace (jsstring_eqb (js "delete") (js "delete")) with true by reflexivity.
  unfold try_catch. unfold bind at 1. unfold bind at 1. rewrite He.
  cbv [emit fst snd set_api]. cbn [sessions selectedSessions].
  rewrite <- Hsel. now rewrite <- !app_assoc.
Qed.

(** C10, as the code has it.  A deletion succeeds when the backend
    answers it with a successful status and a JSON body; any other
    answer, a successful status with a body that is not JSON included,
    is a failure.  When every deletion of the bulk action succeeds, a
    selection of N sessions gives exactly N delete requests, one per
    selected identifier in the order of the selection, each call
    complete (loading back to false) before the next begins; then the
    sessions whose identifier is selected are taken out of the list and
    the selection is emptied.  With string identifiers, each listed once
    and each selected one listed, the list gets shorter by exactly N.
    When a deletion fails, the requests issued are the ones of the
    sessions before it and its own, in order, and none for the sessions
    after it; the list and the selection stay as they were, and the
    failure is written to the console. *)
Theorem bulk_delete_sequential :
  forall (s : State) (log : list event),
    selectedSessions s <> [] ->
    ((forall k id, nth_error (selectedSessions s) k = Some id ->
        exists data,
          Answers.parsed_answer
            (backend (List.length (requests log) + k) (delete_request id))
          = Some data) ->
     handleBulkAction env backend s (js "delete") (s, log)
     = (({| sessions :=
              filter (fun x => negb (array_includes (selectedSessions s)
                                       (lookup (js "id") x)))
                (sessions s);
            selectedSessions := [];
            api := idle_api |},
         log ++ flat_map (fun id => delete_effects id) (selectedSessions s)),
        Returned tt)
     /\ requests (snd (fst (handleBulkAction env backend s (js "delete") (s, log))))
        = requests log ++ map (fun id => delete_request id) (selectedSessions s)
     /\ ((forall x, In x (sessions s) -> exists t, lookup (js "id") x = VStr t) ->
         NoDup (map (lookup (js "id")) (sessions s)) ->
         NoDup (selectedSessions s) ->
         (forall id, In id (selectedSessions s) ->
            In id (map (lookup (js "id")) (sessions s))) ->
         List.length
           (sessions (fst (fst (handleBulkAction env backend s (js "delete") (s, log)))))
         + List.length (selectedSessions s)
         = List.length (sessions s)))
    /\ (forall (pre post : list value) (id : value),
         selectedSessions s = pre ++ id :: post ->
         (forall k x, nth_error pre k = Some x ->
            exists data,
              Answers.parsed_answer
                (backend (List.length (requests log) + k) (delete_request x))
              = Some data) ->
         Answers.parsed_answer
           (backend (List.length (requests log) + List.length pre)
              (delete_request id))
         = None ->
         (exists m,
            handleBulkAction env backend s (js "delete") (s, log)
            = (({| sessions := sessions s;
                   selectedSessions := selectedSessions s;
                   api := {| UseApi.loading := false; UseApi.error := VStr m |} |},
                log ++ flat_map (fun x => delete_effects x) pre
                    ++ failed_delete_effects id m
                    ++ [ConsoleLog (js "error")
                          (js "Erreur action groupée: " ++ m)]),
               Returned tt))
         /\ requests
              (snd (fst (handleBulkAction env backend s (js "delete") (s, log))))
            = requests log ++ map (fun x => delete_request x) (pre ++ [id])).
Proof.
  intros s log Hne. split.
  - intros Hb.
    assert (Hrun :
      handleBulkAction env backend s (js "delete") (s, log)
      = (({| sessions :=
               filter (fun x => negb (array_includes (selectedSessions s)
                                        (lookup (js "id") x)))
                 (sessions s);
             selectedSessions := [];
             api := idle_api |},
          log ++ flat_map (fun id => delete_effects id) (selectedSessions s)),
         Returned tt)).
    { unfold handleBulkAction.
      destruct (selectedSessions s) as [|id l] eqn:Hsel; [contradiction|].
      cbn [List.length Nat.eqb].
      replace (jsstring_eqb (js "delete") (js "delete")) with true by reflexivity.
      unfold try_catch, bind at 1. unfold bind at 1.
      rewrite (delete_loop_parsed (id :: l) s log Hb).
      reflexivity. }
    split; [exact Hrun|]. rewrite Hrun. cbn [fst snd sessions]. split.
    + now rewrite requests_app, requests_delete_effects.
    + intros Hstr Hnd Hsel Hin.
      rewrite <- (selected_sessions_count (sessions s) (selectedSessions s)
                    Hstr Hnd Hsel Hin).
      rewrite Nat.add_comm. apply filter_partition_length.
  - intros pre post id Hsel Hpre Hid.
    destruct (bulk_delete_failure_run s log pre post id Hsel Hpre Hid) as [m Hm].
    split; [now exists m|]. rewrite Hm. cbn [fst snd].
    rewrite !requests_app, requests_delete_effects. cbn [requests flat_map app].
    now rewrite map_app.
Qed.

End DashboardFacts.

Lemma bulk_delete_sequential_witness :
  SessionDashboard.handleBulkAction VUndefined Samples.accepting_backend
    Samples.two_selected (js "delete") (Samples.two_selected, [])
  = (({| SessionDashboard.sessions :=
           [ [(js "id", VStr (js "s3")); (js "status", VStr (js "completed"))] ];
         SessionDashboard.selectedSessions := [];
         SessionDashboard.api := UseApi.initial |},
      [SetLoading true; SetError VNull;
       Fetch {| url := js "http://localhost:5000/api/sessions/s1";
                req_method := DELETE; body := None |};
       SetLoading false;
       SetLoading true; SetError VNull;
       Fetch {| url := js "http://localhost:5000/api/sessions/s2";
                req_method := DELETE; body := None |};
       SetLoading false]),
     Returned tt).
Proof.
  assert (Hne : SessionDashboard.selectedSessions Samples.two_selected <> [])
    by discriminate.
  refine (proj1 (proj1 (bulk_delete_sequential VUndefined Samples.accepting_backend
                          Samples.two_selected [] Hne) _)).
  intros k id _. exists (VObj []). reflexivity.
Defined.

(** C10 as stated fails when the backend refuses a deletion: with two
    sessions selected only one delete request is issued, and neither
    the list nor the selection changes. *)
Lemma bulk_delete_stops_at_refusal :
  List.length (SessionDashboard.selectedSessions Samples.two_selected) = 2
  /\ requests
       (snd (fst (SessionDashboard.handleBulkAction VUndefined
                    Samples.not_found_backend Samples.two_selected (js "delete")
                    (Samples.two_selected, []))))
     = [ {| url := js "http://localhost:5000/api/sessions/s1";
            req_method := DELETE; body := None |} ]
  /\ SessionDashboard.sessions
       (fst (fst (SessionDashboard.handleBulkAction VUndefined
                    Samples.not_found_backend Samples.two_selected (js "delete")
                    (Samples.two_selected, []))))
     = SessionDashboard.sessions Samples.two_selected
  /\ SessionDashboard.selectedSessions
       (fst (fst (SessionDashboard.handleBulkAction VUndefined
                    Samples.not_found_backend Samples.two_selected (js "delete")
                    (Samples.two_selected, []))))
     = SessionDashboard.selectedSessions Samples.two_selected.
Proof. repeat split. Qed.

(* ------------------------------------------------------------------ *)
(** ** The file name of a download *)
(* ------------------------------------------------------------------ *)

Section FilenameFacts.
Import RegExp ContentDisposition HeaderScan.

Lemma lit_after_prefix (p : jsstring) :
  forall s, lit p s = after_prefix p s.
Proof.
  unfold after_prefix.
  induction p as [|x p IH]; intros s.
  - reflexivity.
  - destruct s as [|y s]; [reflexivity|].
    cbn [lit List.length firstn skipn map jsstring_eqb Nat.leb].
    rewrite IH. change (canon x) with (upper x). change (canon y) with (upper y).
    rewrite (N.eqb_sym (upper x) (upper y)).
    destruct (N.eqb (upper y) (upper x)); reflexivity.
Qed.

Lemma lit_fold_case (p q : jsstring) :
  map canon p = map canon q -> forall s, lit p s = lit q s.
Proof.
  revert q. induction p as [|x p IH]; intros [|y q] H s; try discriminate.
  - reflexivity.
  - injection H as Hx Hp. destruct s as [|z s]; [reflexivity|].
    cbn [lit]. rewrite Hx. destruct (N.eqb _ _); [now apply IH | reflexivity].
Qed.

(** Neither the semicolon nor the double quote is touched by case
    folding, and no letter folds to one of them. *)
Lemma canon_separator (c x : code_unit) :
  (c = 59%N \/ c = 34%N) -> (canon x =? canon c)%N = (x =? c)%N.
Proof.
  intros [-> | ->]; unfold canon; simpl;
    destruct (N.leb_spec 97 x); destruct (N.leb_spec x 122); simpl;
    try reflexivity;
    (destruct (N.eqb_spec (x - 32) 59) + destruct (N.eqb_spec (x - 32) 34));
    (destruct (N.eqb_spec x 59) + destruct (N.eqb_spec x 34)); try reflexivity; lia.
Qed.

Lemma after_not_of_empty_span (c : code_unit) (s : jsstring) :
  span_not c s = [] -> after_not c s = s.
Proof. destruct s as [|x s]; simpl; [reflexivity|]. now destruct (N.eqb x c). Qed.

Lemma after_not_head (c : code_unit) (s : jsstring) :
  after_not c s = [] \/ exists t, after_not c s = c :: t.
Proof.
  induction s as [|x s IH]; simpl; [now left|].
  destruct (N.eqb_spec x c); [subst; right; now exists s | exact IH].
Qed.

Lemma after_not_length (c : code_unit) (s : jsstring) :
  List.length (after_not c s) <= List.length s.
Proof.
  induction s as [|x s IH]; simpl; [lia|]. destruct (N.eqb x c); simpl; lia.
Qed.

Lemma consumed_span (c : code_unit) (s : jsstring) :
  consumed s (after_not c s) = span_not c s.
Proof.
  unfold consumed. induction s as [|x s IH]; [reflexivity|].
  cbn [after_not span_not]. destruct (N.eqb x c).
  - now rewrite Nat.sub_diag.
  - pose proof (after_not_length c s) as Hl. cbn [List.length].
    replace (S (List.length s) - List.length (after_not c s))
      with (S (List.length s - List.length (after_not c s))) by lia.
    cbn [firstn]. now rewrite IH.
Qed.

(** [[^c]+] before a continuation that cannot fail takes the whole
    span. *)
Lemma plus_not_total {R} (c : code_unit) (k : jsstring -> option R) :
  (c = 59%N \/ c = 34%N) -> (forall s', k s' <> None) ->
  forall s,
    plus_not c s k
    = match span_not c s with
      | [] => None
      | _ :: _ => k (after_not c s)
      end.
Proof.
  intros Hc Hk. induction s as [|x s IH]; [reflexivity|].
  cbn [plus_not span_not after_not]. rewrite (canon_separator c x Hc).
  destruct (N.eqb x c); [reflexivity|]. rewrite IH.
  destruct (span_not c s) eqn:Hspan.
  - now rewrite (after_not_of_empty_span c s Hspan).
  - destruct (k (after_not c s)) eqn:Hres; [reflexivity | now apply Hk in Hres].
Qed.

(** [[^c]+] before a continuation that wants [c] next takes the whole
    span too: a shorter one is followed by a character of the span. *)
Lemma plus_not_then_separator {R} (c : code_unit) (k : jsstring -> option R) :
  (c = 59%N \/ c = 34%N) -> k [] = None ->
  (forall x s', (x =? c)%N = false -> k (x :: s') = None) ->
  forall s,
    plus_not c s k
    = match span_not c s with
      | [] => None
      | _ :: _ => k (after_not c s)
      end.
Proof.
  intros Hc Hnil Hk. induction s as [|x s IH]; [reflexivity|].
  cbn [plus_not span_not after_not]. rewrite (canon_separator c x Hc).
  destruct (N.eqb x c); [reflexivity|]. rewrite IH.
  destruct (span_not c s) eqn:Hspan.
  - now rewrite (after_not_of_empty_span c s Hspan).
  - destruct (k (after_not c s)) eqn:Hres; [reflexivity|].
    destruct s as [|y s]; [discriminate|].
    cbn [span_not] in Hspan. destruct (N.eqb y c) eqn:Hy; [discriminate|].
    now apply Hk.
Qed.

Lemma plus_not_capture (i : nat) (c : code_unit) (s : jsstring) (caps : captures) :
  (c = 59%N \/ c = 34%N) ->
  plus_not c s (fun s' => Some ((i, consumed s s') :: caps))
  = option_map (fun v => (i, v) :: caps) (nonempty (span_not c s)).
Proof.
  intros Hc.
  rewrite (plus_not_total c (fun s' => Some ((i, consumed s s') :: caps)) Hc)
    by discriminate.
  rewrite consumed_span. now destruct (span_not c s).
Qed.

Lemma plus_not_capture_quote (s : jsstring) :
  plus_not 34%N s
    (fun s' => match lit quote s' with
               | Some _ => Some [(2, consumed s s')]
               | None => None
               end)
  = match after_not 34%N s with
    | _ :: _ => option_map (fun v => [(2, v)]) (nonempty (span_not 34%N s))
    | [] => None
    end.
Proof.
  rewrite (plus_not_then_separator 34%N
             (fun s' => match lit quote s' with
                        | Some _ => Some [(2, consumed s s')]
                        | None => None
                        end)); [| now right | reflexivity | ].
  - rewrite consumed_span.
    destruct (after_not_head 34%N s) as [-> | [t ->]];
      destruct (span_not 34%N s); reflexivity.
  - intros x s' Hx. unfold quote. cbn [lit].
    rewrite N.eqb_sym, (canon_separator 34%N x (or_intror eq_refl)), Hx.
    reflexivity.
Qed.

Lemma star_alternative (utf : jsstring) (s : jsstring) :
  map canon utf = map canon (js "UTF-8''") ->
  matcher (Seq (Lit (js "filename*="))
             (Seq (Opt (Lit utf)) (Group 1 (PlusNot 59%N)))) s []
    (fun _ caps => Some caps)
  = option_map (fun v => [(1, v)]) (star_here s).
Proof.
  intros Hutf. unfold star_here. rewrite <- lit_after_prefix. cbn [matcher].
  destruct (lit (js "filename*=") s) as [rest|]; [|reflexivity].
  rewrite <- lit_after_prefix, <- (lit_fold_case utf _ Hutf).
  destruct (lit utf rest) as [rest'|].
  - rewrite !plus_not_capture by now left.
    destruct (nonempty (span_not 59%N rest')); reflexivity.
  - rewrite plus_not_capture by now left. reflexivity.
Qed.

Lemma quoted_alternative (s : jsstring) :
  matcher (Seq (Lit (js "filename=" ++ quote))
             (Seq (Group 2 (PlusNot 34%N)) (Lit quote))) s []
    (fun _ caps => Some caps)
  = option_map (fun v => [(2, v)]) (quoted_here s).
Proof.
  unfold quoted_here. rewrite <- lit_after_prefix. cbn [matcher].
  change (js "filename=" ++ [34%N]) with (js "filename=" ++ quote).
  destruct (lit (js "filename=" ++ quote) s) as [rest|]; [|reflexivity].
  rewrite plus_not_capture_quote.
  destruct (after_not 34%N rest); reflexivity.
Qed.

Lemma bare_alternative (s : jsstring) :
  matcher (Seq (Lit (js "filename=")) (Group 3 (PlusNot 59%N))) s []
    (fun _ caps => Some caps)
  = option_map (fun v => [(3, v)]) (bare_here s).
Proof.
  unfold bare_here. rewrite <- lit_after_prefix. cbn [matcher].
  destruct (lit (js "filename=") s) as [rest|]; [|reflexivity].
  now rewrite plus_not_capture by now left.
Qed.

(** At one place of the header, the three alternatives of the regular
    expression find the parameter the scan finds. *)
Lemma match_here_parameter (utf : jsstring) (s : jsstring) :
  map canon utf = map canon (js "UTF-8''") ->
  match_here
    (Alt (Seq (Lit (js "filename*="))
            (Seq (Opt (Lit utf)) (Group 1 (PlusNot 59%N))))
      (Alt (Seq (Lit (js "filename=" ++ quote))
              (Seq (Group 2 (PlusNot 34%N)) (Lit quote)))
           (Seq (Lit (js "filename=")) (Group 3 (PlusNot 59%N))))) s
  = option_map captures_of (parameter_here s).
Proof.
  intros Hutf. unfold match_here, parameter_here.
  change (matcher (Alt ?a (Alt ?b ?c)) s [] ?k)
    with (match matcher a s [] k with
          | Some x => Some x
          | None => match matcher b s [] k with
                    | Some x => Some x
                    | None => matcher c s [] k
                    end
          end).
  rewrite (star_alternative utf s Hutf), quoted_alternative, bare_alternative.
  destruct (star_here s); [reflexivity|].
  destruct (quoted_here s); [reflexivity|].
  destruct (bare_here s); reflexivity.
Qed.

Lemma String_match_parameter (re : regex) :
  (forall s, match_here re s = option_map captures_of (parameter_here s)) ->
  forall s, String_match s re = option_map captures_of (first_parameter s).
Proof.
  intros H. induction s as [|x s IH]; cbn [String_match first_parameter]; rewrite H.
  - destruct (parameter_here []); reflexivity.
  - destruct (parameter_here (x :: s)); [reflexivity | exact IH].
Qed.

Lemma nonempty_some (v w : jsstring) :
  nonempty v = Some w -> exists c t, w = c :: t.
Proof. destruct v as [|c t]; [discriminate|]. intros [= <-]. now exists c, t. Qed.

Lemma parameter_here_nonempty (s : jsstring) (p : parameter) :
  parameter_here s = Some p ->
  exists c t, p = Star (c :: t) \/ p = Quoted (c :: t) \/ p = Bare (c :: t).
Proof.
  unfold parameter_here, star_here, quoted_here, bare_here.
  intros H.
  repeat match type of H with
         | context [match after_prefix ?a ?b with _ => _ end] =>
             destruct (after_prefix a b)
         | context [match after_not ?a ?b with _ => _ end] =>
             destruct (after_not a b)
         | context [nonempty ?v] =>
             let E := fresh "E" in
             destruct (nonempty v) eqn:E;
             [apply nonempty_some in E as (? & ? & ->)|]
         end; cbn in H; try discriminate; injection H as <-; eauto.
Qed.

Lemma first_parameter_nonempty (s : jsstring) (p : parameter) :
  first_parameter s = Some p ->
  exists c t, p = Star (c :: t) \/ p = Quoted (c :: t) \/ p = Bare (c :: t).
Proof.
  induction s as [|x s IH]; cbn [first_parameter];
    destruct (parameter_here _) as [q|] eqn:E; intros H; try discriminate;
    try (now apply IH);
    assert (q = p) as -> by congruence;
    eapply parameter_here_nonempty; eassumption.
Qed.

(** The block shared by the download paths computes the name of the
    leftmost parameter, whichever of the three expressions it uses. *)
Lemma filename_of_leftmost (re : regex) :
  (forall s, match_here re s = option_map captures_of (parameter_here s)) ->
  forall header dflt, filename_of re header dflt = leftmost_filename header dflt.
Proof.
  intros H [[|c h]|] dflt; try reflexivity.
  unfold filename_of, leftmost_filename.
  rewrite (String_match_parameter re H).
  destruct (first_parameter (c :: h)) as [p|] eqn:E; [|reflexivity].
  destruct (first_parameter_nonempty _ _ E) as (a & t & [-> | [-> | ->]]);
    reflexivity.
Qed.

Lemma filename_of_downloadFile header dflt :
  filename_of re_downloadFile header dflt = leftmost_filename header dflt.
Proof.
  apply filename_of_leftmost. intros s.
  exact (match_here_parameter (js "UTF-8''") s eq_refl).
Qed.

Lemma filename_of_handleDownloadTemplate header dflt :
  filename_of re_handleDownloadTemplate header dflt = leftmost_filename header dflt.
Proof.
  apply filename_of_leftmost. intros s.
  exact (match_here_parameter (js "utf-8''") s eq_refl).
Qed.

Lemma filename_of_handleDownloadFinalFile header dflt :
  filename_of re_handleDownloadFinalFile header dflt = leftmost_filename header dflt.
Proof.
  apply filename_of_leftmost. intros s.
  exact (match_here_parameter (js "UTF-8''") s eq_refl).
Qed.

End FilenameFacts.

Section DownloadFacts.
Import RegExp ContentDisposition HeaderScan.

Lemma downloads_app (a b : list event) : downloads (a ++ b) = downloads a ++ downloads b.
Proof. unfold downloads. apply flat_map_app. Qed.

(** C2, as the code has it.  On a successful response each download
    path (the hook's downloadFile, the template and the final download
    of the root component) saves the file under the name the leftmost
    filename parameter of the Content-Disposition header gives, a match
    being looked for at each place from the left: there a filename*=
    value (an optional UTF-8'' left out, percent-decoded, or as it
    stands when it does not decode) comes before a quoted filename=
    value, which comes before a bare filename= value (trimmed).  A
    filename= that stands before a filename*= in the header therefore
    wins.  Without a header, with an empty one or with one that holds no
    such parameter, the name is type_sessionId with .xlsx for the type
    template and .csv otherwise in the hook, and
    inventaire_template_sessionId.xlsx and
    inventaire_corrige_sessionId.csv in the root component. *)
Theorem download_filename :
  forall (env : value) (backend : Backend) (response : Response),
    ok response = true ->
    (forall type sessionId s log,
       backend (List.length (requests log))
         {| url := UseApi.API_BASE_URL env ++ js "/download/" ++ type ++ js "/"
                   ++ ToString sessionId;
            req_method := GET; body := None |}
       = Resolved response ->
       downloads (snd (fst (UseApi.downloadFile env backend type sessionId (s, log))))
       = downloads log
         ++ [leftmost_filename (contentDisposition response)
               (type ++ js "_" ++ ToString sessionId
                ++ (if jsstring_eqb type (js "template")
                    then js ".xlsx" else js ".csv"))])
    /\ (forall (s : App.State) log,
       truthy (get_opt (App.uploadResult s) (js "session_id")) = true ->
       backend (List.length (requests log))
         {| url := App.API_BASE_URL env ++ js "/download/template/"
                   ++ ToString (get_opt (App.uploadResult s) (js "session_id"));
            req_method := GET; body := None |}
       = Resolved response ->
       downloads (snd (fst (App.handleDownloadTemplate env backend s (s, log))))
       = downloads log
         ++ [leftmost_filename (contentDisposition response)
               (js "inventaire_template_"
                ++ ToString (get_opt (App.uploadResult s) (js "session_id"))
                ++ js ".xlsx")])
    /\ (forall (s : App.State) log,
       truthy (get_opt (App.uploadResult s) (js "session_id")) = true ->
       truthy (get_opt (App.processResult s) (js "final_url")) = true ->
       backend (List.length (requests log))
         {| url := App.API_BASE_URL env ++ js "/download/final/"
                   ++ ToString (get_opt (App.uploadResult s) (js "session_id"));
            req_method := GET; body := None |}
       = Resolved response ->
       downloads (snd (fst (App.handleDownloadFinalFile env backend s (s, log))))
       = downloads log
         ++ [leftmost_filename (contentDisposition response)
               (js "inventaire_corrige_"
                ++ ToString (get_opt (App.uploadResult s) (js "session_id"))
                ++ js ".csv")])
    /\ (forall dflt, leftmost_filename None dflt = dflt)
    /\ (forall dflt, leftmost_filename (Some []) dflt = dflt)
    /\ (forall header dflt,
          first_parameter header = None ->
          leftmost_filename (Some header) dflt = dflt)
    /\ (forall header p dflt,
          first_parameter header = Some p ->
          leftmost_filename (Some header) dflt = name_of p)
    /\ (forall s v, star_here s = Some v -> parameter_here s = Some (Star v))
    /\ (forall s v, star_here s = None -> quoted_here s = Some v ->
          parameter_here s = Some (Quoted v))
    /\ (forall s v, star_here s = None -> quoted_here s = None ->
          bare_here s = Some v -> parameter_here s = Some (Bare v))
    /\ (forall v d, URI.decodeURIComponent v = Some d -> name_of (Star v) = d)
    /\ (forall v, URI.decodeURIComponent v = None -> name_of (Star v) = v)
    /\ (forall dflt,
          leftmost_filename (Some Samples.quoted_report) dflt = js "report.csv")
    /\ (forall dflt,
          leftmost_filename (Some Samples.star_resume) dflt = js "résumé.csv").
Proof.
  intros env backend response Hok. repeat split.
  - intros type sessionId s log Hb. unfold UseApi.downloadFile.
    cbv [bind fetch emit ret fst snd]. rewrite Hb, Hok. cbn [negb fst snd].
    rewrite !downloads_app. cbn [downloads flat_map app].
    rewrite app_nil_r, filename_of_downloadFile.
    unfold UseApi.default_filename.
    now destruct (jsstring_eqb type (js "template")).
  - intros s log Hs Hb. unfold App.handleDownloadTemplate. rewrite Hs.
    cbv [negb bind try_catch fetch emit ret fst snd App.showSuccess].
    rewrite Hb, Hok. rewrite filename_of_handleDownloadTemplate.
    unfold App.warn_undecodable.
    destruct (undecodable _ _);
      cbv [App.console_warn emit ret fst snd];
      rewrite !downloads_app; cbn [downloads flat_map app];
      now rewrite ?app_nil_r.
  - intros s log Hs Hf Hb. unfold App.handleDownloadFinalFile. rewrite Hs, Hf.
    cbv [negb bind try_catch fetch emit ret modify fst snd App.showSuccess
         App.setError].
    rewrite Hb, Hok. rewrite filename_of_handleDownloadFinalFile.
    unfold App.warn_undecodable.
    destruct (undecodable _ _);
      cbv [App.console_warn emit ret fst snd];
      rewrite !downloads_app; cbn [downloads flat_map app];
      now rewrite ?app_nil_r.
  - intros header dflt H. unfold leftmost_filename. rewrite H. now destruct header.
  - intros header p dflt H. unfold leftmost_filename. rewrite H.
    destruct header; [|reflexivity].
    cbn in H. discriminate.
  - intros s v H. unfold parameter_here. now rewrite H.
  - intros s v H1 H2. unfold parameter_here. now rewrite H1, H2.
  - intros s v H1 H2 H3. unfold parameter_here. now rewrite H1, H2, H3.
  - intros v d H. simpl. now rewrite H.
  - intros v H. simpl. now rewrite H.
Qed.

End DownloadFacts.

Lemma download_filename_witness :
  downloads
    (snd (fst (UseApi.downloadFile VUndefined Samples.resume_backend (js "final")
                 (VStr (js "abc123")) (UseApi.initial, []))))
  = [js "résumé.csv"].
Proof.
  exact (proj1 (download_filename VUndefined Samples.resume_backend
                  {| status := 200;
                     contentDisposition := Some Samples.star_resume;
                     json_body := inr (js "Unexpected token");
                     blob_size := 7 |} eq_refl)
           (js "final") (VStr (js "abc123")) UseApi.initial [] eq_refl).
Defined.

(** C2 as stated fails on a header that names the file in both forms,
    the quoted one first: every download path saves the file under the
    quoted name, although a filename*= parameter is there. *)
Lemma quoted_name_before_star_wins :
  includes Samples.both_forms (js "filename*=UTF-8''b.csv") = true
  /\ downloads
       (snd (fst (UseApi.downloadFile VUndefined Samples.both_forms_backend
                    (js "final") (VStr (js "abc123")) (UseApi.initial, []))))
     = [js "a.csv"]
  /\ downloads
       (snd (fst (App.handleDownloadTemplate VUndefined Samples.both_forms_backend
                    Samples.processed (Samples.processed, []))))
     = [js "a.csv"]
  /\ downloads
       (snd (fst (App.handleDownloadFinalFile VUndefined Samples.both_forms_backend
                    Samples.processed (Samples.processed, []))))
     = [js "a.csv"]
  /\ ContentDisposition.filename_of ContentDisposition.re_downloadFile
       (Some (js "attachment; filename*=UTF-8''b.csv")) (js "final_abc123.csv")
     = js "b.csv".
Proof. repeat split. Qed.

(* ================================================================== *)
(** * Further properties of the code *)
(* ================================================================== *)

(* ------------------------------------------------------------------ *)
(** ** The hook: when a call returns, when a download is saved *)
(* ------------------------------------------------------------------ *)

Section HookOutcomeFacts.
Import UseApi.
Variable env : value.
Variable backend : Backend.

(** A call of the request primitive returns exactly when the backend
    answers with a successful status and a body that parses as JSON,
    and what it returns is that body: a network failure, a status that
    is not successful, and also a successful answer whose body is not
    JSON (an empty body, say) all make the call throw. *)
Theorem makeRequest_returns_iff :
  forall (endpoint : jsstring) (options : Options) (s : State)
         (log : list event) (data : value),
    snd (makeRequest env backend endpoint options (s, log)) = Returned data
    <-> exists response,
          backend (List.length (requests log)) (request_of env endpoint options)
          = Resolved response
          /\ ok response = true /\ json_body response = inl data.
Proof.
  intros endpoint options s log data. rewrite makeRequest_run. cbv zeta.
  destruct (backend _ _) as [response|m].
  2:{ split; [discriminate | intros (r & H & _); discriminate]. }
  destruct (json_body response) as [d|m] eqn:Hj.
  2:{ split; [discriminate|]. intros (r & [= <-] & _ & H). congruence. }
  destruct (ok response) eqn:Hok.
  - cbn [snd]. split.
    + intros [= ->]. now exists response.
    + intros (r & [= <-] & _ & H). congruence.
  - split.
    + destruct (get d (js "error")); discriminate.
    + intros (r & [= <-] & H & _). congruence.
Qed.

(** downloadFile issues exactly one request, never writes the state of
    the hook, and saves a file exactly when it returns: on every path
    that throws (no connection, a refused download, whatever its body)
    nothing is saved. *)
Theorem downloadFile_saves_when_it_returns :
  forall (type : jsstring) (sessionId : value) (s : State) (log : list event),
    fst (fst (downloadFile env backend type sessionId (s, log))) = s
    /\ requests (snd (fst (downloadFile env backend type sessionId (s, log))))
       = requests log
         ++ [ {| url := API_BASE_URL env ++ js "/download/" ++ type ++ js "/"
                        ++ ToString sessionId;
                 req_method := GET; body := None |} ]
    /\ match snd (downloadFile env backend type sessionId (s, log)) with
       | Returned v =>
           exists filename,
             downloads (snd (fst (downloadFile env backend type sessionId (s, log))))
             = downloads log ++ [filename]
             /\ get_opt v (js "filename") = VStr filename
       | Thrown _ =>
           downloads (snd (fst (downloadFile env backend type sessionId (s, log))))
           = downloads log
       end.
Proof.
  intros type sessionId s log. unfold downloadFile.
  cbv [bind fetch json lift ret throw emit fst snd].
  destruct (backend _ _) as [response|m].
  2:{ rewrite requests_app, downloads_app. cbn. now rewrite app_nil_r. }
  destruct (ok response); cbn [negb].
  - rewrite !requests_app, !downloads_app. cbn [requests downloads flat_map app].
    rewrite !app_nil_r. repeat split. eexists. split; reflexivity.
  - destruct (json_body response) as [d|m]; [destruct (get d (js "error"))|];
      rewrite requests_app, downloads_app; cbn; now rewrite app_nil_r.
Qed.

End HookOutcomeFacts.

(* ------------------------------------------------------------------ *)
(** ** The two phases of the root component *)
(* ------------------------------------------------------------------ *)

Section PhaseFacts.
Import App AppHandlers.
Variable env : value.
Variable backend : Backend.

Ltac run_handler :=
  cbv [bind try_catch setOriginalFile setCompletedFile setUploadStatus
       setProcessStatus setUploadResult setProcessResult setError
       setCurrentStep setProgressDetails showSuccess showError showInfo
       console_error console_warn throw_backend_error
       modify emit fetch json lift ret throw fst snd negb
       originalFile completedFile uploadStatus processStatus uploadResult
       processResult error currentStep progressDetails].

(** Starting the import with no file selected contacts nobody: the
    error text is set, one error toast with the same text is shown, and
    nothing else changes, the upload status included. *)
Theorem handleUploadFile_without_file :
  forall (s : State) (log : list event),
    truthy (originalFile s) = false ->
    handleUploadFile env backend s (s, log)
    = (({| originalFile := originalFile s;
           completedFile := completedFile s;
           uploadStatus := uploadStatus s;
           processStatus := processStatus s;
           uploadResult := uploadResult s;
           processResult := processResult s;
           error := js "Veuillez sélectionner un fichier CSV Sage X3";
           currentStep := currentStep s;
           progressDetails := progressDetails s |},
        log ++ [Toast Platform.error
                  (js "Veuillez sélectionner un fichier CSV Sage X3")]),
       Returned tt).
Proof.
  intros s log H. unfold handleUploadFile. rewrite H. reflexivity.
Qed.

(** The request of the import, and its two outcomes. *)
Abbreviation upload_request s :=
  {| url := API_BASE_URL env ++ js "/upload"; req_method := POST;
     body := Some [(js "file", form_value (originalFile s))] |}.

Abbreviation upload_succeeded s log data :=
  (({| originalFile := originalFile s;
       completedFile := completedFile s;
       uploadStatus := js "success";
       processStatus := processStatus s;
       uploadResult := data;
       processResult := processResult s;
       error := [];
       currentStep := 1;
       progressDetails := js "Template prêt à être téléchargé" |},
    log ++ [Fetch (upload_request s);
            Toast success (js "Fichier traité avec succès !")]),
   Returned tt).

Abbreviation upload_failed s log m :=
  (({| originalFile := originalFile s;
       completedFile := completedFile s;
       uploadStatus := js "error";
       processStatus := processStatus s;
       uploadResult := VNull;
       processResult := processResult s;
       error := m;
       currentStep := 0;
       progressDetails := [] |},
    log ++ [Fetch (upload_request s); Toast Platform.error m]),
   Returned tt).

(** With a file selected, the import posts it once to /upload as the
    only field of the form and never throws.  When the backend answers
    with a successful status and a JSON body it ends in success: the
    parsed body as the result, step 1 and a success toast.  On any
    other answer it ends in error: no result, a message both as the
    error text and in one error toast, and the step left at 0; the
    message is the one of the network failure when the request is
    rejected, and for a refusal with a JSON object the error field of
    the body, or the fixed text when that field is missing or falsy.
    It never stays at uploading. *)
Theorem handleUploadFile_outcome :
  forall (s : State) (log : list event),
    truthy (originalFile s) = true ->
    (forall data,
       Answers.parsed_answer
         (backend (List.length (requests log)) (upload_request s)) = Some data ->
       handleUploadFile env backend s (s, log) = upload_succeeded s log data)
    /\ (Answers.parsed_answer
          (backend (List.length (requests log)) (upload_request s)) = None ->
        exists m, handleUploadFile env backend s (s, log) = upload_failed s log m)
    /\ (forall m,
          backend (List.length (requests log)) (upload_request s) = Rejected m ->
          handleUploadFile env backend s (s, log) = upload_failed s log m)
    /\ (forall response props,
          backend (List.length (requests log)) (upload_request s)
          = Resolved response ->
          ok response = false -> json_body response = inl (VObj props) ->
          handleUploadFile env backend s (s, log)
          = upload_failed s log
              (ToString (or_else (lookup (js "error") props)
                           (VStr (js "Erreur lors du traitement du fichier"))))).
Proof.
  intros s log H. unfold handleUploadFile. rewrite H.
  unfold append, Answers.parsed_answer. cbn [app].
  run_handler.
  split; [|split; [|split]].
  - intros data Hp.
    destruct (backend _ _) as [response|m]; [|discriminate].
    destruct (ok response); [|discriminate].
    destruct (json_body response) as [d|m]; [|discriminate].
    injection Hp as ->. now rewrite <- !app_assoc.
  - intros Hp.
    destruct (backend _ _) as [response|m].
    2:{ exists m. now rewrite <- !app_assoc. }
    destruct (json_body response) as [data|m].
    2:{ exists m. now rewrite <- !app_assoc. }
    destruct (ok response); [discriminate|].
    destruct (get data (js "error")) as [e|e].
    + eexists. now rewrite <- !app_assoc.
    + exists (message e). now rewrite <- !app_assoc.
  - intros m Hm.
    destruct (backend _ _) as [r|m']; [discriminate Hm|].
    injection Hm as ->. now rewrite <- !app_assoc.
  - intros response props Hr Hok Hj.
    destruct (backend _ _) as [r|m']; [|discriminate Hr].
    injection Hr as ->. rewrite Hj, Hok. cbn [get].
    now rewrite <- !app_assoc.
Qed.

(** The second phase checks its inputs before it contacts the backend:
    without a completed file, or with one but without the session id of
    a successful import, it only sets the error text and shows one
    error toast with the same text; no request is issued and both
    statuses, both results and the step stay as they were. *)
Theorem handleProcessCompleted_guards :
  forall (s : State) (log : list event),
    (truthy (completedFile s) = false ->
       handleProcessCompleted env backend s (s, log)
       = (({| originalFile := originalFile s;
              completedFile := completedFile s;
              uploadStatus := uploadStatus s;
              processStatus := processStatus s;
              uploadResult := uploadResult s;
              processResult := processResult s;
              error := js "Veuillez sélectionner le fichier Excel complété";
              currentStep := currentStep s;
              progressDetails := progressDetails s |},
           log ++ [Toast Platform.error
                     (js "Veuillez sélectionner le fichier Excel complété")]),
          Returned tt))
    /\ (truthy (completedFile s) = true ->
        truthy (get_opt (uploadResult s) (js "session_id")) = false ->
       handleProcessCompleted env backend s (s, log)
       = (({| originalFile := originalFile s;
              completedFile := completedFile s;
              uploadStatus := uploadStatus s;
              processStatus := processStatus s;
              uploadResult := uploadResult s;
              processResult := processResult s;
              error := js "Veuillez d'abord importer et traiter le fichier original.";
              currentStep := currentStep s;
              progressDetails := progressDetails s |},
           log ++ [Toast Platform.error
                     (js "Veuillez d'abord importer et traiter le fichier original.")]),
          Returned tt)).
Proof.
  intros s log. split.
  - intros H. unfold handleProcessCompleted. rewrite H. reflexivity.
  - intros H1 H2. unfold handleProcessCompleted. rewrite H1, H2. reflexivity.
Qed.

(** The request of the second phase, and its two outcomes. *)
Abbreviation process_request s :=
  {| url := API_BASE_URL env ++ js "/process"; req_method := POST;
     body :=
       Some [ (js "file", form_value (completedFile s));
              (js "session_id",
               form_value (get_opt (uploadResult s) (js "session_id"))) ] |}.

Abbreviation process_succeeded s log data :=
  (({| originalFile := originalFile s;
       completedFile := completedFile s;
       uploadStatus := uploadStatus s;
       processStatus := js "success";
       uploadResult := uploadResult s;
       processResult := data;
       error := [];
       currentStep := 4;
       progressDetails := js "Fichier final généré et prêt au téléchargement" |},
    log ++ [Fetch (process_request s);
            Toast success (js "Traitement terminé avec succès !")]),
   Returned tt).

Abbreviation process_failed s log m :=
  (({| originalFile := originalFile s;
       completedFile := completedFile s;
       uploadStatus := uploadStatus s;
       processStatus := js "error";
       uploadResult := uploadResult s;
       processResult := VNull;
       error := m;
       currentStep := 3;
       progressDetails := [] |},
    log ++ [Fetch (process_request s); Toast Platform.error m]),
   Returned tt).

(** Once its inputs are there, the second phase posts the completed
    file and the session id once to /process and never throws.  When
    the backend answers with a successful status and a JSON body it
    ends in success: the parsed body as the result, step 4 and a
    success toast.  On any other answer it ends in error: no result, a
    message both as the error text and in one error toast, and the step
    left at 3; the message is the one of the network failure when the
    request is rejected, and for a refusal with a JSON object the error
    field of the body, or the fixed text when that field is missing or
    falsy.  It never stays at processing. *)
Theorem handleProcessCompleted_outcome :
  forall (s : State) (log : list event),
    truthy (completedFile s) = true ->
    truthy (get_opt (uploadResult s) (js "session_id")) = true ->
    (forall data,
       Answers.parsed_answer
         (backend (List.length (requests log)) (process_request s)) = Some data ->
       handleProcessCompleted env backend s (s, log) = process_succeeded s log data)
    /\ (Answers.parsed_answer
          (backend (List.length (requests log)) (process_request s)) = None ->
        exists m,
          handleProcessCompleted env backend s (s, log) = process_failed s log m)
    /\ (forall m,
          backend (List.length (requests log)) (process_request s) = Rejected m ->
          handleProcessCompleted env backend s (s, log) = process_failed s log m)
    /\ (forall response props,
          backend (List.length (requests log)) (process_request s)
          = Resolved response ->
          ok response = false -> json_body response = inl (VObj props) ->
          handleProcessCompleted env backend s (s, log)
          = process_failed s log
              (ToString (or_else (lookup (js "error") props)
                           (VStr (js "Erreur lors du calcul des écarts"))))).
Proof.
  intros s log H1 H2. unfold handleProcessCompleted. rewrite H1, H2.
  unfold append, Answers.parsed_answer. cbn [app].
  run_handler.
  split; [|split; [|split]].
  - intros data Hp.
    destruct (backend _ _) as [response|m]; [|discriminate].
    destruct (ok response); [|discriminate].
    destruct (json_body response) as [d|m]; [|discriminate].
    injection Hp as ->. now rewrite <- !app_assoc.
  - intros Hp.
    destruct (backend _ _) as [response|m].
    2:{ exists m. now rewrite <- !app_assoc. }
    destruct (json_body response) as [data|m].
    2:{ exists m. now rewrite <- !app_assoc. }
    destruct (ok response); [discriminate|].
    destruct (get data (js "error")) as [e|e].
    + eexists. now rewrite <- !app_assoc.
    + exists (message e). now rewrite <- !app_assoc.
  - intros m Hm.
    destruct (backend _ _) as [r|m']; [discriminate Hm|].
    injection Hm as ->. now rewrite <- !app_assoc.
  - intros response props Hr Hok Hj.
    destruct (backend _ _) as [r|m']; [|discriminate Hr].
    injection Hr as ->. rewrite Hj, Hok. cbn [get].
    now rewrite <- !app_assoc.
Qed.

(** The template download of the root component never throws.  Without
    the session id of an import it only sets the error text and shows
    one error toast, with no request.  With one it issues one request,
    and either the backend answers with a successful status and exactly
    one file is saved, or nothing is saved, the phase statuses and the
    results stay as they were and one error toast is shown. *)
Theorem handleDownloadTemplate_outcome :
  forall (s : State) (log : list event),
    snd (handleDownloadTemplate env backend s (s, log)) = Returned tt
    /\ (truthy (get_opt (uploadResult s) (js "session_id")) = false ->
        fst (handleDownloadTemplate env backend s (s, log))
        = ({| originalFile := originalFile s;
              completedFile := completedFile s;
              uploadStatus := uploadStatus s;
              processStatus := processStatus s;
              uploadResult := uploadResult s;
              processResult := processResult s;
              error := js "Aucune session active pour générer le template";
              currentStep := currentStep s;
              progressDetails := progressDetails s |},
            log ++ [Toast Platform.error
                      (js "Aucune session active pour générer le template")]))
    /\ (truthy (get_opt (uploadResult s) (js "session_id")) = true ->
        requests (snd (fst (handleDownloadTemplate env backend s (s, log))))
        = requests log
          ++ [ {| url := API_BASE_URL env ++ js "/download/template/"
                         ++ ToString (get_opt (uploadResult s) (js "session_id"));
                  req_method := GET; body := None |} ]
        /\ ((exists response filename,
               backend (List.length (requests log))
                 {| url := API_BASE_URL env ++ js "/download/template/"
                           ++ ToString (get_opt (uploadResult s) (js "session_id"));
                    req_method := GET; body := None |}
               = Resolved response
               /\ ok response = true
               /\ downloads (snd (fst (handleDownloadTemplate env backend s (s, log))))
                  = downloads log ++ [filename]
               /\ fst (fst (handleDownloadTemplate env backend s (s, log))) = s)
            \/ (exists m,
               downloads (snd (fst (handleDownloadTemplate env backend s (s, log))))
               = downloads log
               /\ fst (fst (handleDownloadTemplate env backend s (s, log)))
                  = {| originalFile := originalFile s;
                       completedFile := completedFile s;
                       uploadStatus := uploadStatus s;
                       processStatus := processStatus s;
                       uploadResult := uploadResult s;
                       processResult := processResult s;
                       error := m;
                       currentStep := currentStep s;
                       progressDetails := progressDetails s |}
               /\ In (Toast Platform.error m)
                    (snd (fst (handleDownloadTemplate env backend s (s, log))))))).
Proof.
  intros s log. unfold handleDownloadTemplate.
  destruct (truthy (get_opt (uploadResult s) (js "session_id"))) eqn:Hs;
    cbn [negb].
  2:{ repeat split; discriminate. }
  run_handler.
  destruct (backend _ _) as [response|m] eqn:Hb.
  2:{ cbn [fst snd]. repeat split; try discriminate.
      - rewrite !requests_app. cbn. now rewrite !app_nil_r.
      - right. exists m. rewrite !downloads_app. cbn. rewrite !app_nil_r.
        repeat split. rewrite !in_app_iff. cbn. tauto. }
  destruct (ok response) eqn:Hok.
  - unfold warn_undecodable.
    destruct (ContentDisposition.undecodable _ _); run_handler; cbn [fst snd];
      (repeat split; try discriminate;
       [ rewrite !requests_app; cbn; now rewrite !app_nil_r
       | left; exists response; eexists;
         rewrite !downloads_app; cbn; rewrite !app_nil_r;
         repeat split; solve [assumption | destruct s; reflexivity] ]).
  - destruct (json_body response) as [data|m] eqn:Hj;
      [destruct (get data (js "error")) as [e|e]|];
      cbn [fst snd]; (repeat split; try discriminate;
       [ rewrite !requests_app; cbn; now rewrite !app_nil_r
       | right; eexists; rewrite !downloads_app; cbn; rewrite !app_nil_r;
         repeat split; rewrite !in_app_iff; cbn; tauto ]).
Qed.

(** The final download of the root component needs both the session id
    of an import and a final-file reference in the process result, and
    checks them in that order.  The reference is only tested, never
    fetched: with both present the one request goes to
    /download/final/ followed by the session id, whatever the reference
    holds. *)
Theorem handleDownloadFinalFile_request :
  forall (s : State) (log : list event),
    (truthy (get_opt (uploadResult s) (js "session_id")) = false ->
       handleDownloadFinalFile env backend s (s, log)
       = (({| originalFile := originalFile s;
              completedFile := completedFile s;
              uploadStatus := uploadStatus s;
              processStatus := processStatus s;
              uploadResult := uploadResult s;
              processResult := processResult s;
              error :=
                js "Aucun ID de session disponible pour télécharger le fichier final.";
              currentStep := currentStep s;
              progressDetails := progressDetails s |},
           log ++ [Toast Platform.error
                     (js "Aucun ID de session disponible pour télécharger le fichier final.")]),
          Returned tt))
    /\ (truthy (get_opt (uploadResult s) (js "session_id")) = true ->
        truthy (get_opt (processResult s) (js "final_url")) = false ->
       handleDownloadFinalFile env backend s (s, log)
       = (({| originalFile := originalFile s;
              completedFile := completedFile s;
              uploadStatus := uploadStatus s;
              processStatus := processStatus s;
              uploadResult := uploadResult s;
              processResult := processResult s;
              error :=
                js "Le fichier final n'a pas été généré ou son URL est manquante.";
              currentStep := currentStep s;
              progressDetails := progressDetails s |},
           log ++ [Toast Platform.error
                     (js "Le fichier final n'a pas été généré ou son URL est manquante.")]),
          Returned tt))
    /\ (truthy (get_opt (uploadResult s) (js "session_id")) = true ->
        truthy (get_opt (processResult s) (js "final_url")) = true ->
        requests (snd (fst (handleDownloadFinalFile env backend s (s, log))))
        = requests log
          ++ [ {| url := API_BASE_URL env ++ js "/download/final/"
                         ++ ToString (get_opt (uploadResult s) (js "session_id"));
                  req_method := GET; body := None |} ]
        /\ snd (handleDownloadFinalFile env backend s (s, log)) = Returned tt).
Proof.
  intros s log. unfold handleDownloadFinalFile.
  split; [intros H | split; [intros H H0 | intros H H0; split]].
  - rewrite H. reflexivity.
  - rewrite H, H0. reflexivity.
  - rewrite H, H0. cbn [negb]. run_handler.
    destruct (backend _ _) as [response|m].
    2:{ cbn [fst snd]. rewrite !requests_app. cbn. now rewrite !app_nil_r. }
    destruct (ok response).
    + unfold warn_undecodable.
      destruct (ContentDisposition.undecodable _ _); run_handler; cbn [fst snd];
        rewrite !requests_app; cbn; now rewrite !app_nil_r.
    + destruct (json_body response) as [data|m];
        [destruct (get data (js "error"))|];
        cbn [fst snd]; rewrite !requests_app; cbn; now rewrite !app_nil_r.
  - rewrite H, H0. cbn [negb]. run_handler.
    destruct (backend _ _) as [response|m]; [|reflexivity].
    destruct (ok response).
    + unfold warn_undecodable.
      destruct (ContentDisposition.undecodable _ _); reflexivity.
    + destruct (json_body response) as [data|m];
        [destruct (get data (js "error"))|]; reflexivity.
Qed.

(** What the operator sees after resuming a session.  For a completed
    session the progress indicator shows the first four steps completed
    and the last one current, at 100 percent, and both cards show their
    result.  For a session whose template is generated it shows the
    first step completed, the second current and the rest pending, at
    25 percent; the first card shows its result and the second card is
    open for the completed file. *)
Theorem resumed_session_rendering :
  forall (session : Session) (s0 : State) (log0 : list event),
    (lookup (js "status") session = VStr (js "completed") ->
       progressIndicator (fst (fst (handleSessionSelect session (s0, log0))))
       = Some {| ProgressIndicator.stepStates :=
                   [ProgressIndicator.completed; ProgressIndicator.completed;
                    ProgressIndicator.completed; ProgressIndicator.completed;
                    ProgressIndicator.current];
                 ProgressIndicator.globalPercent := ProgressIndicator.Int 100 |}
       /\ card1 (fst (fst (handleSessionSelect session (s0, log0))))
          = {| dropZone1 := false; selectedFile1 := false; uploadButton := false;
               sessionBadge := false; spinner1 := false; result1 := true |}
       /\ card2 (fst (fst (handleSessionSelect session (s0, log0))))
          = {| disabled2 := false; dropZone2 := false; processButton := false;
               spinner2 := false; result2 := true |})
    /\ (lookup (js "status") session = VStr (js "template_generated") ->
       progressIndicator (fst (fst (handleSessionSelect session (s0, log0))))
       = Some {| ProgressIndicator.stepStates :=
                   [ProgressIndicator.completed; ProgressIndicator.current;
                    ProgressIndicator.pending; ProgressIndicator.pending;
                    ProgressIndicator.pending];
                 ProgressIndicator.globalPercent := ProgressIndicator.Int 25 |}
       /\ card1 (fst (fst (handleSessionSelect session (s0, log0))))
          = {| dropZone1 := false; selectedFile1 := false; uploadButton := false;
               sessionBadge := false; spinner1 := false; result1 := true |}
       /\ card2 (fst (fst (handleSessionSelect session (s0, log0))))
          = {| disabled2 := false; dropZone2 := true; processButton := false;
               spinner2 := false; result2 := false |}).
Proof.
  intros session s0 log0. split; intros H; unfold handleSessionSelect;
    rewrite H; repeat split; vm_compute; reflexivity.
Qed.

(** After an import that fails, whatever the failure, the first card
    shows nothing (no drop zone, hence no button to start the import
    again), the second card stays disabled, and the progress indicator
    shows the first step in error, the others pending, at 0 percent. *)
Theorem failed_import_rendering :
  forall (s : State) (log : list event),
    truthy (originalFile s) = true ->
    uploadStatus (fst (fst (handleUploadFile env backend s (s, log)))) = js "error" ->
    card1 (fst (fst (handleUploadFile env backend s (s, log))))
    = {| dropZone1 := false; selectedFile1 := false; uploadButton := false;
         sessionBadge := false; spinner1 := false; result1 := false |}
    /\ disabled2 (card2 (fst (fst (handleUploadFile env backend s (s, log))))) = true
    /\ progressIndicator (fst (fst (handleUploadFile env backend s (s, log))))
       = Some {| ProgressIndicator.stepStates :=
                   [ProgressIndicator.error; ProgressIndicator.pending;
                    ProgressIndicator.pending; ProgressIndicator.pending;
                    ProgressIndicator.pending];
                 ProgressIndicator.globalPercent := ProgressIndicator.Int 0 |}.
Proof.
  intros s log H. unfold handleUploadFile. rewrite H.
  unfold append. cbn [app]. run_handler.
  destruct (backend _ _) as [response|m].
  2:{ intros _. repeat split; vm_compute; reflexivity. }
  destruct (json_body response) as [data|m].
  2:{ intros _. repeat split; vm_compute; reflexivity. }
  destruct (ok response).
  - cbn [fst snd]. intros Habs. vm_compute in Habs. discriminate.
  - destruct (get data (js "error")); intros _; repeat split;
      vm_compute; reflexivity.
Qed.

End PhaseFacts.

Lemma handleUploadFile_without_file_witness :
  AppHandlers.handleUploadFile VUndefined Samples.accepting_backend App.initial
    (App.initial, [])
  = (({| App.originalFile := VNull; App.completedFile := VNull;
         App.uploadStatus := js "idle"; App.processStatus := js "idle";
         App.uploadResult := VNull; App.processResult := VNull;
         App.error := js "Veuillez sélectionner un fichier CSV Sage X3";
         App.currentStep := 0; App.progressDetails := [] |},
      [Toast Platform.error (js "Veuillez sélectionner un fichier CSV Sage X3")]),
     Returned tt).
Proof.
  exact (handleUploadFile_without_file VUndefined Samples.accepting_backend
           App.initial [] eq_refl).
Defined.

Lemma handleUploadFile_outcome_witness :
  AppHandlers.handleUploadFile VUndefined Samples.accepting_backend
    Samples.files_picked (Samples.files_picked, [])
  = (({| App.originalFile := VFile (js "inventaire.csv") 2048;
         App.completedFile := VFile (js "template.xlsx") 4096;
         App.uploadStatus := js "success"; App.processStatus := js "idle";
         App.uploadResult := VObj []; App.processResult := VNull;
         App.error := []; App.currentStep := 1;
         App.progressDetails := js "Template prêt à être téléchargé" |},
      [Fetch {| url := js "http://localhost:5000/api/upload"; req_method := POST;
                body := Some [(js "file", VFile (js "inventaire.csv") 2048)] |};
       Toast success (js "Fichier traité avec succès !")]),
     Returned tt)
  /\ AppHandlers.handleUploadFile VUndefined Samples.not_found_backend
       Samples.files_picked (Samples.files_picked, [])
     = (({| App.originalFile := VFile (js "inventaire.csv") 2048;
            App.completedFile := VFile (js "template.xlsx") 4096;
            App.uploadStatus := js "error"; App.processStatus := js "idle";
            App.uploadResult := VNull; App.processResult := VNull;
            App.error := js "Session introuvable"; App.currentStep := 0;
            App.progressDetails := [] |},
         [Fetch {| url := js "http://localhost:5000/api/upload"; req_method := POST;
                   body := Some [(js "file", VFile (js "inventaire.csv") 2048)] |};
          Toast Platform.error (js "Session introuvable")]),
        Returned tt).
Proof.
  split.
  - exact (proj1 (handleUploadFile_outcome VUndefined Samples.accepting_backend
                    Samples.files_picked [] eq_refl) (VObj []) eq_refl).
  - exact (proj2 (proj2 (proj2
             (handleUploadFile_outcome VUndefined Samples.not_found_backend
                Samples.files_picked [] eq_refl)))
             {| status := 404; contentDisposition := None;
                json_body := inl (VObj [(js "error", VStr (js "Session introuvable"))]);
                blob_size := 0 |}
             [(js "error", VStr (js "Session introuvable"))]
             eq_refl eq_refl eq_refl).
Defined.

Lemma handleProcessCompleted_outcome_witness :
  App.handleProcessCompleted VUndefined Samples.accepting_backend
    Samples.ready_to_process (Samples.ready_to_process, [])
  = (({| App.originalFile := VFile (js "inventaire.csv") 2048;
         App.completedFile := VFile (js "template.xlsx") 4096;
         App.uploadStatus := js "success"; App.processStatus := js "success";
         App.uploadResult := App.uploadResult Samples.ready_to_process;
         App.processResult := VObj [];
         App.error := []; App.currentStep := 4;
         App.progressDetails :=
           js "Fichier final généré et prêt au téléchargement" |},
      [Fetch {| url := js "http://localhost:5000/api/process"; req_method := POST;
                body := Some [ (js "file", VFile (js "template.xlsx") 4096);
                               (js "session_id", VStr (js "abc123")) ] |};
       Toast success (js "Traitement terminé avec succès !")]),
     Returned tt)
  /\ App.handleProcessCompleted VUndefined Samples.not_found_backend
       Samples.ready_to_process (Samples.ready_to_process, [])
     = (({| App.originalFile := VFile (js "inventaire.csv") 2048;
            App.completedFile := VFile (js "template.xlsx") 4096;
            App.uploadStatus := js "success"; App.processStatus := js "error";
            App.uploadResult := App.uploadResult Samples.ready_to_process;
            App.processResult := VNull;
            App.error := js "Session introuvable"; App.currentStep := 3;
            App.progressDetails := [] |},
         [Fetch {| url := js "http://localhost:5000/api/process"; req_method := POST;
                   body := Some [ (js "file", VFile (js "template.xlsx") 4096);
                                  (js "session_id", VStr (js "abc123")) ] |};
          Toast Platform.error (js "Session introuvable")]),
        Returned tt).
Proof.
  split.
  - exact (proj1 (handleProcessCompleted_outcome VUndefined Samples.accepting_backend
                    Samples.ready_to_process [] eq_refl eq_refl) (VObj []) eq_refl).
  - exact (proj2 (proj2 (proj2
             (handleProcessCompleted_outcome VUndefined Samples.not_found_backend
                Samples.ready_to_process [] eq_refl eq_refl)))
             {| status := 404; contentDisposition := None;
                json_body := inl (VObj [(js "error", VStr (js "Session introuvable"))]);
                blob_size := 0 |}
             [(js "error", VStr (js "Session introuvable"))]
             eq_refl eq_refl eq_refl).
Defined.

Lemma failed_import_rendering_witness :
  AppHandlers.card1
    (fst (fst (AppHandlers.handleUploadFile VUndefined Samples.not_found_backend
                 Samples.files_picked (Samples.files_picked, []))))
  = {| AppHandlers.dropZone1 := false; AppHandlers.selectedFile1 := false;
       AppHandlers.uploadButton := false; AppHandlers.sessionBadge := false;
       AppHandlers.spinner1 := false; AppHandlers.result1 := false |}
  /\ AppHandlers.disabled2
       (AppHandlers.card2
          (fst (fst (AppHandlers.handleUploadFile VUndefined Samples.not_found_backend
                       Samples.files_picked (Samples.files_picked, []))))) = true
  /\ AppHandlers.progressIndicator
       (fst (fst (AppHandlers.handleUploadFile VUndefined Samples.not_found_backend
                    Samples.files_picked (Samples.files_picked, []))))
     = Some {| ProgressIndicator.stepStates :=
                 [ProgressIndicator.error; ProgressIndicator.pending;
                  ProgressIndicator.pending; ProgressIndicator.pending;
                  ProgressIndicator.pending];
               ProgressIndicator.globalPercent := ProgressIndicator.Int 0 |}.
Proof.
  exact (failed_import_rendering VUndefined Samples.not_found_backend
           Samples.files_picked [] eq_refl eq_refl).
Defined.

(* ------------------------------------------------------------------ *)
(** ** The toast controller *)
(* ------------------------------------------------------------------ *)

Section ToastFacts.
Import ToastController.

Lemma removeToast_app (i : Z) (a b : list ToastItem) :
  removeToast i (a ++ b) = removeToast i a ++ removeToast i b.
Proof. unfold removeToast. apply filter_app. Qed.

Lemma removeToast_absent (i : Z) (l : list ToastItem) :
  (forall t, In t l -> id t <> i) -> removeToast i l = l.
Proof.
  intros H. unfold removeToast. induction l as [|t l IH]; [reflexivity|].
  cbn [filter]. destruct (Z.eqb_spec (id t) i) as [E|_].
  - exfalso. apply (H t); [now left | exact E].
  - cbn [negb]. f_equal. apply IH. intros u Hu. apply H. now right.
Qed.

(** Showing a toast and then removing it gives back the list of toasts
    as it was, in the same order, provided no toast already shown was
    created in the same millisecond. *)
Theorem toast_add_then_remove :
  forall (now : Z) (kind : ToastKind) (text : jsstring) (d : value)
         (prev : list ToastItem),
    (forall t, In t prev -> id t <> now) ->
    removeToast now (addToast now kind text d prev) = prev.
Proof.
  intros now kind text d prev H. unfold addToast.
  rewrite removeToast_app, (removeToast_absent now prev H).
  unfold removeToast. cbn. rewrite Z.eqb_refl. cbn. apply app_nil_r.
Qed.

(** Toasts are told apart by their creation time only: when two toasts
    are created in the same millisecond, removing either removes both,
    while removing by another time keeps them, after the ones already
    there and in the order they were shown. *)
Theorem toast_same_millisecond :
  forall (now : Z) (k1 k2 : ToastKind) (m1 m2 : jsstring) (d1 d2 : value)
         (prev : list ToastItem),
    removeToast now (addToast now k2 m2 d2 (addToast now k1 m1 d1 prev))
    = removeToast now prev
    /\ forall other,
         other <> now ->
         removeToast other (addToast now k2 m2 d2 (addToast now k1 m1 d1 prev))
         = addToast now k2 m2 d2 (addToast now k1 m1 d1 (removeToast other prev)).
Proof.
  intros now k1 k2 m1 m2 d1 d2 prev. unfold addToast. split.
  - rewrite !removeToast_app. unfold removeToast at 2 3. cbn.
    rewrite Z.eqb_refl. cbn. now rewrite !app_nil_r.
  - intros other Hne. rewrite !removeToast_app. unfold removeToast at 2 3. cbn.
    destruct (Z.eqb_spec now other) as [E|_]; [congruence|]. reflexivity.
Qed.

End ToastFacts.

Lemma toast_add_then_remove_witness :
  ToastController.removeToast 1700000000500
    (ToastController.addToast 1700000000500 Platform.error (js "Echec") VUndefined
       MoreSamples.one_toast)
  = MoreSamples.one_toast.
Proof.
  apply (toast_add_then_remove 1700000000500 Platform.error (js "Echec") VUndefined
           MoreSamples.one_toast).
  intros t [<- | []]. simpl. lia.
Defined.

(* ------------------------------------------------------------------ *)
(** ** The handlers of the quick panel *)
(* ------------------------------------------------------------------ *)

Section QuickPanelFacts.
Import QuickPanel Answers.
Variable env : value.
Variable backend : Backend.

Abbreviation idle_api := {| UseApi.loading := false; UseApi.error := VNull |}.

(** The effects of a call of the request primitive that returns, and of
    one that throws with the message [m]. *)
Abbreviation returned_effects req :=
  [SetLoading true; SetError VNull; Fetch req; SetLoading false].
Abbreviation thrown_effects req m :=
  [SetLoading true; SetError VNull; Fetch req; SetError (VStr m); SetLoading false].

(** Loading the sessions of the quick panel never throws and shows no
    toast.  When the backend answers with a successful status and a
    JSON body, the list becomes the [sessions] field of the body, or
    the empty list when that field is missing or falsy; when the body
    is [null] the list stays as it was and the failure is logged.  On
    any other answer the list stays as it was, the hook records the
    message and the failure is logged. *)
Theorem loadSessions_outcome :
  forall (s : State) (log : list event),
    (forall data listed,
       parsed_answer (backend (List.length (requests log))
                        (UseApi.request_of env (js "/sessions") UseApi.no_options))
       = Some data ->
       get data (js "sessions") = inl listed ->
       loadSessions env backend (s, log)
       = (({| sessions := or_else listed (VArr []);
              isOpen := isOpen s; showDashboard := showDashboard s;
              deleteConfirm := deleteConfirm s; api := idle_api |},
           log ++ returned_effects
                    (UseApi.request_of env (js "/sessions") UseApi.no_options)),
          Returned tt))
    /\ (forall data e,
       parsed_answer (backend (List.length (requests log))
                        (UseApi.request_of env (js "/sessions") UseApi.no_options))
       = Some data ->
       get data (js "sessions") = inr e ->
       loadSessions env backend (s, log)
       = ((set_api idle_api s,
           log ++ returned_effects
                    (UseApi.request_of env (js "/sessions") UseApi.no_options)
               ++ [ConsoleLog (js "error")
                     (js "Erreur chargement sessions: " ++ message e)]),
          Returned tt))
    /\ (parsed_answer (backend (List.length (requests log))
                         (UseApi.request_of env (js "/sessions") UseApi.no_options))
        = None ->
       exists e,
         loadSessions env backend (s, log)
         = ((set_api {| UseApi.loading := false; UseApi.error := VStr (message e) |} s,
             log ++ thrown_effects
                      (UseApi.request_of env (js "/sessions") UseApi.no_options)
                      (message e)
                 ++ [ConsoleLog (js "error")
                       (js "Erreur chargement sessions: " ++ message e)]),
            Returned tt)).
Proof.
  intros s log. unfold loadSessions, UseApi.getSessions.
  split; [|split].
  - intros data listed Hp Hg.
    cbv [try_catch bind zoom fst snd]. rewrite (makeRequest_parsed env backend _ _ _ _ _ Hp).
    rewrite Hg. reflexivity.
  - intros data e Hp Hg.
    cbv [try_catch bind zoom fst snd]. rewrite (makeRequest_parsed env backend _ _ _ _ _ Hp).
    rewrite Hg. cbv [lift throw emit fst snd]. now rewrite <- app_assoc.
  - intros Hp.
    destruct (makeRequest_unparsed env backend (js "/sessions") UseApi.no_options (api s) log Hp)
      as [e He].
    exists e. cbv [try_catch bind zoom fst snd]. rewrite He.
    cbv [emit fst snd]. now rewrite <- app_assoc.
Qed.

Lemma without_id_objects (sessionId : value) (l : list Session) :
  without_id sessionId (map VObj l)
  = inl (map VObj
           (filter (fun x => negb (strict_eq (lookup (js "id") x) sessionId)) l)).
Proof.
  induction l as [|x l IH]; [reflexivity|].
  cbn [map without_id get filter]. rewrite IH.
  now destruct (strict_eq (lookup (js "id") x) sessionId).
Qed.

(** Deleting a session from the quick panel never throws and shows no
    toast.  When the backend answers the deletion with a successful
    status and a JSON body, the sessions with that id leave the list,
    the others stay in order and the confirmation dialog closes, with
    no reload of the list.  On any other answer (a refusal, no
    connection, and also a successful status with an empty body) the
    list is left as it was, the dialog stays open and the failure is
    logged. *)
Theorem handleDelete_outcome :
  forall (s : State) (log : list event) (sessionId : value),
    (forall data (listed : list Session),
       parsed_answer
         (backend (List.length (requests log))
            (UseApi.request_of env (js "/sessions/" ++ ToString sessionId)
               {| UseApi.opt_method := Some DELETE; UseApi.opt_body := None |}))
       = Some data ->
       sessions s = VArr (map VObj listed) ->
       handleDelete env backend s sessionId (s, log)
       = (({| sessions :=
                VArr (map VObj
                        (filter (fun x => negb (strict_eq (lookup (js "id") x)
                                                  sessionId)) listed));
              isOpen := isOpen s; showDashboard := showDashboard s;
              deleteConfirm := VNull; api := idle_api |},
           log ++ returned_effects
                    (UseApi.request_of env (js "/sessions/" ++ ToString sessionId)
                       {| UseApi.opt_method := Some DELETE;
                          UseApi.opt_body := None |})),
          Returned tt))
    /\ (parsed_answer
          (backend (List.length (requests log))
             (UseApi.request_of env (js "/sessions/" ++ ToString sessionId)
                {| UseApi.opt_method := Some DELETE; UseApi.opt_body := None |}))
        = None ->
       exists e,
         handleDelete env backend s sessionId (s, log)
         = ((set_api {| UseApi.loading := false; UseApi.error := VStr (message e) |} s,
             log ++ thrown_effects
                      (UseApi.request_of env (js "/sessions/" ++ ToString sessionId)
                         {| UseApi.opt_method := Some DELETE;
                            UseApi.opt_body := None |})
                      (message e)
                 ++ [ConsoleLog (js "error")
                       (js "Erreur suppression: " ++ message e)]),
            Returned tt)).
Proof.
  intros s log sessionId. unfold handleDelete, UseApi.deleteSession. split.
  - intros data listed Hp Hs.
    cbv [try_catch bind zoom fst snd]. rewrite (makeRequest_parsed env backend _ _ _ _ _ Hp).
    rewrite Hs. unfold filter_sessions. rewrite without_id_objects. reflexivity.
  - intros Hp.
    destruct (makeRequest_unparsed env backend (js "/sessions/" ++ ToString sessionId)
                {| UseApi.opt_method := Some DELETE; UseApi.opt_body := None |}
                (api s) log Hp) as [e He].
    exists e. cbv [try_catch bind zoom fst snd]. rewrite He.
    cbv [emit fst snd]. now rewrite <- app_assoc.
Qed.

(** A download started from a row of the quick panel never throws,
    leaves the whole state of the panel as it was (the error of the
    hook included) and shows no toast: a download that fails saves
    nothing and is only logged to the console. *)
Theorem handleDownload_outcome :
  forall (s : State) (log : list event) (sessionId : value) (type : jsstring),
    snd (handleDownload env backend sessionId type (s, log)) = Returned tt
    /\ fst (fst (handleDownload env backend sessionId type (s, log))) = s
    /\ ((exists filename,
           snd (fst (handleDownload env backend sessionId type (s, log)))
           = log ++ [Fetch {| url := UseApi.API_BASE_URL env ++ js "/download/"
                                     ++ type ++ js "/" ++ ToString sessionId;
                              req_method := GET; body := None |};
                     Download filename])
        \/ (exists m,
           snd (fst (handleDownload env backend sessionId type (s, log)))
           = log ++ [Fetch {| url := UseApi.API_BASE_URL env ++ js "/download/"
                                     ++ type ++ js "/" ++ ToString sessionId;
                              req_method := GET; body := None |};
                     ConsoleLog (js "error") (js "Erreur téléchargement: " ++ m)])).
Proof.
  intros s log sessionId type. unfold handleDownload, UseApi.downloadFile.
  cbv [try_catch bind zoom fetch json lift ret throw emit fst snd].
  destruct (backend _ _) as [response|m].
  2:{ repeat split; [now destruct s|]. right. exists m. now rewrite <- app_assoc. }
  destruct (ok response); cbn [negb].
  - repeat split; [now destruct s|]. left. eexists. now rewrite <- app_assoc.
  - destruct (json_body response) as [d|m]; [destruct (get d (js "error")) as [e|e]|];
      (repeat split; [now destruct s|]); right; eexists; now rewrite <- app_assoc.
Qed.

End QuickPanelFacts.

(* ------------------------------------------------------------------ *)
(** ** The quick panel mounted in the page *)
(* ------------------------------------------------------------------ *)

Section PageFacts.
Import Page.
Variable env : value.
Variable backend : Backend.

Lemma app_handleSessionSelect_returns (session : Session) (a : App.State)
    (log : list event) :
  snd (App.handleSessionSelect session (a, log)) = Returned tt.
Proof.
  unfold App.handleSessionSelect.
  destruct (strict_eq_str (lookup (js "status") session) (js "template_generated"));
    destruct (strict_eq_str (lookup (js "status") session) (js "completed"));
    reflexivity.
Qed.

(** Resuming a session from the quick panel is the session selection of
    the root component followed by the closing of the panel and of the
    dashboard: the workflow state is the one the root component
    rebuilds, the list of sessions and the pending confirmation of the
    panel are untouched, and no request is issued, whatever the status
    of the session.  Without a callback from the parent the panel only
    closes. *)
Theorem panel_resume :
  forall (session : Session) (s : State) (log : list event),
    handleSessionSelect (Some onSessionSelect) session (s, log)
    = (({| app := fst (fst (App.handleSessionSelect session (app s, log)));
           panel :=
             {| QuickPanel.sessions := QuickPanel.sessions (panel s);
                QuickPanel.isOpen := false;
                QuickPanel.showDashboard := false;
                QuickPanel.deleteConfirm := QuickPanel.deleteConfirm (panel s);
                QuickPanel.api := QuickPanel.api (panel s) |} |},
        snd (fst (App.handleSessionSelect session (app s, log)))),
       Returned tt)
    /\ requests (snd (fst (handleSessionSelect (Some onSessionSelect) session (s, log))))
       = requests log
    /\ handleSessionSelect None session (s, log)
       = (({| app := app s;
              panel :=
                {| QuickPanel.sessions := QuickPanel.sessions (panel s);
                   QuickPanel.isOpen := false;
                   QuickPanel.showDashboard := false;
                   QuickPanel.deleteConfirm := QuickPanel.deleteConfirm (panel s);
                   QuickPanel.api := QuickPanel.api (panel s) |} |},
           log),
          Returned tt).
Proof.
  intros session s log.
  assert (Hrun :
    handleSessionSelect (Some onSessionSelect) session (s, log)
    = (({| app := fst (fst (App.handleSessionSelect session (app s, log)));
           panel :=
             {| QuickPanel.sessions := QuickPanel.sessions (panel s);
                QuickPanel.isOpen := false;
                QuickPanel.showDashboard := false;
                QuickPanel.deleteConfirm := QuickPanel.deleteConfirm (panel s);
                QuickPanel.api := QuickPanel.api (panel s) |} |},
        snd (fst (App.handleSessionSelect session (app s, log)))),
       Returned tt)).
  { unfold handleSessionSelect, onSessionSelect.
    cbv [bind zoom fst snd].
    pose proof (app_handleSessionSelect_returns session (app s) log) as Hr.
    destruct (App.handleSessionSelect session (app s, log)) as [[a' log'] r].
    cbn [snd] in Hr. subst r. reflexivity. }
  split; [exact Hrun|]. split; [|reflexivity].
  rewrite Hrun. cbn [fst snd].
  unfold App.handleSessionSelect.
  destruct (strict_eq_str (lookup (js "status") session) (js "template_generated"));
    destruct (strict_eq_str (lookup (js "status") session) (js "completed"));
    cbn [orb];
    cbv [try_catch bind App.setOriginalFile App.setCompletedFile App.setError
         App.setUploadStatus App.setUploadResult App.setProcessStatus
         App.setProcessResult App.setCurrentStep App.setProgressDetails
         App.showSuccess App.showInfo modify emit fst snd];
    rewrite requests_app; simpl; apply app_nil_r.
Qed.

Lemma row_buttons_template (session : Session) :
  lookup (js "status") session = VStr (js "template_generated") ->
  SessionManager.row_buttons session
  = [ {| SessionManager.label := js "Template"; SessionManager.disabled := false;
         SessionManager.onClick :=
           SessionManager.handleDownload (lookup (js "id") session) (js "template") |};
      {| SessionManager.label := js "Reprendre"; SessionManager.disabled := false;
         SessionManager.onClick := SessionManager.handleSessionSelect session |} ].
Proof.
  intros H. unfold SessionManager.row_buttons, SessionManager.resumable.
  rewrite H. vm_compute. reflexivity.
Qed.

Lemma row_buttons_completed (session : Session) :
  lookup (js "status") session = VStr (js "completed") ->
  SessionManager.row_buttons session
  = [ {| SessionManager.label := js "Template"; SessionManager.disabled := false;
         SessionManager.onClick :=
           SessionManager.handleDownload (lookup (js "id") session) (js "template") |};
      {| SessionManager.label := js "Final"; SessionManager.disabled := false;
         SessionManager.onClick :=
           SessionManager.handleDownload (lookup (js "id") session) (js "final") |};
      {| SessionManager.label := js "Reprendre"; SessionManager.disabled := false;
         SessionManager.onClick := SessionManager.handleSessionSelect session |} ].
Proof.
  intros H. unfold SessionManager.row_buttons, SessionManager.resumable.
  rewrite H. vm_compute. reflexivity.
Qed.

(** The download buttons of a row of the quick panel ask for the files
    of that row's session: for a session whose template is generated
    the first button requests /download/template/ followed by its id,
    and for a completed session the first two buttons request
    /download/template/ and /download/final/ followed by its id; each
    click issues exactly that one request and leaves the root component
    untouched. *)
Theorem row_download_buttons :
  forall (session : Session) (s : State) (log : list event),
    (lookup (js "status") session = VStr (js "template_generated") ->
       map (fun b => (requests (snd (fst (click_row_button env backend b (s, log)))),
                      app (fst (fst (click_row_button env backend b (s, log))))))
         (firstn 1 (SessionManager.row_buttons session))
       = [ (requests log
            ++ [ {| url := UseApi.API_BASE_URL env ++ js "/download/template/"
                           ++ ToString (lookup (js "id") session);
                    req_method := GET; body := None |} ],
            app s) ])
    /\ (lookup (js "status") session = VStr (js "completed") ->
       map (fun b => (requests (snd (fst (click_row_button env backend b (s, log)))),
                      app (fst (fst (click_row_button env backend b (s, log))))))
         (firstn 2 (SessionManager.row_buttons session))
       = [ (requests log
            ++ [ {| url := UseApi.API_BASE_URL env ++ js "/download/template/"
                           ++ ToString (lookup (js "id") session);
                    req_method := GET; body := None |} ],
            app s);
           (requests log
            ++ [ {| url := UseApi.API_BASE_URL env ++ js "/download/final/"
                           ++ ToString (lookup (js "id") session);
                    req_method := GET; body := None |} ],
            app s) ]).
Proof.
  intros session s log.
  assert (Hclick : forall sessionId type,
    requests (snd (fst (zoom panel set_panel
                          (QuickPanel.handleDownload env backend sessionId type)
                          (s, log))))
    = requests log
      ++ [ {| url := UseApi.API_BASE_URL env ++ js "/download/" ++ type ++ js "/"
                     ++ ToString sessionId;
              req_method := GET; body := None |} ]
    /\ app (fst (fst (zoom panel set_panel
                        (QuickPanel.handleDownload env backend sessionId type)
                        (s, log)))) = app s).
  { intros sessionId type.
    unfold QuickPanel.handleDownload, UseApi.downloadFile.
    cbv [try_catch bind zoom fetch json lift ret throw emit fst snd].
    destruct (backend _ _) as [response|m].
    2:{ split; [|reflexivity]. rewrite !requests_app. cbn. now rewrite !app_nil_r. }
    destruct (ok response); cbn [negb].
    - split; [|reflexivity]. rewrite !requests_app. cbn. now rewrite !app_nil_r.
    - destruct (json_body response) as [d|m];
        [destruct (get d (js "error")) as [e|e]|];
        (split; [|reflexivity]); rewrite !requests_app; cbn; now rewrite !app_nil_r. }
  split; intros H.
  - rewrite (row_buttons_template session H). cbn [firstn map].
    unfold click_row_button.
    cbn [SessionManager.click SessionManager.disabled SessionManager.onClick].
    destruct (Hclick (lookup (js "id") session) (js "template")) as [-> ->].
    reflexivity.
  - rewrite (row_buttons_completed session H). cbn [firstn map].
    unfold click_row_button.
    cbn [SessionManager.click SessionManager.disabled SessionManager.onClick].
    destruct (Hclick (lookup (js "id") session) (js "template")) as [-> ->].
    destruct (Hclick (lookup (js "id") session) (js "final")) as [-> ->].
    reflexivity.
Qed.

End PageFacts.

(* ------------------------------------------------------------------ *)
(** ** The dashboard: selection and the other outcomes of a bulk action *)
(* ------------------------------------------------------------------ *)

Section DashboardMoreFacts.
Import SessionDashboard DashboardSelection Answers.
Variable env : value.
Variable backend : Backend.

Abbreviation delete_request id :=
  {| url := UseApi.API_BASE_URL env ++ js "/sessions/" ++ ToString id;
     req_method := DELETE; body := None |}.

Abbreviation delete_effects id :=
  [SetLoading true; SetError VNull; Fetch (delete_request id); SetLoading false].

Abbreviation failed_delete_effects id m :=
  [SetLoading true; SetError VNull; Fetch (delete_request id);
   SetError (VStr m); SetLoading false].

Lemma strict_eq_includes (l : list value) (t : jsstring) :
  array_includes l (VStr t) = false ->
  filter (fun i => negb (QuickPanel.strict_eq i (VStr t))) l = l.
Proof.
  unfold array_includes. induction l as [|x l IH]; [reflexivity|].
  cbn [existsb filter]. intros H. apply orb_false_iff in H as [Hx Hl].
  replace (QuickPanel.strict_eq x (VStr t)) with (same_value_zero x (VStr t))
    by (destruct x; reflexivity).
  rewrite Hx. cbn [negb]. f_equal. now apply IH.
Qed.

Lemma unchecked_not_included (l : list value) (t : jsstring) :
  array_includes (filter (fun i => negb (QuickPanel.strict_eq i (VStr t))) l) (VStr t)
  = false.
Proof.
  unfold array_includes. apply not_true_is_false. intros H.
  apply existsb_exists in H as (x & Hx & Hs).
  apply filter_In in Hx as [_ Hx].
  replace (QuickPanel.strict_eq x (VStr t)) with (same_value_zero x (VStr t)) in Hx
    by (destruct x; reflexivity).
  rewrite Hs in Hx. discriminate.
Qed.

(** For a row whose id is a string: checking its box makes the row
    selected; unchecking its box makes the row unselected, whatever the
    selection was (every occurrence of the id leaves it); and for a row
    that was not selected, checking and then unchecking gives back the
    selection exactly as it was. *)
Theorem selection_check_uncheck :
  forall (s : State) (session : Session) (t : jsstring) (log : list event),
    lookup (js "id") session = VStr t ->
    checked (fst (fst (onChange s session true (s, log)))) session = true
    /\ checked (fst (fst (onChange s session false (s, log)))) session = false
    /\ (checked s session = false ->
        selectedSessions
          (fst (fst (onChange (fst (fst (onChange s session true (s, log))))
                       session false
                       (fst (fst (onChange s session true (s, log))), log))))
        = selectedSessions s).
Proof.
  intros s session t log Hid. unfold checked, onChange.
  cbv [setSelectedSessions modify fst snd selectedSessions].
  rewrite Hid. split; [|split].
  - unfold array_includes. rewrite existsb_app. cbn.
    rewrite jsstring_eqb_refl. now rewrite orb_true_r.
  - apply unchecked_not_included.
  - intros Hc. rewrite filter_app. cbn. rewrite jsstring_eqb_refl. cbn.
    rewrite app_nil_r. now apply strict_eq_includes.
Qed.

(** A bulk action other than the deletion contacts nobody and leaves
    the list of sessions as it is.  With an empty selection nothing
    happens at all; otherwise the archive action only writes a line to
    the console, any other action writes nothing, and both empty the
    selection. *)
Theorem bulk_action_without_deletion :
  forall (s : State) (log : list event) (action : jsstring),
    (selectedSessions s = [] ->
       handleBulkAction env backend s action (s, log) = ((s, log), Returned tt))
    /\ (selectedSessions s <> [] ->
       handleBulkAction env backend s (js "archive") (s, log)
       = (({| sessions := sessions s; selectedSessions := []; api := api s |},
           log ++ [ConsoleLog (js "log")
                     (js "Archive sessions: " ++ ToString (VArr (selectedSessions s)))]),
          Returned tt))
    /\ (selectedSessions s <> [] ->
        action <> js "delete" -> action <> js "archive" ->
       handleBulkAction env backend s action (s, log)
       = (({| sessions := sessions s; selectedSessions := []; api := api s |}, log),
          Returned tt)).
Proof.
  intros s log action. unfold handleBulkAction. split; [|split].
  - intros ->. reflexivity.
  - intros H. destruct (selectedSessions s) as [|x l]; [contradiction|].
    reflexivity.
  - intros H Hd Ha. destruct (selectedSessions s) as [|x l]; [contradiction|].
    cbn [List.length Nat.eqb].
    destruct (jsstring_eqb action (js "delete")) eqn:Ed.
    { apply jsstring_eqb_eq in Ed. contradiction. }
    destruct (jsstring_eqb action (js "archive")) eqn:Ea.
    { apply jsstring_eqb_eq in Ea. contradiction. }
    reflexivity.
Qed.

(** When a deletion of a bulk delete fails, the sessions before it in
    the selection have been deleted on the backend, no request is
    issued for the ones after it, and the dashboard keeps both its list
    and its selection as they were: the sessions already deleted stay
    displayed and selected, and the failure is only logged. *)
Theorem bulk_delete_partial_failure :
  forall (s : State) (log : list event) (pre post : list value) (id : value),
    selectedSessions s = pre ++ id :: post ->
    (forall k x, nth_error pre k = Some x ->
       exists data,
         parsed_answer (backend (List.length (requests log) + k) (delete_request x))
         = Some data) ->
    parsed_answer (backend (List.length (requests log) + List.length pre)
                     (delete_request id)) = None ->
    requests (snd (fst (handleBulkAction env backend s (js "delete") (s, log))))
    = requests log ++ map (fun x => delete_request x) (pre ++ [id])
    /\ sessions (fst (fst (handleBulkAction env backend s (js "delete") (s, log))))
       = sessions s
    /\ selectedSessions
         (fst (fst (handleBulkAction env backend s (js "delete") (s, log))))
       = selectedSessions s
    /\ snd (handleBulkAction env backend s (js "delete") (s, log)) = Returned tt
    /\ exists m,
         last (snd (fst (handleBulkAction env backend s (js "delete") (s, log))))
           (SetLoading true)
         = ConsoleLog (js "error") (js "Erreur action groupée: " ++ m).
Proof.
  intros s log pre post id Hsel Hpre Hid.
  destruct (delete_loop_stops env backend id post pre s log Hpre Hid) as [e He].
  assert (Hrun :
    handleBulkAction env backend s (js "delete") (s, log)
    = ((set_api {| UseApi.loading := false; UseApi.error := VStr (message e) |} s,
        (log ++ flat_map (fun x => delete_effects x) pre
             ++ failed_delete_effects id (message e))
        ++ [ConsoleLog (js "error") (js "Erreur action groupée: " ++ message e)]),
       Returned tt)).
  { unfold handleBulkAction. rewrite Hsel.
    replace (Nat.eqb (List.length (pre ++ id :: post)) 0) with false
      by (rewrite length_app; cbn; symmetry; apply Nat.eqb_neq; lia).
    replace (jsstring_eqb (js "delete") (js "delete")) with true by reflexivity.
    unfold try_catch. unfold bind at 1. unfold bind at 1. rewrite He.
    reflexivity. }
  rewrite Hrun. cbn [fst snd sessions selectedSessions set_api].
  repeat split.
  - rewrite !requests_app, requests_delete_effects. cbn [requests flat_map app].
    rewrite !app_nil_r, map_app. reflexivity.
  - exists (message e). now rewrite last_last.
Qed.

End DashboardMoreFacts.

Lemma selection_check_uncheck_witness :
  (DashboardSelection.checked
     (fst (fst (DashboardSelection.onChange Samples.two_selected
                  MoreSamples.third_session true (Samples.two_selected, []))))
     MoreSamples.third_session = true
   /\ SessionDashboard.selectedSessions
        (fst (fst (DashboardSelection.onChange
                     (fst (fst (DashboardSelection.onChange Samples.two_selected
                                  MoreSamples.third_session true
                                  (Samples.two_selected, []))))
                     MoreSamples.third_session false
                     (fst (fst (DashboardSelection.onChange Samples.two_selected
                                  MoreSamples.third_session true
                                  (Samples.two_selected, []))), []))))
      = [VStr (js "s1"); VStr (js "s2")])
  /\ DashboardSelection.checked Samples.two_selected MoreSamples.first_session = true
  /\ DashboardSelection.checked
       (fst (fst (DashboardSelection.onChange Samples.two_selected
                    MoreSamples.first_session false (Samples.two_selected, []))))
       MoreSamples.first_session = false.
Proof.
  split; [split|split; [reflexivity|]].
  - exact (proj1 (selection_check_uncheck Samples.two_selected
                    MoreSamples.third_session (js "s3") [] eq_refl)).
  - exact (proj2 (proj2 (selection_check_uncheck Samples.two_selected
                           MoreSamples.third_session (js "s3") [] eq_refl))
             eq_refl).
  - exact (proj1 (proj2 (selection_check_uncheck Samples.two_selected
                           MoreSamples.first_session (js "s1") [] eq_refl))).
Defined.

Lemma bulk_delete_partial_failure_witness :
  requests
    (snd (fst (SessionDashboard.handleBulkAction VUndefined
                 MoreSamples.second_refused_backend Samples.two_selected
                 (js "delete") (Samples.two_selected, []))))
  = [ {| url := js "http://localhost:5000/api/sessions/s1";
         req_method := DELETE; body := None |};
      {| url := js "http://localhost:5000/api/sessions/s2";
         req_method := DELETE; body := None |} ]
  /\ SessionDashboard.sessions
       (fst (fst (SessionDashboard.handleBulkAction VUndefined
                    MoreSamples.second_refused_backend Samples.two_selected
                    (js "delete") (Samples.two_selected, []))))
     = SessionDashboard.sessions Samples.two_selected
  /\ SessionDashboard.selectedSessions
       (fst (fst (SessionDashboard.handleBulkAction VUndefined
                    MoreSamples.second_refused_backend Samples.two_selected
                    (js "delete") (Samples.two_selected, []))))
     = [VStr (js "s1"); VStr (js "s2")]
  /\ snd (SessionDashboard.handleBulkAction VUndefined
            MoreSamples.second_refused_backend Samples.two_selected
            (js "delete") (Samples.two_selected, []))
     = Returned tt
  /\ exists m,
       last (snd (fst (SessionDashboard.handleBulkAction VUndefined
                         MoreSamples.second_refused_backend Samples.two_selected
                         (js "delete") (Samples.two_selected, []))))
         (SetLoading true)
       = ConsoleLog (js "error") (js "Erreur action groupée: " ++ m).
Proof.
  assert (Hpre : forall k x, nth_error [VStr (js "s1")] k = Some x ->
    exists data,
      Answers.parsed_answer
        (MoreSamples.second_refused_backend (List.length (requests []) + k)
           {| url := UseApi.API_BASE_URL VUndefined ++ js "/sessions/" ++ ToString x;
              req_method := DELETE; body := None |})
      = Some data).
  { intros [|[|k]] x H; [|discriminate H|discriminate H].
    exists (VObj []). reflexivity. }
  exact (bulk_delete_partial_failure VUndefined MoreSamples.second_refused_backend
           Samples.two_selected [] [VStr (js "s1")] [] (VStr (js "s2"))
           eq_refl Hpre eq_refl).
Defined.

(* ------------------------------------------------------------------ *)
(** ** The file name of a download: the usual headers *)
(* ------------------------------------------------------------------ *)

Section HeaderFormFacts.
Import RegExp ContentDisposition HeaderScan URI.

Lemma canon_f (c : code_unit) :
  c <> 102%N -> c <> 70%N -> (canon 102 =? canon c)%N = false.
Proof.
  intros H1 H2. apply N.eqb_neq. unfold canon.
  change ((97 <=? 102)%N && (102 <=? 122)%N) with true. cbv iota.
  destruct ((97 <=? c)%N && (c <=? 122)%N) eqn:E.
  - apply andb_true_iff in E as [E1 E2]. apply N.leb_le in E1. lia.
  - intros H. apply H2. symmetry. exact H.
Qed.

Lemma canon_quote (c : code_unit) :
  c <> 34%N -> (canon 34 =? canon c)%N = false.
Proof.
  intros H1. apply N.eqb_neq. unfold canon.
  change ((97 <=? 34)%N && (34 <=? 122)%N) with false. cbv iota.
  destruct ((97 <=? c)%N && (c <=? 122)%N) eqn:E.
  - apply andb_true_iff in E as [E1 E2]. apply N.leb_le in E1. lia.
  - intros H. apply H1. symmetry. exact H.
Qed.

Lemma lit_app (p s : jsstring) : lit p (p ++ s) = Some s.
Proof.
  induction p as [|x p IH]; [reflexivity|].
  cbn [app lit]. now rewrite N.eqb_refl.
Qed.

Lemma lit_app_mismatch (p q s : jsstring) (a b : code_unit) :
  (canon a =? canon b)%N = false -> lit (p ++ a :: q) (p ++ b :: s) = None.
Proof.
  intros H. induction p as [|x p IH].
  - cbn [app lit]. now rewrite H.
  - cbn [app lit]. now rewrite N.eqb_refl.
Qed.

Lemma parameter_here_not_f (c : code_unit) (s : jsstring) :
  c <> 102%N -> c <> 70%N -> parameter_here (c :: s) = None.
Proof.
  intros H1 H2. unfold parameter_here, star_here, quoted_here, bare_here.
  rewrite <- !lit_after_prefix.
  change (js "filename*=") with (102%N :: js "ilename*=").
  change (js "filename=" ++ [34%N]) with (102%N :: js "ilename=" ++ [34%N]).
  change (js "filename=") with (102%N :: js "ilename=").
  cbn [lit]. now rewrite (canon_f c H1 H2).
Qed.

Lemma parameter_here_nil : parameter_here [] = None.
Proof. reflexivity. Qed.

Lemma first_parameter_skip (prefix s : jsstring) :
  ~ In 102%N prefix -> ~ In 70%N prefix ->
  first_parameter (prefix ++ s) = first_parameter s.
Proof.
  induction prefix as [|c prefix IH]; intros H1 H2; [reflexivity|].
  cbn [app first_parameter].
  rewrite parameter_here_not_f.
  - apply IH; intros H; [apply H1 | apply H2]; now right.
  - intros ->. apply H1. now left.
  - intros ->. apply H2. now left.
Qed.

Lemma first_parameter_here (s : jsstring) (p : parameter) :
  parameter_here s = Some p -> first_parameter s = Some p.
Proof. intros H. destruct s; cbn [first_parameter]; now rewrite H. Qed.

Lemma span_not_app (c : code_unit) (v tail : jsstring) :
  ~ In c v -> tail = [] \/ (exists r, tail = c :: r) ->
  span_not c (v ++ tail) = v.
Proof.
  intros Hv Ht. induction v as [|x v IH].
  - destruct Ht as [-> | [r ->]]; [reflexivity|].
    cbn [app span_not]. now rewrite N.eqb_refl.
  - cbn [app span_not].
    destruct (N.eqb_spec x c) as [->|_]; [exfalso; apply Hv; now left|].
    f_equal. apply IH. intros H. apply Hv. now right.
Qed.

Lemma after_not_app (c : code_unit) (v r : jsstring) :
  ~ In c v -> after_not c (v ++ c :: r) = c :: r.
Proof.
  intros Hv. induction v as [|x v IH].
  - cbn [app after_not]. now rewrite N.eqb_refl.
  - cbn [app after_not].
    destruct (N.eqb_spec x c) as [->|_]; [exfalso; apply Hv; now left|].
    apply IH. intros H. apply Hv. now right.
Qed.

Lemma decode_plain (v : jsstring) :
  ~ In 37%N v -> decodeURIComponent v = Some v.
Proof.
  intros Hv. unfold decodeURIComponent.
  assert (Ht : tokens v = Some (map Raw v)).
  { induction v as [|x v IH]; [reflexivity|].
    cbn [tokens map].
    destruct (N.eqb_spec x 37) as [->|_]; [exfalso; apply Hv; now left|].
    rewrite IH; [reflexivity|]. intros H. apply Hv. now right. }
  rewrite Ht. clear. induction v as [|x v IH]; [reflexivity|].
  cbn [map decode_tokens]. now rewrite IH.
Qed.

Lemma leftmost_filename_first (h dflt : jsstring) :
  leftmost_filename (Some h) dflt
  = match first_parameter h with Some p => name_of p | None => dflt end.
Proof. destruct h; reflexivity. Qed.

Lemma filename_of_program (re : regex) (header : option jsstring) (dflt : jsstring) :
  In re [re_downloadFile; re_handleDownloadTemplate; re_handleDownloadFinalFile] ->
  filename_of re header dflt = leftmost_filename header dflt.
Proof.
  intros [<- | [<- | [<- | []]]].
  - apply filename_of_downloadFile.
  - apply filename_of_handleDownloadTemplate.
  - apply filename_of_handleDownloadFinalFile.
Qed.

(** The three download paths write the regular expression in three
    ways (UTF-8 in upper or lower case, with or without non-capturing
    groups); they give the same file name for every header and every
    default. *)
Theorem download_paths_agree :
  forall (header : option jsstring) (dflt : jsstring),
    filename_of re_handleDownloadTemplate header dflt
    = filename_of re_downloadFile header dflt
    /\ filename_of re_handleDownloadFinalFile header dflt
       = filename_of re_downloadFile header dflt.
Proof.
  intros header dflt.
  now rewrite filename_of_downloadFile, filename_of_handleDownloadTemplate,
    filename_of_handleDownloadFinalFile.
Qed.

(** On the headers a server usually sends, each download path gives
    the name one expects.  After a disposition that holds no letter f
    (attachment; or inline; for instance) and for a non-empty name
    without a double quote or a semicolon: a quoted filename= gives the
    name as it stands, whatever follows the closing quote; a bare
    filename= that ends the header or is followed by a semicolon gives
    the name trimmed; a filename*=UTF-8'' with a name free of percent
    signs gives the name as it stands.  A header that holds no letter f
    at all gives the default name. *)
Theorem usual_headers :
  forall (re : regex) (disposition name rest dflt : jsstring),
    In re [re_downloadFile; re_handleDownloadTemplate; re_handleDownloadFinalFile] ->
    ~ In 102%N disposition -> ~ In 70%N disposition ->
    name <> [] -> ~ In 34%N name -> ~ In 59%N name ->
    filename_of re
      (Some (disposition ++ js "filename=" ++ quote ++ name ++ quote ++ rest)) dflt
    = name
    /\ filename_of re (Some (disposition ++ js "filename=" ++ name)) dflt = trim name
    /\ filename_of re
         (Some (disposition ++ js "filename=" ++ name ++ js ";" ++ rest)) dflt
       = trim name
    /\ (~ In 37%N name ->
        filename_of re (Some (disposition ++ js "filename*=UTF-8''" ++ name)) dflt
        = name
        /\ filename_of re
             (Some (disposition ++ js "filename*=UTF-8''" ++ name ++ js ";" ++ rest))
             dflt
           = name)
    /\ filename_of re (Some disposition) dflt = dflt.
Proof.
  intros re disposition name rest dflt Hre Hf HF Hne Hq Hs.
  rewrite !(filename_of_program re _ dflt Hre), !leftmost_filename_first.
  assert (Hstar : forall tail,
    star_here (js "filename=" ++ tail) = None).
  { intros tail. unfold star_here. rewrite <- lit_after_prefix.
    change (js "filename*=") with (js "filename" ++ 42%N :: js "=").
    change (js "filename=" ++ tail) with (js "filename" ++ 61%N :: tail).
    now rewrite lit_app_mismatch. }
  assert (Hbare : forall tail,
    tail = [] \/ (exists r, tail = 59%N :: r) ->
    first_parameter (disposition ++ js "filename=" ++ name ++ tail)
    = Some (Bare name)).
  { intros tail Ht. rewrite first_parameter_skip by assumption.
    apply first_parameter_here. unfold parameter_here.
    rewrite Hstar. unfold quoted_here, bare_here. rewrite <- !lit_after_prefix.
    destruct name as [|c name']; [contradiction|].
    change (js "filename=" ++ [34%N]) with (js "filename=" ++ 34%N :: []).
    change (js "filename=" ++ (c :: name') ++ tail)
      with (js "filename=" ++ c :: (name' ++ tail)).
    rewrite lit_app_mismatch
      by (apply canon_quote; intros ->; apply Hq; now left).
    rewrite lit_app.
    change (c :: name' ++ tail) with ((c :: name') ++ tail).
    now rewrite (span_not_app 59%N (c :: name') tail Hs Ht). }
  assert (Hstarred : forall tail,
    tail = [] \/ (exists r, tail = 59%N :: r) ->
    first_parameter (disposition ++ js "filename*=UTF-8''" ++ name ++ tail)
    = Some (Star name)).
  { intros tail Ht. rewrite first_parameter_skip by assumption.
    apply first_parameter_here. unfold parameter_here, star_here.
    rewrite <- lit_after_prefix.
    change (js "filename*=UTF-8''" ++ name ++ tail)
      with (js "filename*=" ++ js "UTF-8''" ++ name ++ tail).
    rewrite lit_app. rewrite <- lit_after_prefix.
    rewrite lit_app, (span_not_app 59%N name tail Hs Ht).
    now destruct name. }
  repeat split.
  - rewrite first_parameter_skip by assumption.
    rewrite (first_parameter_here _ (Quoted name)); [reflexivity|].
    unfold parameter_here. rewrite Hstar. unfold quoted_here.
    rewrite <- lit_after_prefix.
    change (js "filename=" ++ quote ++ name ++ quote ++ rest)
      with ((js "filename=" ++ [34%N]) ++ name ++ 34%N :: rest).
    rewrite lit_app. cbv beta iota.
    pose proof (after_not_app 34%N name rest Hq) as Ha.
    pose proof (span_not_app 34%N name (34%N :: rest) Hq
                  (or_intror (ex_intro _ rest eq_refl))) as Hn.
    cbv [code_unit jsstring] in Ha, Hn |- *. rewrite Ha, Hn.
    now destruct name.
  - rewrite <- (app_nil_r name) at 1. rewrite Hbare by now left. reflexivity.
  - change (js ";" ++ rest) with (59%N :: rest).
    rewrite Hbare by (right; now eexists). reflexivity.
  - rewrite <- (app_nil_r name) at 1. rewrite Hstarred by now left.
    cbn [name_of]. now rewrite decode_plain.
  - change (js ";" ++ rest) with (59%N :: rest).
    rewrite Hstarred by (right; now eexists).
    cbn [name_of]. now rewrite decode_plain.
  - rewrite <- (app_nil_r disposition).
    rewrite first_parameter_skip by assumption. reflexivity.
Qed.

End HeaderFormFacts.

Lemma usual_headers_witness :
  ContentDisposition.filename_of ContentDisposition.re_handleDownloadTemplate
    (Some (js "attachment; filename=" ++ ContentDisposition.quote
           ++ js "template abc123.xlsx" ++ ContentDisposition.quote
           ++ js "; size=2048"))
    (js "inventaire_template_abc123.xlsx")
  = js "template abc123.xlsx"
  /\ ContentDisposition.filename_of ContentDisposition.re_handleDownloadTemplate
       (Some (js "attachment; filename*=UTF-8''" ++ js "template abc123.xlsx"))
       (js "inventaire_template_abc123.xlsx")
     = js "template abc123.xlsx"
  /\ ContentDisposition.filename_of ContentDisposition.re_handleDownloadTemplate
       (Some (js "attachment; "))
       (js "inventaire_template_abc123.xlsx")
     = js "inventaire_template_abc123.xlsx".
Proof.
  assert (Hre : In ContentDisposition.re_handleDownloadTemplate
                  [ContentDisposition.re_downloadFile;
                   ContentDisposition.re_handleDownloadTemplate;
                   ContentDisposition.re_handleDownloadFinalFile])
    by (right; left; reflexivity).
  assert (Hf : ~ In 102%N (js "attachment; ")) by (vm_compute; intuition discriminate).
  assert (HF : ~ In 70%N (js "attachment; ")) by (vm_compute; intuition discriminate).
  assert (Hne : js "template abc123.xlsx" <> []) by (vm_compute; discriminate).
  assert (Hq : ~ In 34%N (js "template abc123.xlsx"))
    by (vm_compute; intuition discriminate).
  assert (Hs : ~ In 59%N (js "template abc123.xlsx"))
    by (vm_compute; intuition discriminate).
  assert (Hp : ~ In 37%N (js "template abc123.xlsx"))
    by (vm_compute; intuition discriminate).
  destruct (usual_headers ContentDisposition.re_handleDownloadTemplate
              (js "attachment; ") (js "template abc123.xlsx") (js "; size=2048")
              (js "inventaire_template_abc123.xlsx") Hre Hf HF Hne Hq Hs)
    as (Hquoted & _ & _ & Hstar & Hdflt).
  split; [exact Hquoted|]. split; [exact (proj1 (Hstar Hp)) | exact Hdflt].
Defined.

(* ------------------------------------------------------------------ *)
(** ** Starting over, and the error boundary *)
(* ------------------------------------------------------------------ *)

Section ResetFacts.
Import App AppHandlers.

(** Resetting brings the root component back to the state it is mounted
    with, whatever state it was in: no file, both phases idle, no
    result, no error text, step 0.  It contacts nobody and shows one
    information toast, and the page then renders as at mount: no
    progress indicator, the first card with its empty drop zone and the
    second card disabled. *)
Theorem resetAll_restores_mount_state :
  forall (s : State) (log : list event),
    resetAll (s, log)
    = ((initial, log ++ [Toast info (js "Session réinitialisée")]), Returned tt)
    /\ requests (snd (fst (resetAll (s, log)))) = requests log
    /\ progressIndicator (fst (fst (resetAll (s, log)))) = None
    /\ card1 (fst (fst (resetAll (s, log))))
       = {| dropZone1 := true; selectedFile1 := false; uploadButton := false;
            sessionBadge := false; spinner1 := false; result1 := false |}
    /\ disabled2 (card2 (fst (fst (resetAll (s, log))))) = true.
Proof.
  intros s log.
  assert (Hrun : resetAll (s, log)
    = ((initial, log ++ [Toast info (js "Session réinitialisée")]), Returned tt))
    by reflexivity.
  rewrite Hrun. cbn [fst snd]. repeat split.
  rewrite requests_app. cbn. apply app_nil_r.
Qed.

End ResetFacts.

Section ErrorBoundaryFacts.
Import ErrorBoundary.

(** One failure caught: the flag, the error and its stack are set and
    one line goes to the console. *)
Lemma caught_sets_flag (e : exn) (info : jsstring) (s : State) (log : list event) :
  caught e info (s, log)
  = (({| hasError := true; error := Some e; errorInfo := Some info |},
      log ++ [ConsoleLog (js "error")
                (js "ErrorBoundary caught an error: " ++ message e ++ js " " ++ info)]),
     Returned tt).
Proof. reflexivity. Qed.

(** Before any failure the boundary renders its children.  Once a
    failure below it has been caught it renders the recovery screen,
    with the details of the error exactly in development, and no later
    failure brings the children back: the state has no way from the
    recovery screen to the children. *)
Theorem boundary_keeps_recovery_screen :
  forall (development : bool) (s : State) (log : list event)
         (first : exn * jsstring) (later : list (exn * jsstring)),
    render development initial = Children
    /\ render development
         (fst (fst (for_of (first :: later)
                      (fun failure => caught (fst failure) (snd failure))
                      (s, log))))
       = RecoveryScreen development.
Proof.
  intros development s log first later. split; [reflexivity|].
  revert s log first. induction later as [|f later IH]; intros s log first.
  - cbn [for_of]. unfold bind. rewrite caught_sets_flag. cbn.
    now rewrite andb_true_r.
  - change (for_of (first :: f :: later)
              (fun failure => caught (fst failure) (snd failure)) (s, log))
      with ((caught (fst first) (snd first) ;;
             for_of (f :: later)
               (fun failure => caught (fst failure) (snd failure))) (s, log)).
    unfold bind at 1. rewrite caught_sets_flag. apply IH.
Qed.

End ErrorBoundaryFacts.
